(** * Background task schedulers and task stores of aiagents-stock

    A shallow embedding of the three scheduler / task-store pairs
    ([selector_scheduler.py] + [selector_task_db.py],
     [stock_analysis_scheduler.py] + [stock_analysis_task_db.py],
     [main_force_batch_scheduler.py] + [main_force_batch_db.py])
    and of the result normalizers they share.

    Layout: Part I holds the definitions (Python values, the normalizers,
    the three stores, the effect monad, the workers, the transition system
    of the selector scheduler); Part II holds the lemmas and theorems. *)

From stdpp Require Import base gmap strings pretty list.
From Stdlib Require Import ZArith QArith Permutation.

Set Default Proof Using "Type".
Set Warnings "-register-all".
Close Scope Q_scope.
Open Scope string_scope.
Open Scope list_scope.
Open Scope nat_scope.

(* ===================================================================== *)
(** * Part I: definitions                                                *)
(* ===================================================================== *)

(** ** Python values and exceptions *)

Module Py.

(** Exception classes that the modelled code can meet.  Everything here
    derives from [Exception]; [KeyboardInterrupt] and [SystemExit] are
    outside the model, so [except Exception] and a bare [except:] catch
    the same things. *)
Inductive exn_class :=
| AttributeError | TypeError | ValueError | TimeoutError | ZeroDivisionError
| IntegrityError | OperationalError | RuntimeError | RecursionError.

(** An exception: its class and the text [str(e)] gives for it.  In this
    model [str(e)] always returns; an exception whose [__str__] raises is
    outside the model. *)
Record pyexn := { exn_cls : exn_class; exn_msg : string }.

(** The result of evaluating a Python expression: a value or a raised
    exception. *)
Inductive outcome (A : Type) :=
| Returned (a : A)
| Raised (e : pyexn).
Arguments Returned {A} a.
Arguments Raised {A} e.

Definition is_returned {A} (o : outcome A) : bool :=
  match o with Returned _ => true | Raised _ => false end.

(** Hashable values used as dictionary keys, column labels and Series
    index labels.  [KOther] is any other hashable object (a tuple, a
    Timestamp, ...), named by its repr. *)
Inductive pykey :=
| KStr (s : string)
| KInt (n : Z)
| KFloat (x : Q)
| KBool (b : bool)
| KNone
| KOther (repr : string).

(** An object of a type that the modelled code knows nothing about, given
    by what the operations that the code applies to it do.  It has no
    attribute [get], [items] or [keys]: a mapping that is not a dict, a
    Series or a DataFrame is outside the model. *)
Record pyobject := {
  obj_type : string;          (* type(obj).__name__ *)
  obj_str : outcome string;   (* str(obj) *)
  obj_bool : outcome bool     (* bool(obj) *)
}.

(** Python values as the modelled code tells them apart.  A float is kept
    as the rational it stands for (rounding is not modelled).  A DataFrame
    is its sequence of rows, each row the mapping from column label to cell
    that [to_dict('records')] yields for it (the rows list the same columns
    in the same order; a frame without rows has no columns; the index is
    the position of the row); a Series is its index-to-value mapping. *)
Inductive pyval :=
| PNone
| PStr (s : string)
| PInt (n : Z)
| PFloat (x : Q)
| PBool (b : bool)
| PDataFrame (rows : list (list (pykey * pyval)))
| PSeries (items : list (pykey * pyval))
| PDict (items : list (pykey * pyval))
| PList (l : list pyval)
| PTuple (l : list pyval)
| PObject (o : pyobject).

(** [for x in xs: ys.append(f(x))], stopping at the first exception. *)
Definition mapM {A B} (f : A → outcome B) : list A → outcome (list B) :=
  fix go (xs : list A) : outcome (list B) :=
    match xs with
    | [] => Returned []
    | x :: xs' =>
        match f x with
        | Raised e => Raised e
        | Returned y =>
            match go xs' with
            | Raised e => Raised e
            | Returned ys => Returned (y :: ys)
            end
        end
    end.

(** [len(df)], [df.head(n)], [df.to_dict('records')]. *)
Definition df_len (rows : list (list (pykey * pyval))) : nat := length rows.
Definition df_head (n : nat) (rows : list (list (pykey * pyval)))
  : list (list (pykey * pyval)) := take n rows.
Definition to_dict_records (rows : list (list (pykey * pyval))) : pyval :=
  PList (map PDict rows).
Arguments df_head : simpl never.

(** [series.to_dict()]. *)
Definition series_to_dict (items : list (pykey * pyval)) : pyval := PDict items.

(** [str(obj)] for an object of a type the normalizers do not know: the
    object's own [__str__] returns a string or raises. *)
Definition py_str (o : pyobject) : outcome string := obj_str o.

(** [type(v).__name__] *)
Definition type_name (v : pyval) : string :=
  match v with
  | PNone => "NoneType"
  | PStr _ => "str"
  | PInt _ => "int"
  | PFloat _ => "float"
  | PBool _ => "bool"
  | PDataFrame _ => "DataFrame"
  | PSeries _ => "Series"
  | PDict _ => "dict"
  | PList _ => "list"
  | PTuple _ => "tuple"
  | PObject o => obj_type o
  end.

(** The [AttributeError] of [v.name] on a value without that attribute. *)
Definition no_attribute {A} (v : pyval) (name : string) : outcome A :=
  Raised {| exn_cls := AttributeError;
            exn_msg := "'" +:+ type_name v +:+ "' object has no attribute '" +:+ name
                       +:+ "'" |}.

(** The [ValueError] of pandas for [bool(df)] and [bool(series)]. *)
Definition ambiguous {A} (kind : string) : outcome A :=
  Raised {| exn_cls := ValueError;
            exn_msg := "The truth value of a " +:+ kind +:+ " is ambiguous. "
                       +:+ "Use a.empty, a.bool(), a.item(), a.any() or a.all()." |}.

(** Truth value of a Python value, as [if v:] and [not v] take it: pandas
    refuses to give one for a DataFrame or a Series, an object of another
    type answers by its own [__bool__]. *)
Definition py_truthy (v : pyval) : outcome bool :=
  match v with
  | PNone => Returned false
  | PStr s => Returned (negb (String.eqb s ""))
  | PInt n => Returned (negb (Z.eqb n 0))
  | PFloat x => Returned (negb (Qeq_bool x 0))
  | PBool b => Returned b
  | PDataFrame _ => ambiguous "DataFrame"
  | PSeries _ => ambiguous "Series"
  | PDict items => Returned (negb (Nat.eqb (length items) 0))
  | PList l | PTuple l => Returned (negb (Nat.eqb (length l) 0))
  | PObject o => obj_bool o
  end.

Definition pykey_is_str (k : pykey) (name : string) : bool :=
  match k with KStr s => String.eqb s name | _ => false end.

(** [d[name]] lookup with a string key in the item list of a dict, or in
    the (label, value) list of a Series. *)
Fixpoint dict_find (items : list (pykey * pyval)) (name : string) : option pyval :=
  match items with
  | [] => None
  | (k, v) :: rest => if pykey_is_str k name then Some v else dict_find rest name
  end.

(** The column of a DataFrame at position [j], as the Series that
    [df[label]] and [df.items()] give. *)
Definition df_column (rows : list (list (pykey * pyval))) (j : nat) : pyval :=
  PSeries (imap (λ i row, (KInt (Z.of_nat i), default PNone (snd <$> row !! j))) rows).

(** The column labels of a DataFrame. *)
Definition df_columns (rows : list (list (pykey * pyval))) : list pykey :=
  match rows with
  | [] => []
  | row :: _ => row.*1
  end.

(** The position of the first label that is the string [name]. *)
Fixpoint label_index (labels : list pykey) (name : string) : option nat :=
  match labels with
  | [] => None
  | k :: rest => if pykey_is_str k name then Some 0 else S <$> label_index rest name
  end.

(** [obj.get(name, default)]: dicts, Series and DataFrames have a [get];
    on any other value of the model the attribute lookup raises
    [AttributeError]. *)
Definition py_get (obj : pyval) (name : string) (default : pyval) : outcome pyval :=
  match obj with
  | PDict items =>
      Returned (match dict_find items name with Some v => v | None => default end)
  | PSeries items =>
      Returned (match dict_find items name with Some v => v | None => default end)
  | PDataFrame rows =>
      Returned (match label_index (df_columns rows) name with
                | Some j => df_column rows j
                | None => default
                end)
  | _ => no_attribute obj "get"
  end.

(** The truth value of [obj.get(name)], as [if obj.get(name):] and
    [if not obj.get(name):] take it. *)
Definition py_get_truthy (obj : pyval) (name : string) : outcome bool :=
  match py_get obj name PNone with
  | Returned v => py_truthy v
  | Raised e => Raised e
  end.

(** [obj.items()]: the items of a dict, the (label, value) pairs of a
    Series, the (label, column) pairs of a DataFrame. *)
Definition py_items (obj : pyval) : outcome (list (pykey * pyval)) :=
  match obj with
  | PDict items | PSeries items => Returned items
  | PDataFrame rows => Returned (imap (λ j k, (k, df_column rows j)) (df_columns rows))
  | _ => no_attribute obj "items"
  end.

(** A key as a value, as [list(d.keys())] holds it. *)
Definition key_value (k : pykey) : pyval :=
  match k with
  | KStr s => PStr s
  | KInt n => PInt n
  | KFloat x => PFloat x
  | KBool b => PBool b
  | KNone => PNone
  | KOther repr =>
      PObject {| obj_type := "object"; obj_str := Returned repr; obj_bool := Returned true |}
  end.


(** [ThreadPoolExecutor(max_workers=n)] refuses a pool of no workers. *)
Definition thread_pool (max_workers : nat) : outcome unit :=
  if max_workers =? 0
  then Raised {| exn_cls := ValueError; exn_msg := "max_workers must be greater than 0" |}
  else Returned tt.

End Py.
Import Py.

(** ** The result normalizers *)

Module Normalizer.

(** [SelectorTaskDB._clean_for_json] (selector_task_db.py, 64-83);
    [StockAnalysisTaskDB._clean_for_json] (stock_analysis_task_db.py,
    63-83) is the same function text. *)
Fixpoint _clean_for_json (obj : pyval) : outcome pyval :=
  match obj with
  | PNone => Returned PNone
  | PStr _ | PInt _ | PFloat _ | PBool _ => Returned obj
  | PDataFrame rows =>
      if 100 <? df_len rows
      then Returned (to_dict_records (df_head 100 rows))
      else Returned (to_dict_records rows)
  | PSeries items => Returned (series_to_dict items)
  | PDict items =>
      match mapM (fun kv =>
                    match _clean_for_json (snd kv) with
                    | Returned v' => Returned (fst kv, v')
                    | Raised e => Raised e
                    end) items with
      | Returned items' => Returned (PDict items')
      | Raised e => Raised e
      end
  | PList l | PTuple l =>
      match mapM _clean_for_json l with
      | Returned l' => Returned (PList l')
      | Raised e => Raised e
      end
  | PObject o =>
      match py_str o with
      | Returned s => Returned (PStr s)
      | Raised _ => Returned PNone
      end
  end.

(** The sentinel of [clean_value]. *)
Definition unserializable : string := "无法序列化".

(** [clean_value], local to [MainForceBatchDatabase._clean_results_for_json]
    (main_force_batch_db.py, 92-119). *)
Fixpoint clean_value (value : pyval) : outcome pyval :=
  match value with
  | PNone => Returned PNone
  | PDataFrame rows =>
      if 100 <? df_len rows
      then Returned (to_dict_records (df_head 100 rows))
      else Returned (to_dict_records rows)
  | PSeries items => Returned (series_to_dict items)
  | PDict items =>
      match mapM (fun kv =>
                    match clean_value (snd kv) with
                    | Returned v' => Returned (fst kv, v')
                    | Raised e => Raised e
                    end) items with
      | Returned items' => Returned (PDict items')
      | Raised e => Raised e
      end
  | PList l | PTuple l =>
      match mapM clean_value l with
      | Returned l' => Returned (PList l')
      | Raised e => Raised e
      end
  | PStr _ | PInt _ | PFloat _ | PBool _ => Returned value
  | PObject o =>
      match py_str o with
      | Returned s => Returned (PStr s)
      | Raised _ => Returned (PStr unserializable)
      end
  end.

(** Keys that [json.dumps] accepts: str, int, float, bool, None. *)
Definition json_key (k : pykey) : bool :=
  match k with KOther _ => false | _ => true end.

(** Values built only from None, strings, numbers, booleans and dicts
    and lists of such values, with keys that JSON accepts. *)
Fixpoint json_safe (v : pyval) : bool :=
  match v with
  | PNone | PStr _ | PInt _ | PFloat _ | PBool _ => true
  | PDict items => forallb (fun kv => json_key (fst kv) && json_safe (snd kv)) items
  | PList l => forallb json_safe l
  | PDataFrame _ | PSeries _ | PTuple _ | PObject _ => false
  end.

(** Inputs on which the normalizers yield a JSON-safe value: the keys of
    dicts are keys JSON accepts, and the cells of a DataFrame or Series,
    which are handed on as they are, are JSON-safe already. *)
Fixpoint plain (v : pyval) : bool :=
  match v with
  | PNone | PStr _ | PInt _ | PFloat _ | PBool _ | PObject _ => true
  | PDataFrame rows =>
      forallb (fun row => forallb (fun kv => json_key (fst kv) && json_safe (snd kv)) row) rows
  | PSeries items => forallb (fun kv => json_key (fst kv) && json_safe (snd kv)) items
  | PDict items => forallb (fun kv => json_key (fst kv) && plain (snd kv)) items
  | PList l | PTuple l => forallb plain l
  end.

(** Values whose DataFrame and Series cells are fixed by the normalizer.
    Only the cells matter: keys are never rewritten. *)
Fixpoint normal (v : pyval) : bool :=
  match v with
  | PNone | PStr _ | PInt _ | PFloat _ | PBool _ => true
  | PDict items => forallb (fun kv => normal (snd kv)) items
  | PList l => forallb normal l
  | PDataFrame _ | PSeries _ | PTuple _ | PObject _ => false
  end.

Fixpoint cells_normal (v : pyval) : bool :=
  match v with
  | PNone | PStr _ | PInt _ | PFloat _ | PBool _ | PObject _ => true
  | PDataFrame rows => forallb (fun row => forallb (fun kv => normal (snd kv)) row) rows
  | PSeries items => forallb (fun kv => normal (snd kv)) items
  | PDict items => forallb (fun kv => cells_normal (snd kv)) items
  | PList l | PTuple l => forallb cells_normal l
  end.

(** The rows of a normalized tabular payload. *)
Definition payload_rows (o : outcome pyval) : list pyval :=
  match o with
  | Returned (PList l) => l
  | _ => []
  end.

(** A table of [n] rows with one column. *)
Definition table_of (n : nat) : pyval :=
  PDataFrame (map (λ i, [(KStr "code", PInt (Z.of_nat i))]) (seq 0 n)).

(** Values that are neither scalar, tabular, associative nor sequential. *)
Definition other_type (v : pyval) : bool :=
  match v with PObject _ => true | _ => false end.

(** The body of the dict comprehension [{k: f(v) for k, v in obj.items()}]
    for one item. *)
Definition item_with (f : pyval → outcome pyval) (kv : pykey * pyval)
  : outcome (pykey * pyval) :=
  match f kv.2 with
  | Returned v' => Returned (kv.1, v')
  | Raised e => Raised e
  end.

(** An object whose [__str__] raises. *)
Definition unprintable : pyval :=
  PObject {| obj_type := "Broken";
             obj_str := Raised {| exn_cls := RuntimeError; exn_msg := "__str__ failed" |};
             obj_bool := Returned true |}.

(** A one-row table whose [date] cell is a Timestamp object. *)
Definition dated_table : pyval :=
  PDataFrame [[(KStr "date",
                 PObject {| obj_type := "Timestamp";
                            obj_str := Returned "2024-01-02 00:00:00";
                            obj_bool := Returned true |});
                (KStr "close", PFloat (21 # 2))]].

(** The interpreter bounds the nesting of calls: a call made when no
    further call may be nested raises [RecursionError]. *)
Definition recursion_error {A} : outcome A :=
  Raised {| exn_cls := RecursionError;
            exn_msg := "maximum recursion depth exceeded" |}.

(** [_clean_for_json] as run by an interpreter that allows [depth] more
    nested calls of it, the call itself included ([_clean_for_json] above is
    the function as it runs while the stack suffices; the calls of other
    functions are taken to fit). *)
Fixpoint _clean_for_json_within (depth : nat) (obj : pyval) : outcome pyval :=
  match depth with
  | 0 => recursion_error
  | S depth =>
      match obj with
      | PNone => Returned PNone
      | PStr _ | PInt _ | PFloat _ | PBool _ => Returned obj
      | PDataFrame rows =>
          if 100 <? df_len rows
          then Returned (to_dict_records (df_head 100 rows))
          else Returned (to_dict_records rows)
      | PSeries items => Returned (series_to_dict items)
      | PDict items =>
          match mapM (item_with (_clean_for_json_within depth)) items with
          | Returned items' => Returned (PDict items')
          | Raised e => Raised e
          end
      | PList l | PTuple l =>
          match mapM (_clean_for_json_within depth) l with
          | Returned l' => Returned (PList l')
          | Raised e => Raised e
          end
      | PObject o =>
          match py_str o with
          | Returned s => Returned (PStr s)
          | Raised _ => Returned PNone
          end
      end
  end.

(** [clean_value] as run by an interpreter that allows [depth] more nested
    calls of it. *)
Fixpoint clean_value_within (depth : nat) (value : pyval) : outcome pyval :=
  match depth with
  | 0 => recursion_error
  | S depth =>
      match value with
      | PNone => Returned PNone
      | PDataFrame rows =>
          if 100 <? df_len rows
          then Returned (to_dict_records (df_head 100 rows))
          else Returned (to_dict_records rows)
      | PSeries items => Returned (series_to_dict items)
      | PDict items =>
          match mapM (item_with (clean_value_within depth)) items with
          | Returned items' => Returned (PDict items')
          | Raised e => Raised e
          end
      | PList l | PTuple l =>
          match mapM (clean_value_within depth) l with
          | Returned l' => Returned (PList l')
          | Raised e => Raised e
          end
      | PStr _ | PInt _ | PFloat _ | PBool _ => Returned value
      | PObject o =>
          match py_str o with
          | Returned s => Returned (PStr s)
          | Raised _ => Returned (PStr unserializable)
          end
      end
  end.

(** How deep the dicts, lists and tuples of a value are nested: the number
    of nested calls that normalizing the value takes. *)
Fixpoint nesting (v : pyval) : nat :=
  match v with
  | PDict items => S (foldr (λ kv n, nesting kv.2 `max` n) 0 items)
  | PList l | PTuple l => S (foldr (λ x n, nesting x `max` n) 0 l)
  | _ => 1
  end.

(** A list nested [n] deep around [None]. *)
Definition nested_list (n : nat) : pyval := Nat.iter n (λ v, PList [v]) PNone.

(** A dict with a tuple as key. *)
Definition tuple_keyed : pyval := PDict [(KOther "(1, 2)", PInt 1)].

(** [normalize(normalize(x))]. *)
Definition twice (f : pyval → outcome pyval) (x : pyval) : outcome pyval :=
  match f x with
  | Returned y => f y
  | Raised e => Raised e
  end.

End Normalizer.

(** ** [json.dumps] *)

Module Json.

(** Whether [json.dumps(v)] succeeds.  A tuple is written as a list; with
    [default=str] an object of an unknown type is written as [str(obj)],
    which must then return. *)
Fixpoint dumpable (default_str : bool) (v : pyval) : bool :=
  match v with
  | PNone | PStr _ | PInt _ | PFloat _ | PBool _ => true
  | PDict items =>
      forallb (λ kv, Normalizer.json_key kv.1 && dumpable default_str kv.2) items
  | PList l | PTuple l => forallb (dumpable default_str) l
  | PDataFrame _ | PSeries _ => default_str
  | PObject o => default_str && is_returned (py_str o)
  end.

(** [json.dumps(v, ensure_ascii=False)] and
    [json.dumps(v, ensure_ascii=False, default=str)].  The text is stood
    for by the value it was written from. *)
Definition dumps (default_str : bool) (v : pyval) : outcome pyval :=
  if dumpable default_str v then Returned v
  else Raised {| exn_cls := TypeError; exn_msg := "Object is not JSON serializable" |}.

End Json.

(** ** SQLite tables *)

Module Sql.

(** A stored value.  [JsonText v] is the text [json.dumps] wrote for [v];
    [Time t] is the text of the clock reading [t]. *)
Inductive value :=
| Null
| Text (s : string)
| Integer (n : Z)
| Real (x : Q)
| JsonText (doc : pyval)
| Time (t : nat).

(** A row maps column names to values; a table maps the key column
    ([task_id], PRIMARY KEY or UNIQUE) to rows. *)
Abbreviation row := (gmap string value).
Abbreviation table := (gmap string (gmap string value)).

(** [row['c']] *)
Definition col (r : row) (c : string) : value := default Null (r !! c).

Definition is_text (v : value) (s : string) : bool :=
  match v with Text s' => String.eqb s' s | _ => false end.

(** [v IN (s1, ..., sn)] *)
Definition text_in (v : value) (l : list string) : bool := existsb (is_text v) l.

(** Binding a Python value to a [?] placeholder; sqlite3 refuses a value
    that is not None, int, float or str. *)
Definition bind_param (v : pyval) : outcome value :=
  match v with
  | PNone => Returned Null
  | PStr s => Returned (Text s)
  | PInt n => Returned (Integer n)
  | PBool b => Returned (Integer (if b then 1 else 0))
  | PFloat x => Returned (Real x)
  | _ => Raised {| exn_cls := OperationalError;
                   exn_msg := "Error binding parameter - probably unsupported type" |}
  end.

(** [SET c1 = ?, c2 = ?, ...] applied to one row, left to right. *)
Definition set_columns (assignments : list (string * value)) (r : row) : row :=
  foldl (λ r a, <[a.1 := a.2]> r) r assignments.

(** [INSERT INTO t (c1, ...) VALUES (...)]: columns not listed take the
    defaults of the schema; a key already present violates the PRIMARY KEY
    (or UNIQUE) constraint. *)
Definition insert_into (defaults : row) (key : string)
    (columns : list (string * value)) (t : table) : outcome table :=
  match t !! key with
  | Some _ => Raised {| exn_cls := IntegrityError;
                        exn_msg := "UNIQUE constraint failed: task_id" |}
  | None => Returned (<[key := set_columns columns defaults]> t)
  end.

(** [UPDATE t SET ... WHERE task_id = ?] *)
Definition update_where (key : string) (assignments : list (string * value))
    (t : table) : table :=
  alter (set_columns assignments) key t.

(** [SELECT * FROM t WHERE p] (the order of the rows is not modelled). *)
Definition select_where (p : row → bool) (t : table) : list row :=
  filter (λ r, p r = true) ((map_to_list t).*2).

(** The five task states; the first two are the non-terminal ones. *)
Definition nonterminal (r : row) : bool := text_in (col r "status") ["pending"; "running"].
Definition terminal (r : row) : bool :=
  text_in (col r "status") ["completed"; "failed"; "cancelled"].
Definition terminal_status (s : string) : bool :=
  existsb (String.eqb s) ["completed"; "failed"; "cancelled"].

End Sql.

(** ** The effect monad: state and exceptions *)

Module Eff.

(** A computation over a world [W]: it ends with a value or a raised
    exception, and in both cases with the world it has reached. *)
Definition M (W A : Type) : Type := W → outcome A * W.

Definition ret {W A} (a : A) : M W A := λ w, (Returned a, w).
Definition raise {W A} (e : pyexn) : M W A := λ w, (Raised e, w).
Definition bind {W A B} (m : M W A) (k : A → M W B) : M W B :=
  λ w, match m w with
       | (Returned a, w') => k a w'
       | (Raised e, w') => (Raised e, w')
       end.
Definition lift {W A} (o : outcome A) : M W A := λ w, (o, w).
Definition get {W} : M W W := λ w, (Returned w, w).
Definition modify {W} (f : W → W) : M W unit := λ w, (Returned tt, f w).

(** [try: body  except Exception as e: handler(e)] *)
Definition try_except {W A} (body : M W A) (handler : pyexn → M W A) : M W A :=
  λ w, match body w with
       | (Returned a, w') => (Returned a, w')
       | (Raised e, w') => handler e w'
       end.

(** [try: body  finally: cleanup] *)
Definition try_finally {W A} (body : M W A) (cleanup : M W unit) : M W A :=
  λ w, match body w with
       | (r, w') =>
           match cleanup w' with
           | (Returned _, w'') => (r, w'')
           | (Raised e, w'') => (Raised e, w'')
           end
       end.

(** How the body of a loop ends: it falls through to the next element
    with the loop variables [st], it leaves the loop by [break], or it
    leaves the function by [return]. *)
Inductive flow (St : Type) :=
| Next (st : St)
| Break (st : St)
| Return.
Arguments Next {St} st.
Arguments Break {St} st.
Arguments Return {St}.

(** [for x in xs: body], with the loop variables [st]. *)
Fixpoint for_loop {W A St} (xs : list A) (st : St) (body : A → St → M W (flow St))
  : M W (flow St) :=
  match xs with
  | [] => ret (Next st)
  | x :: xs' =>
      bind (body x st)
        (λ f, match f with
              | Next st' => for_loop xs' st' body
              | Break st' => ret (Break st')
              | Return => ret Return
              end)
  end.

Definition world_of {W A} (r : outcome A * W) : W := r.2.
Definition result_of {W A} (r : outcome A * W) : outcome A := r.1.

End Eff.

Notation "'let!' x ':=' m 'in' k" := (Eff.bind m (λ x, k))
  (at level 10, x name, m at level 100, k at level 200,
   format "'[v' 'let!'  x  ':='  m  'in' '/' k ']'").
Notation "m ';;;' k" := (Eff.bind m (λ _, k))
  (at level 100, k at level 200, right associativity,
   format "'[v' m  ';;;' '/' k ']'").

(** ** Worlds: what a store and its scheduler run in *)

Module World.

(** The state that a run of store and scheduler code reads and writes.
    [Call] is the type of calls on the store and [Sched] that of the fields of
    the scheduler object.  The list [calls] keeps the store calls made so
    far; the source has no such record, it is kept here to state what a
    worker writes and in which order. *)
Record world (Call Sched : Type) := {
  tasks : Sql.table;        (* the task table of the store, by task_id *)
  history : list Sql.row;   (* table batch_analysis_history, oldest first *)
  clock : nat;              (* datetime.now() *)
  sql_faults : list bool;   (* per store call: does sqlite raise in it? *)
  uuids : list string;      (* what uuid.uuid4() will return *)
  calls : list Call;          (* store calls so far, oldest first *)
  is_set_reads : nat;       (* reads of the cancellation event so far *)
  cancel_at : option nat;   (* the read from which the event is found set *)
  sched : Sched             (* the scheduler object *)
}.
Arguments tasks {Call Sched} w.
Arguments history {Call Sched} w.
Arguments clock {Call Sched} w.
Arguments sql_faults {Call Sched} w.
Arguments uuids {Call Sched} w.
Arguments calls {Call Sched} w.
Arguments is_set_reads {Call Sched} w.
Arguments cancel_at {Call Sched} w.
Arguments sched {Call Sched} w.

Section updates.
Context {Call Sched : Type}.
Implicit Type w : world Call Sched.

Definition with_tasks (f : Sql.table → Sql.table) w : world Call Sched :=
  {| tasks := f (tasks w); history := history w; clock := clock w;
     sql_faults := sql_faults w; uuids := uuids w; calls := calls w;
     is_set_reads := is_set_reads w; cancel_at := cancel_at w; sched := sched w |}.
Definition with_history (f : list Sql.row → list Sql.row) w : world Call Sched :=
  {| tasks := tasks w; history := f (history w); clock := clock w;
     sql_faults := sql_faults w; uuids := uuids w; calls := calls w;
     is_set_reads := is_set_reads w; cancel_at := cancel_at w; sched := sched w |}.
Definition with_clock (f : nat → nat) w : world Call Sched :=
  {| tasks := tasks w; history := history w; clock := f (clock w);
     sql_faults := sql_faults w; uuids := uuids w; calls := calls w;
     is_set_reads := is_set_reads w; cancel_at := cancel_at w; sched := sched w |}.
Definition with_sql_faults (f : list bool → list bool) w : world Call Sched :=
  {| tasks := tasks w; history := history w; clock := clock w;
     sql_faults := f (sql_faults w); uuids := uuids w; calls := calls w;
     is_set_reads := is_set_reads w; cancel_at := cancel_at w; sched := sched w |}.
Definition with_uuids (f : list string → list string) w : world Call Sched :=
  {| tasks := tasks w; history := history w; clock := clock w;
     sql_faults := sql_faults w; uuids := f (uuids w); calls := calls w;
     is_set_reads := is_set_reads w; cancel_at := cancel_at w; sched := sched w |}.
Definition with_calls (f : list Call → list Call) w : world Call Sched :=
  {| tasks := tasks w; history := history w; clock := clock w;
     sql_faults := sql_faults w; uuids := uuids w; calls := f (calls w);
     is_set_reads := is_set_reads w; cancel_at := cancel_at w; sched := sched w |}.
Definition with_is_set_reads (f : nat → nat) w : world Call Sched :=
  {| tasks := tasks w; history := history w; clock := clock w;
     sql_faults := sql_faults w; uuids := uuids w; calls := calls w;
     is_set_reads := f (is_set_reads w); cancel_at := cancel_at w; sched := sched w |}.
Definition with_sched (f : Sched → Sched) w : world Call Sched :=
  {| tasks := tasks w; history := history w; clock := clock w;
     sql_faults := sql_faults w; uuids := uuids w; calls := calls w;
     is_set_reads := is_set_reads w; cancel_at := cancel_at w; sched := f (sched w) |}.

(** A world with an empty store and the scheduler object [s]. *)
Definition initial (faults : list bool) (ids : list string) (cancel : option nat) (s : Sched)
  : world Call Sched :=
  {| tasks := ∅; history := []; clock := 0; sql_faults := faults; uuids := ids;
     calls := []; is_set_reads := 0; cancel_at := cancel; sched := s |}.

(** [sqlite3.connect(...)] and the statements run on the connection: one
    flag of the fault oracle decides whether sqlite raises in this call. *)
Definition connect : Eff.M (world Call Sched) unit :=
  λ w, match sql_faults w with
       | true :: rest =>
           (Raised {| exn_cls := OperationalError; exn_msg := "database is locked" |},
            with_sql_faults (λ _, rest) w)
       | false :: rest => (Returned tt, with_sql_faults (λ _, rest) w)
       | [] => (Returned tt, w)
       end.

(** [datetime.now()] *)
Definition datetime_now : Eff.M (world Call Sched) nat :=
  λ w, (Returned (clock w), with_clock S w).

Definition record (c : Call) : Eff.M (world Call Sched) unit :=
  Eff.modify (with_calls (λ cs, cs ++ [c])).

(** [cursor.execute(...)] of an INSERT or UPDATE on the task table,
    followed by [conn.commit()]. *)
Definition execute (stmt : Sql.table → outcome Sql.table) : Eff.M (world Call Sched) unit :=
  λ w, match stmt (tasks w) with
       | Returned t => (Returned tt, with_tasks (λ _, t) w)
       | Raised e => (Raised e, w)
       end.

(** [cursor.execute(SELECT ...)] followed by [fetchone()] or [fetchall()]. *)
Definition query {A} (q : Sql.table → A) : Eff.M (world Call Sched) A :=
  λ w, (Returned (q (tasks w)), w).

(** [str(uuid.uuid4())] *)
Definition uuid4 : Eff.M (world Call Sched) string :=
  λ w, match uuids w with
       | u :: rest => (Returned u, with_uuids (λ _, rest) w)
       | [] => (Returned "00000000-0000-4000-8000-000000000000", w)
       end.

(** One read of a cancellation event: whether the world plans the event
    to have been set by another thread before this read. *)
Definition planned_cancel : Eff.M (world Call Sched) bool :=
  λ w, (Returned (match cancel_at w with
                  | Some c => c <=? is_set_reads w
                  | None => false
                  end),
        with_is_set_reads S w).

End updates.
End World.

(** ** The selector task store and scheduler
    (selector_task_db.py, selector_scheduler.py) *)

Module SelectorWorld.

Inductive call :=
| create_task_call (task_id selector_type : string)
| update_task_status_call (task_id status : string) (error_message : pyval)
| update_task_progress_call (task_id current_step : string) (progress_percent : Q)
| save_task_result_call (task_id : string).

(** The arguments a worker thread is created with: [selection_func] is
    given by what calling it on the unpacked [params] will do, and
    [on_complete], when there is one, by what calling it will do. *)
Record thread := {
  thread_task_id : string;
  thread_selector_type : string;
  thread_selection_func : outcome pyval;
  thread_params : pyval;
  thread_on_complete : option (outcome unit)
}.

(** The fields of [SelectorScheduler]. *)
Record scheduler := {
  _task_locks : gmap string bool;       (* lock per selector type: held? *)
  _cancel_events : gmap string bool;    (* event per task id: set? *)
  _running_threads : gmap string thread
}.

Definition with_task_locks (f : gmap string bool → gmap string bool) (s : scheduler) :=
  {| _task_locks := f (_task_locks s); _cancel_events := _cancel_events s;
     _running_threads := _running_threads s |}.
Definition with_cancel_events (f : gmap string bool → gmap string bool) (s : scheduler) :=
  {| _task_locks := _task_locks s; _cancel_events := f (_cancel_events s);
     _running_threads := _running_threads s |}.
Definition with_running_threads (f : gmap string thread → gmap string thread)
    (s : scheduler) :=
  {| _task_locks := _task_locks s; _cancel_events := _cancel_events s;
     _running_threads := f (_running_threads s) |}.

(** [SelectorScheduler.__init__] *)
Definition __init__ : scheduler :=
  {| _task_locks := ∅; _cancel_events := ∅; _running_threads := ∅ |}.

Abbreviation world := (World.world call scheduler).
Abbreviation M := (Eff.M (World.world call scheduler)).

End SelectorWorld.

Module SelectorTaskDB.
Import World SelectorWorld.

(** Column defaults of table [selector_tasks]; a column not listed is NULL. *)
Definition defaults : Sql.row :=
  {[ "status" := Sql.Text "pending"; "progress_percent" := Sql.Real 0 ]}.

(** selector_task_db.py, 85-107. *)
Definition create_task (task_id selector_type : string) (params : pyval) : M bool :=
  record (create_task_call task_id selector_type) ;;;
  Eff.try_except
    (connect ;;;
     let! given := Eff.lift (py_truthy params) in
     let! params_json :=
       (if given
        then let! text := Eff.lift (Json.dumps false params) in
             Eff.ret (Sql.JsonText text)
        else Eff.ret Sql.Null) in
     let! now := datetime_now in
     execute (Sql.insert_into defaults task_id
                [("task_id", Sql.Text task_id);
                 ("selector_type", Sql.Text selector_type);
                 ("status", Sql.Text "pending");
                 ("params", params_json);
                 ("created_at", Sql.Time now)]) ;;;
     Eff.ret true)
    (λ e, Eff.ret false).

(** selector_task_db.py, 109-143. *)
Definition update_task_status (task_id status : string) (error_message : pyval) : M bool :=
  record (update_task_status_call task_id status error_message) ;;;
  Eff.try_except
    (connect ;;;
     let updates := [("status", Sql.Text status)] in
     let! updates :=
       (if String.eqb status "running"
        then let! now := datetime_now in
             Eff.ret (updates ++ [("started_at", Sql.Time now)])
        else if Sql.terminal_status status
        then let! now := datetime_now in
             Eff.ret (updates ++ [("completed_at", Sql.Time now)])
        else Eff.ret updates) in
     let! given := Eff.lift (py_truthy error_message) in
     let! updates :=
       (if given
        then let! bound := Eff.lift (Sql.bind_param error_message) in
             Eff.ret (updates ++ [("error_message", bound)])
        else Eff.ret updates) in
     execute (λ t, Returned (Sql.update_where task_id updates t)) ;;;
     Eff.ret true)
    (λ e, Eff.ret false).

(** selector_task_db.py, 145-163. *)
Definition update_task_progress (task_id current_step : string) (progress_percent : Q)
  : M bool :=
  record (update_task_progress_call task_id current_step progress_percent) ;;;
  Eff.try_except
    (connect ;;;
     execute (λ t, Returned (Sql.update_where task_id
                               [("current_step", Sql.Text current_step);
                                ("progress_percent", Sql.Real progress_percent)] t)) ;;;
     Eff.ret true)
    (λ e, Eff.ret false).

(** selector_task_db.py, 165-185. *)
Definition save_task_result (task_id : string) (results : pyval) : M bool :=
  record (save_task_result_call task_id) ;;;
  Eff.try_except
    (connect ;;;
     let! cleaned_results := Eff.lift (Normalizer._clean_for_json results) in
     let! results_json := Eff.lift (Json.dumps true cleaned_results) in
     execute (λ t, Returned (Sql.update_where task_id
                               [("results", Sql.JsonText results_json)] t)) ;;;
     Eff.ret true)
    (λ e, Eff.ret false).

(** selector_task_db.py, 187-205.  The row is returned as stored
    ([_row_to_dict] only parses the JSON columns). *)
Definition get_task (task_id : string) : M (option Sql.row) :=
  Eff.try_except
    (connect ;;;
     query (λ t, t !! task_id))
    (λ e, Eff.ret None).

(** selector_task_db.py, 207-232. *)
Definition get_running_tasks (selector_type : option string) : M (list Sql.row) :=
  Eff.try_except
    (connect ;;;
     match selector_type with
     | Some ty =>
         if negb (String.eqb ty "")
         then query (Sql.select_where
                       (λ r, Sql.nonterminal r && Sql.is_text (Sql.col r "selector_type") ty))
         else query (Sql.select_where Sql.nonterminal)
     | None => query (Sql.select_where Sql.nonterminal)
     end)
    (λ e, Eff.ret []).

End SelectorTaskDB.

Module SelectorScheduler.
Import World SelectorWorld.

(** What [start_background_selection] and [cancel_task] return. *)
Record reply := { task_id : option string; success : bool; message : string }.

(** selector_scheduler.py, 26-30: the lock of a selector type, created
    unheld at first use; a lock is named by its selector type. *)
Definition _get_lock (selector_type : string) : M string :=
  λ w, match _task_locks (sched w) !! selector_type with
       | Some _ => (Returned selector_type, w)
       | None => (Returned selector_type,
                  with_sched (with_task_locks <[selector_type := false]>) w)
       end.

(** [lock.acquire(blocking=False)] *)
Definition acquire_nonblocking (lock : string) : M bool :=
  λ w, match _task_locks (sched w) !! lock with
       | Some true => (Returned false, w)
       | _ => (Returned true, with_sched (with_task_locks <[lock := true]>) w)
       end.

(** [lock.release()]; releasing an unheld lock raises [RuntimeError]. *)
Definition release (lock : string) : M unit :=
  λ w, match _task_locks (sched w) !! lock with
       | Some true => (Returned tt, with_sched (with_task_locks <[lock := false]>) w)
       | _ => (Raised {| exn_cls := RuntimeError; exn_msg := "release unlocked lock" |}, w)
       end.

(** [cancel_event.is_set()] for the event created for [task_id]: set by
    [cancel_task] in this world, or by another thread as the world plans. *)
Definition is_set (task_id : string) : M bool :=
  let! planned := planned_cancel in
  if planned
  then Eff.modify (with_sched (with_cancel_events (alter (λ _, true) task_id))) ;;;
       Eff.ret true
  else let! w := Eff.get in
       Eff.ret (default false (_cancel_events (sched w) !! task_id)).

(** selector_scheduler.py, 217-222. *)
Definition _cleanup_task (task_id : string) : M unit :=
  Eff.modify (with_sched (with_cancel_events (delete task_id))) ;;;
  Eff.modify (with_sched (with_running_threads (delete task_id))).


Definition busy (selector_type : string) : reply :=
  {| task_id := None; success := false;
     message := selector_type +:+ " 已有任务在运行中" |}.
Definition unfinished (selector_type : string) : reply :=
  {| task_id := None; success := false;
     message := "存在运行中的 " +:+ selector_type +:+ " 任务" |}.
Definition create_failed : reply :=
  {| task_id := None; success := false; message := "创建任务失败" |}.
Definition started (id selector_type : string) : reply :=
  {| task_id := Some id; success := true;
     message := selector_type +:+ " 后台选股任务已启动" |}.

(** selector_scheduler.py, 32-114.  [thread.start()] enters the worker in
    [_running_threads]; the worker itself runs later, see [_run_selection]. *)
Definition start_background_selection (selector_type : string)
    (selection_func : outcome pyval) (params : pyval)
    (on_complete : option (outcome unit)) : M reply :=
  let! lock := _get_lock selector_type in
  let! acquired := acquire_nonblocking lock in
  if negb acquired then Eff.ret (busy selector_type)
  else
    Eff.try_except
      (let! running_tasks := SelectorTaskDB.get_running_tasks (Some selector_type) in
       if negb (length running_tasks =? 0)
       then release lock ;;; Eff.ret (unfinished selector_type)
       else
         let! id := uuid4 in
         Eff.modify (with_sched (with_cancel_events <[id := false]>)) ;;;
         let! created := SelectorTaskDB.create_task id selector_type params in
         if negb created
         then release lock ;;; Eff.ret create_failed
         else
           Eff.modify (with_sched (with_running_threads
                         <[id := {| thread_task_id := id;
                                    thread_selector_type := selector_type;
                                    thread_selection_func := selection_func;
                                    thread_params := params;
                                    thread_on_complete := on_complete |}]>)) ;;;
           Eff.ret (started id selector_type))
      (λ e, release lock ;;;
            Eff.ret {| task_id := None; success := false;
                       message := "启动任务失败: " +:+ exn_msg e |}).

(** selector_scheduler.py, 196-215. *)
Definition cancel_task (id : string) : M reply :=
  let! w := Eff.get in
  match _cancel_events (sched w) !! id with
  | Some _ =>
      Eff.modify (with_sched (with_cancel_events <[id := true]>)) ;;;
      Eff.ret {| task_id := None; success := true; message := "已发送取消请求" |}
  | None =>
      let! task := SelectorTaskDB.get_task id in
      match task with
      | Some row =>
          if Sql.text_in (Sql.col row "status") ["pending"; "running"]
          then SelectorTaskDB.update_task_status id "cancelled" PNone ;;;
               Eff.ret {| task_id := None; success := true; message := "任务已取消" |}
          else Eff.ret {| task_id := None; success := false;
                          message := "任务不存在或已完成" |}
      | None => Eff.ret {| task_id := None; success := false;
                           message := "任务不存在或已完成" |}
      end
  end.

End SelectorScheduler.

(** ** The stock analysis task store and scheduler
    (stock_analysis_task_db.py, stock_analysis_scheduler.py) *)

Module StockAnalysisWorld.

Inductive call :=
| create_task_call (task_id task_type : string)
| update_task_status_call (task_id status : string) (error_message : pyval)
| update_task_progress_call (task_id current_symbol : string) (completed_count : nat)
    (progress_percent : Q)
| save_task_result_call (task_id : string) (results : pyval).

(** The arguments a worker thread is created with. *)
Record thread := {
  thread_task_id : string;
  thread_target : string;          (* _run_single_analysis or _run_batch_analysis *)
  thread_symbols : list string
}.

(** The fields of [StockAnalysisScheduler]. *)
Record scheduler := {
  _lock : bool;                         (* created in __init__, held? *)
  _cancel_events : gmap string bool;    (* event per task id: set? *)
  _running_threads : gmap string thread
}.

Definition with_cancel_events (f : gmap string bool → gmap string bool) (s : scheduler) :=
  {| _lock := _lock s; _cancel_events := f (_cancel_events s);
     _running_threads := _running_threads s |}.
Definition with_running_threads (f : gmap string thread → gmap string thread)
    (s : scheduler) :=
  {| _lock := _lock s; _cancel_events := _cancel_events s;
     _running_threads := f (_running_threads s) |}.

(** [StockAnalysisScheduler.__init__] *)
Definition __init__ : scheduler :=
  {| _lock := false; _cancel_events := ∅; _running_threads := ∅ |}.

Abbreviation world := (World.world call scheduler).
Abbreviation M := (Eff.M (World.world call scheduler)).

End StockAnalysisWorld.

Module StockAnalysisTaskDB.
Import World StockAnalysisWorld.

(** Column defaults of table [analysis_tasks]. *)
Definition defaults : Sql.row :=
  {[ "status" := Sql.Text "pending"; "total_count" := Sql.Integer 1;
     "completed_count" := Sql.Integer 0; "progress_percent" := Sql.Real 0 ]}.

(** stock_analysis_task_db.py, 85-112. *)
Definition create_task (task_id task_type : string) (symbols : list string)
    (period : string) (config : pyval) : M bool :=
  record (create_task_call task_id task_type) ;;;
  Eff.try_except
    (connect ;;;
     let! symbols_json := Eff.lift (Json.dumps false (PList (map PStr symbols))) in
     let! given := Eff.lift (py_truthy config) in
     let! config_json :=
       (if given
        then let! text := Eff.lift (Json.dumps false config) in
             Eff.ret (Sql.JsonText text)
        else Eff.ret Sql.Null) in
     let! now := datetime_now in
     execute (Sql.insert_into defaults task_id
                [("task_id", Sql.Text task_id);
                 ("task_type", Sql.Text task_type);
                 ("status", Sql.Text "pending");
                 ("symbols", Sql.JsonText symbols_json);
                 ("period", Sql.Text period);
                 ("config", config_json);
                 ("total_count", Sql.Integer (Z.of_nat (length symbols)));
                 ("created_at", Sql.Time now)]) ;;;
     Eff.ret true)
    (λ e, Eff.ret false).

(** stock_analysis_task_db.py, 114-148. *)
Definition update_task_status (task_id status : string) (error_message : pyval) : M bool :=
  record (update_task_status_call task_id status error_message) ;;;
  Eff.try_except
    (connect ;;;
     let updates := [("status", Sql.Text status)] in
     let! updates :=
       (if String.eqb status "running"
        then let! now := datetime_now in
             Eff.ret (updates ++ [("started_at", Sql.Time now)])
        else if Sql.terminal_status status
        then let! now := datetime_now in
             Eff.ret (updates ++ [("completed_at", Sql.Time now)])
        else Eff.ret updates) in
     let! given := Eff.lift (py_truthy error_message) in
     let! updates :=
       (if given
        then let! bound := Eff.lift (Sql.bind_param error_message) in
             Eff.ret (updates ++ [("error_message", bound)])
        else Eff.ret updates) in
     execute (λ t, Returned (Sql.update_where task_id updates t)) ;;;
     Eff.ret true)
    (λ e, Eff.ret false).

(** stock_analysis_task_db.py, 150-168. *)
Definition update_task_progress (task_id current_symbol : string) (completed_count : nat)
    (progress_percent : Q) : M bool :=
  record (update_task_progress_call task_id current_symbol completed_count
            progress_percent) ;;;
  Eff.try_except
    (connect ;;;
     execute (λ t, Returned (Sql.update_where task_id
                               [("current_symbol", Sql.Text current_symbol);
                                ("completed_count", Sql.Integer (Z.of_nat completed_count));
                                ("progress_percent", Sql.Real progress_percent)] t)) ;;;
     Eff.ret true)
    (λ e, Eff.ret false).

(** stock_analysis_task_db.py, 170-191. *)
Definition save_task_result (task_id : string) (results : pyval) : M bool :=
  record (save_task_result_call task_id results) ;;;
  Eff.try_except
    (connect ;;;
     let! cleaned_results := Eff.lift (Normalizer._clean_for_json results) in
     let! results_json := Eff.lift (Json.dumps true cleaned_results) in
     execute (λ t, Returned (Sql.update_where task_id
                               [("results", Sql.JsonText results_json)] t)) ;;;
     Eff.ret true)
    (λ e, Eff.ret false).

(** stock_analysis_task_db.py, 213-231. *)
Definition get_running_tasks : M (list Sql.row) :=
  Eff.try_except
    (connect ;;;
     query (Sql.select_where Sql.nonterminal))
    (λ e, Eff.ret []).

End StockAnalysisTaskDB.

Module StockAnalysisScheduler.
Import World StockAnalysisWorld.

Record reply := { task_id : option string; success : bool; message : string }.

(** The analyst configuration used when none is given. *)
Definition default_analysts : pyval :=
  PDict [(KStr "technical", PBool true); (KStr "fundamental", PBool true);
         (KStr "fund_flow", PBool true); (KStr "risk", PBool true);
         (KStr "sentiment", PBool false); (KStr "news", PBool false)].

(** stock_analysis_scheduler.py, 22-92. *)
Definition start_background_analysis (symbol period : string)
    (enabled_analysts_config : pyval) (selected_model : string) : M reply :=
  let! id := uuid4 in
  let enabled_analysts_config :=
    match enabled_analysts_config with
    | PNone => default_analysts
    | _ => enabled_analysts_config
    end in
  let config := PDict [(KStr "enabled_analysts", enabled_analysts_config);
                       (KStr "selected_model", PStr selected_model)] in
  let! created := StockAnalysisTaskDB.create_task id "single" [symbol] period config in
  if negb created
  then Eff.ret {| task_id := None; success := false; message := "创建任务失败" |}
  else
    Eff.modify (with_sched (with_cancel_events <[id := false]>)) ;;;
    Eff.modify (with_sched (with_running_threads
                  <[id := {| thread_task_id := id;
                             thread_target := "_run_single_analysis";
                             thread_symbols := [symbol] |}]>)) ;;;
    Eff.ret {| task_id := Some id; success := true;
               message := "后台分析任务已启动: " +:+ symbol |}.

(** stock_analysis_scheduler.py, 94-167. *)
Definition start_batch_background_analysis (symbols : list string) (period : string)
    (enabled_analysts_config : pyval) (selected_model : string) (max_workers : nat)
  : M reply :=
  let! id := uuid4 in
  let enabled_analysts_config :=
    match enabled_analysts_config with
    | PNone => default_analysts
    | _ => enabled_analysts_config
    end in
  let config := PDict [(KStr "enabled_analysts", enabled_analysts_config);
                       (KStr "selected_model", PStr selected_model);
                       (KStr "max_workers", PInt (Z.of_nat max_workers))] in
  let! created := StockAnalysisTaskDB.create_task id "batch" symbols period config in
  if negb created
  then Eff.ret {| task_id := None; success := false; message := "创建任务失败" |}
  else
    Eff.modify (with_sched (with_cancel_events <[id := false]>)) ;;;
    Eff.modify (with_sched (with_running_threads
                  <[id := {| thread_task_id := id;
                             thread_target := "_run_batch_analysis";
                             thread_symbols := symbols |}]>)) ;;;
    Eff.ret {| task_id := Some id; success := true;
               message := "批量后台分析任务已启动: " +:+ pretty (length symbols)
                          +:+ "只股票" |}.

(** [cancel_event.is_set()] for the event created for [task_id]. *)
Definition is_set (task_id : string) : M bool :=
  let! planned := planned_cancel in
  if planned
  then Eff.modify (with_sched (with_cancel_events (alter (λ _, true) task_id))) ;;;
       Eff.ret true
  else let! w := Eff.get in
       Eff.ret (default false (_cancel_events (sched w) !! task_id)).

(** stock_analysis_scheduler.py, 367-372. *)
Definition _cleanup_task (task_id : string) : M unit :=
  Eff.modify (with_sched (with_cancel_events (delete task_id))) ;;;
  Eff.modify (with_sched (with_running_threads (delete task_id))).

(** The entry appended for a unit that raised. *)
Definition failure (symbol error : string) : pyval :=
  PDict [(KStr "symbol", PStr symbol); (KStr "success", PBool false);
         (KStr "error", PStr error)].

(** [sum(1 for r in results if r.get('success'))] *)
Definition count_success (results : list pyval) : outcome nat :=
  match mapM (λ r, py_get_truthy r "success") results with
  | Returned flags => Returned (length (filter (λ ok, ok = true) flags))
  | Raised e => Raised e
  end.

(** [(completed / total) * 100] *)
Definition percent (completed total : nat) : outcome Q :=
  if total =? 0
  then Raised {| exn_cls := ZeroDivisionError; exn_msg := "division by zero" |}
  else Returned ((Z.of_nat completed # Pos.of_nat total) * 100)%Q.

(** The text stored for a unit that raised: a timeout has its own. *)
Definition error_text (e : pyexn) : string :=
  match exn_cls e with
  | TimeoutError => "分析超时"
  | _ => exn_msg e
  end.

(** The two [except] clauses of the loop body (stock_analysis_scheduler.py,
    288-307), entered with the values [results] and [completed] have when
    the exception is raised. *)
Definition on_unit_exception (task_id symbol : string) (total : nat) (e : pyexn)
    (results : list pyval) (completed : nat) : M (Eff.flow (list pyval * nat)) :=
  let results := results ++ [failure symbol (error_text e)] in
  let completed := completed + 1 in
  let! progress := Eff.lift (percent completed total) in
  StockAnalysisTaskDB.update_task_progress task_id symbol completed progress ;;;
  Eff.ret (Eff.Next (results, completed)).

(** The text of [f"成功{success_count}个，失败{failed_count}个"]. *)
Definition summary (success_count : nat) (failed_count : Z) : string :=
  "成功" +:+ pretty success_count +:+ "个，失败" +:+ pretty failed_count +:+ "个".

(** stock_analysis_scheduler.py, 266-307: the body of the loop over the
    completed futures, with the loop variables [results] and [completed].
    A future is the symbol it was submitted for with what
    [future.result()] does. *)
Definition batch_body (task_id : string) (total : nat) (future : string * outcome pyval)
    (vars : list pyval * nat) : M (Eff.flow (list pyval * nat)) :=
  let results := vars.1 in
  let completed := vars.2 in
  let! cancelled := is_set task_id in
  if cancelled
  then StockAnalysisTaskDB.update_task_status task_id "cancelled" PNone ;;;
       Eff.ret Eff.Return
  else
    let symbol := future.1 in
    match future.2 with
    | Raised e => on_unit_exception task_id symbol total e results completed
    | Returned result =>
        let results := results ++ [result] in
        let completed := completed + 1 in
        Eff.try_except
          (let! progress := Eff.lift (percent completed total) in
           StockAnalysisTaskDB.update_task_progress task_id symbol completed progress ;;;
           let! ok := Eff.lift (py_get_truthy result "success") in
           Eff.ret (Eff.Next (results, completed)))
          (λ e, on_unit_exception task_id symbol total e results completed)
    end.

(** stock_analysis_scheduler.py, 231-330.  [analyze_single_stock] says what
    the analysis of a symbol does; [as_completed] is the order in which the
    pool hands back the submitted futures. *)
Definition _run_batch_analysis
    (analyze_single_stock : string → outcome pyval)
    (as_completed : list (string * outcome pyval) → list (string * outcome pyval))
    (task_id : string) (symbols : list string) (max_workers : nat) : M unit :=
  Eff.try_finally
    (Eff.try_except
       (StockAnalysisTaskDB.update_task_status task_id "running" PNone ;;;
        let total := length symbols in
        Eff.lift (thread_pool max_workers) ;;;
        let future_to_symbol := map (λ symbol, (symbol, analyze_single_stock symbol)) symbols in
        let! after_loop :=
          Eff.for_loop (as_completed future_to_symbol) ([], 0) (batch_body task_id total) in
        match after_loop with
        | Eff.Return => Eff.ret tt
        | Eff.Next (results, _) | Eff.Break (results, _) =>
            StockAnalysisTaskDB.save_task_result task_id (PList results) ;;;
            let! success_count := Eff.lift (count_success results) in
            let failed_count := (Z.of_nat total - Z.of_nat success_count)%Z in
            (if (failed_count =? 0)%Z
             then StockAnalysisTaskDB.update_task_status task_id "completed" PNone
             else StockAnalysisTaskDB.update_task_status task_id "completed"
                    (PStr (summary success_count failed_count))) ;;;
            Eff.ret tt
        end)
       (λ e, StockAnalysisTaskDB.update_task_status task_id "failed" (PStr (exn_msg e)) ;;;
             Eff.ret tt))
    (_cleanup_task task_id).

End StockAnalysisScheduler.

(** ** The batch analysis store and scheduler
    (main_force_batch_db.py, main_force_batch_scheduler.py) *)

Module MainForceBatchWorld.

Inductive call :=
| create_task_call (task_id : string)
| update_task_status_call (task_id status : string) (error_message : option string)
    (history_record_id : option nat) (started_at completed_at : option nat)
| update_task_progress_call (task_id : string) (completed_count : nat)
    (current_stock : option string) (success_count failed_count : option nat)
    (progress_percent : option Q)
| save_batch_analysis_call (batch_count : nat) (analysis_mode : string)
    (success_count failed_count : nat) (results : list pyval).

(** The arguments the worker thread is created with. *)
Record thread := {
  thread_task_id : string;
  thread_stock_codes : list string;
  thread_analysis_mode : string;
  thread_max_workers : nat
}.

(** The fields of [MainForceBatchScheduler]. *)
Record scheduler := {
  _task_lock : bool;                  (* held? *)
  _cancel_flag : bool;                (* set? *)
  _current_task_id : option string;
  _thread : option thread
}.

Definition with_task_lock (f : bool → bool) (s : scheduler) :=
  {| _task_lock := f (_task_lock s); _cancel_flag := _cancel_flag s;
     _current_task_id := _current_task_id s; _thread := _thread s |}.
Definition with_cancel_flag (f : bool → bool) (s : scheduler) :=
  {| _task_lock := _task_lock s; _cancel_flag := f (_cancel_flag s);
     _current_task_id := _current_task_id s; _thread := _thread s |}.
Definition with_current_task_id (f : option string → option string) (s : scheduler) :=
  {| _task_lock := _task_lock s; _cancel_flag := _cancel_flag s;
     _current_task_id := f (_current_task_id s); _thread := _thread s |}.
Definition with_thread (f : option thread → option thread) (s : scheduler) :=
  {| _task_lock := _task_lock s; _cancel_flag := _cancel_flag s;
     _current_task_id := _current_task_id s; _thread := f (_thread s) |}.

(** [MainForceBatchScheduler.__init__] *)
Definition __init__ : scheduler :=
  {| _task_lock := false; _cancel_flag := false; _current_task_id := None;
     _thread := None |}.

Abbreviation world := (World.world call scheduler).
Abbreviation M := (Eff.M (World.world call scheduler)).

End MainForceBatchWorld.

Module MainForceBatchDatabase.
Import World MainForceBatchWorld.

(** Column defaults of table [batch_task_status]. *)
Definition defaults : Sql.row :=
  {[ "status" := Sql.Text "pending"; "max_workers" := Sql.Integer 3;
     "completed_count" := Sql.Integer 0; "success_count" := Sql.Integer 0;
     "failed_count" := Sql.Integer 0; "progress_percent" := Sql.Real 0 ]}.

(** main_force_batch_db.py, 82-134. *)
Definition _clean_results_for_json (results : list pyval) : list pyval :=
  map (λ result,
         match (match py_items result with
                | Returned items => mapM (Normalizer.item_with Normalizer.clean_value) items
                | Raised e => Raised e
                end) with
         | Returned cleaned_result => PDict cleaned_result
         | Raised e =>
             PDict [(KStr "error", PStr ("清理失败: " +:+ exn_msg e));
                    (KStr "original_keys",
                     match result with
                     | PDict items => PList (map key_value items.*1)
                     | _ => PList []
                     end)]
         end) results.

(** main_force_batch_db.py, 136-178: the new row of
    [batch_analysis_history]; its id is returned. *)
Definition save_batch_analysis (batch_count : nat) (analysis_mode : string)
    (success_count failed_count : nat) (total_time : nat) (results : list pyval) : M nat :=
  record (save_batch_analysis_call batch_count analysis_mode success_count failed_count
            results) ;;;
  connect ;;;
  let! analysis_date := datetime_now in
  let cleaned_results := _clean_results_for_json results in
  let! results_json := Eff.lift (Json.dumps true (PList cleaned_results)) in
  let! w := Eff.get in
  let record_id := length (history w) + 1 in
  Eff.modify (with_history
                (λ h, h ++ [list_to_map
                              [("id", Sql.Integer (Z.of_nat record_id));
                               ("analysis_date", Sql.Time analysis_date);
                               ("batch_count", Sql.Integer (Z.of_nat batch_count));
                               ("analysis_mode", Sql.Text analysis_mode);
                               ("success_count", Sql.Integer (Z.of_nat success_count));
                               ("failed_count", Sql.Integer (Z.of_nat failed_count));
                               ("total_time", Sql.Integer (Z.of_nat total_time));
                               ("results_json", Sql.JsonText results_json)]])) ;;;
  Eff.ret record_id.

(** main_force_batch_db.py, 332-363: the id of the new row is returned. *)
Definition create_task (task_id : string) (stock_codes : list string)
    (analysis_mode : string) (max_workers : nat) : M nat :=
  record (create_task_call task_id) ;;;
  connect ;;;
  let! stock_codes_json := Eff.lift (Json.dumps false (PList (map PStr stock_codes))) in
  let! created_at := datetime_now in
  let! w := Eff.get in
  let record_id := size (tasks w) + 1 in
  execute (Sql.insert_into defaults task_id
             [("id", Sql.Integer (Z.of_nat record_id));
              ("task_id", Sql.Text task_id);
              ("stock_codes", Sql.JsonText stock_codes_json);
              ("analysis_mode", Sql.Text analysis_mode);
              ("max_workers", Sql.Integer (Z.of_nat max_workers));
              ("total_count", Sql.Integer (Z.of_nat (length stock_codes)));
              ("status", Sql.Text "pending");
              ("created_at", Sql.Time created_at)]) ;;;
  Eff.ret record_id.

(** The [updates] and [values] lists of [update_task_status]. *)
Definition status_updates (status : string) (error_message : option string)
    (history_record_id : option nat) (started_at completed_at : option nat)
  : list (string * Sql.value) :=
  let updates := [("status", Sql.Text status)] in
  let updates :=
    match error_message with
    | Some m => updates ++ [("error_message", Sql.Text m)]
    | None => updates
    end in
  let updates :=
    match history_record_id with
    | Some i => updates ++ [("history_record_id", Sql.Integer (Z.of_nat i))]
    | None => updates
    end in
  let updates :=
    match started_at with
    | Some t => updates ++ [("started_at", Sql.Time t)]
    | None => updates
    end in
  match completed_at with
  | Some t => updates ++ [("completed_at", Sql.Time t)]
  | None => updates
  end.

(** main_force_batch_db.py, 365-413. *)
Definition update_task_status (task_id status : string) (error_message : option string)
    (history_record_id : option nat) (started_at completed_at : option nat) : M unit :=
  record (update_task_status_call task_id status error_message history_record_id
            started_at completed_at) ;;;
  connect ;;;
  execute (λ t, Returned (Sql.update_where task_id
                            (status_updates status error_message history_record_id
                               started_at completed_at) t)).

(** The [updates] and [values] lists of [update_task_progress]. *)
Definition progress_updates (completed_count : nat) (current_stock : option string)
    (success_count failed_count : option nat) (progress_percent : option Q)
  : list (string * Sql.value) :=
  let updates := [("completed_count", Sql.Integer (Z.of_nat completed_count))] in
  let updates :=
    match current_stock with
    | Some c => updates ++ [("current_stock", Sql.Text c)]
    | None => updates
    end in
  let updates :=
    match success_count with
    | Some n => updates ++ [("success_count", Sql.Integer (Z.of_nat n))]
    | None => updates
    end in
  let updates :=
    match failed_count with
    | Some n => updates ++ [("failed_count", Sql.Integer (Z.of_nat n))]
    | None => updates
    end in
  match progress_percent with
  | Some p => updates ++ [("progress_percent", Sql.Real p)]
  | None => updates
  end.

(** main_force_batch_db.py, 415-463. *)
Definition update_task_progress (task_id : string) (completed_count : nat)
    (current_stock : option string) (success_count failed_count : option nat)
    (progress_percent : option Q) : M unit :=
  record (update_task_progress_call task_id completed_count current_stock success_count
            failed_count progress_percent) ;;;
  connect ;;;
  execute (λ t, Returned (Sql.update_where task_id
                            (progress_updates completed_count current_stock success_count
                               failed_count progress_percent) t)).

(** main_force_batch_db.py, 465-489. *)
Definition get_task_by_id (task_id : string) : M (option Sql.row) :=
  connect ;;;
  query (λ t, t !! task_id).

(** main_force_batch_db.py, 491-515. *)
Definition get_running_task : M (option Sql.row) :=
  connect ;;;
  query (λ t, head (Sql.select_where Sql.nonterminal t)).

End MainForceBatchDatabase.

Module MainForceBatchScheduler.
Import World MainForceBatchWorld.

(** What [start_batch_analysis] and [cancel_task] return. *)
Record reply := { success : bool; task_id : option string; message : string }.

(** [self._task_lock.acquire(blocking=False)] *)
Definition acquire_nonblocking : M bool :=
  λ w, if _task_lock (sched w)
       then (Returned false, w)
       else (Returned true, with_sched (with_task_lock (λ _, true)) w).

(** [self._task_lock.release()] *)
Definition release : M unit :=
  λ w, if _task_lock (sched w)
       then (Returned tt, with_sched (with_task_lock (λ _, false)) w)
       else (Raised {| exn_cls := RuntimeError; exn_msg := "release unlocked lock" |}, w).

(** [self._cancel_flag.is_set()]: set by [cancel_task] in this world, or by
    another thread as the world plans. *)
Definition is_set : M bool :=
  let! planned := planned_cancel in
  if planned
  then Eff.modify (with_sched (with_cancel_flag (λ _, true))) ;;; Eff.ret true
  else let! w := Eff.get in Eff.ret (_cancel_flag (sched w)).

(** [time.time()] *)
Definition time : M nat := datetime_now.

Definition failure (code error : string) : pyval :=
  PDict [(KStr "symbol", PStr code); (KStr "success", PBool false);
         (KStr "error", PStr error)].

(** main_force_batch_scheduler.py, 248-270.  [analyze_single_stock_for_batch]
    (module [app], imported at the call) says what the analysis of a code
    does; the [print] after it reads [result.get('success')] inside the
    [try]. *)
Definition _analyze_single (analyze_single_stock_for_batch : string → outcome pyval)
    (code : string) : pyval :=
  match analyze_single_stock_for_batch code with
  | Raised e => failure code (exn_msg e)
  | Returned result =>
      match py_get_truthy result "success" with
      | Raised e => failure code (exn_msg e)
      | Returned _ => result
      end
  end.

(** [sum(1 for r in results if r.get('success'))] and
    [sum(1 for r in results if not r.get('success'))] *)
Definition count_where (wanted : bool) (results : list pyval) : outcome nat :=
  match mapM (λ r, py_get_truthy r "success") results with
  | Returned flags => Returned (length (filter (λ ok, ok = wanted) flags))
  | Raised e => Raised e
  end.

(** [(i / total) * 100] *)
Definition percent (i total : nat) : outcome Q :=
  if total =? 0
  then Raised {| exn_cls := ZeroDivisionError; exn_msg := "division by zero" |}
  else Returned ((Z.of_nat i # Pos.of_nat total) * 100)%Q.

(** [enumerate(xs)] *)
Definition enumerate {A} (xs : list A) : list (nat * A) := zip (seq 0 (length xs)) xs.

(** main_force_batch_scheduler.py, 141-163: the body of the sequential
    loop for the [i]-th code, with the loop variable [results]. *)
Definition sequential_body (analyze : string → outcome pyval) (task_id : string)
    (total : nat) (item : nat * string) (results : list pyval)
  : M (Eff.flow (list pyval)) :=
  let i := item.1 in
  let code := item.2 in
  let! cancelled := is_set in
  if cancelled then Eff.ret (Eff.Break results)
  else
    let! progress := Eff.lift (percent i total) in
    MainForceBatchDatabase.update_task_progress task_id i (Some code) None None
      (Some progress) ;;;
    let result := _analyze_single analyze code in
    let results := results ++ [result] in
    let! success_count := Eff.lift (count_where true results) in
    let! failed_count := Eff.lift (count_where false results) in
    let! progress := Eff.lift (percent (i + 1) total) in
    MainForceBatchDatabase.update_task_progress task_id (i + 1) None
      (Some success_count) (Some failed_count) (Some progress) ;;;
    Eff.ret (Eff.Next results).

(** main_force_batch_scheduler.py, 138-163: the sequential loop; it ends
    with the list [results]. *)
Definition sequential_loop (analyze : string → outcome pyval) (task_id : string)
    (stock_codes : list string) (total : nat) : M (Eff.flow (list pyval)) :=
  Eff.for_loop (enumerate stock_codes) [] (sequential_body analyze task_id total).

(** main_force_batch_scheduler.py, 165-200: the pool; a future is the code
    it was submitted for with what [_analyze_single] returns for it, and
    [as_completed] is the order in which the pool hands the futures back.
    [_analyze_single] catches what the analysis raises, so [future.result()]
    returns.  The loop variables are [results] and [completed]. *)
Definition parallel_body (task_id : string) (total : nat) (future : string * pyval)
    (vars : list pyval * nat) : M (Eff.flow (list pyval * nat)) :=
  let results := vars.1 in
  let completed := vars.2 in
  let! cancelled := is_set in
  if cancelled then Eff.ret (Eff.Break (results, completed))
  else
    let code := future.1 in
    let completed := completed + 1 in
    let result := future.2 in
    let results := results ++ [result] in
    let! success_count := Eff.lift (count_where true results) in
    let! failed_count := Eff.lift (count_where false results) in
    let! progress := Eff.lift (percent completed total) in
    MainForceBatchDatabase.update_task_progress task_id completed (Some code)
      (Some success_count) (Some failed_count) (Some progress) ;;;
    Eff.ret (Eff.Next (results, completed)).

Definition parallel_loop (analyze : string → outcome pyval)
    (as_completed : list (string * pyval) → list (string * pyval))
    (task_id : string) (stock_codes : list string) (total : nat) (max_workers : nat)
  : M (Eff.flow (list pyval * nat)) :=
  Eff.lift (thread_pool max_workers) ;;;
  let futures := map (λ code, (code, _analyze_single analyze code)) stock_codes in
  Eff.for_loop (as_completed futures) ([], 0) (parallel_body task_id total).

(** A unit's outcome that reports success. *)
Definition succeeded (r : pyval) : bool :=
  match py_get_truthy r "success" with
  | Returned ok => ok
  | Raised _ => false
  end.

(** The number of outcomes that report success. *)
Definition successes (results : list pyval) : nat := length (filter (λ r, succeeded r = true) results).

Definition is_dict (v : pyval) : bool :=
  match v with PDict _ => true | _ => false end.

(** An outcome that the counts of a progress update can read: the truth
    test of its [success] entry returns. *)
Definition counted (r : pyval) : bool := is_returned (py_get_truthy r "success").

(** The number of units that the sequential loop runs from the world [w]
    when [n] units are left: all of them, or as many as there are reads of
    the flag before the planned cancellation. *)
Definition units_run (w : world) (n : nat) : nat :=
  match cancel_at w with
  | Some c => n `min` (c - is_set_reads w)
  | None => n
  end.

Definition loop_results {St} (get : St → list pyval) (f : Eff.flow St) : list pyval :=
  match f with
  | Eff.Next st | Eff.Break st => get st
  | Eff.Return => []
  end.

(** main_force_batch_scheduler.py, 102-246.  The value returned is the
    list [results] as the worker holds it when it ends (the source returns
    nothing; the list is returned here to state what the worker collected). *)
Definition _run_analysis (analyze : string → outcome pyval)
    (as_completed : list (string * pyval) → list (string * pyval))
    (task_id : string) (stock_codes : list string) (analysis_mode : string)
    (max_workers : nat) : M (list pyval) :=
  let! start_time := time in
  Eff.try_finally
    (Eff.try_except
       (let! started := datetime_now in
        MainForceBatchDatabase.update_task_status task_id "running" None None
          (Some started) None ;;;
        let total := length stock_codes in
        let! results :=
          (if String.eqb analysis_mode "sequential"
           then let! f := sequential_loop analyze task_id stock_codes total in
                Eff.ret (loop_results (λ r, r) f)
           else let! f := parallel_loop analyze as_completed task_id stock_codes total
                             max_workers in
                Eff.ret (loop_results fst f)) in
        let! end_time := time in
        let elapsed_time := end_time - start_time in
        let! success_count := Eff.lift (count_where true results) in
        let failed_count := length results - success_count in
        let! cancelled := is_set in
        if negb cancelled
        then
          let! history_id :=
            MainForceBatchDatabase.save_batch_analysis (length stock_codes) analysis_mode
              success_count failed_count elapsed_time results in
          let! completed := datetime_now in
          MainForceBatchDatabase.update_task_status task_id "completed" None
            (Some history_id) None (Some completed) ;;;
          Eff.ret results
        else
          let! completed := datetime_now in
          MainForceBatchDatabase.update_task_status task_id "cancelled" None None None
            (Some completed) ;;;
          Eff.ret results)
       (λ e,
          let! completed := datetime_now in
          MainForceBatchDatabase.update_task_status task_id "failed" (Some (exn_msg e))
            None None (Some completed) ;;;
          Eff.ret []))
    (Eff.modify (with_sched (with_current_task_id (λ _, None))) ;;;
     release).

(** [running_task['task_id'][:8]] *)
Definition id_prefix (row : Sql.row) : string :=
  match Sql.col row "task_id" with
  | Sql.Text id => String.substring 0 8 id
  | _ => ""
  end.

(** main_force_batch_scheduler.py, 29-100. *)
Definition start_batch_analysis (stock_codes : list string) (analysis_mode : string)
    (max_workers : nat) : M reply :=
  let! acquired := acquire_nonblocking in
  if negb acquired
  then Eff.ret {| success := false; task_id := None;
                  message := "已有批量分析任务在运行中，请等待完成后再试" |}
  else
    Eff.try_except
      (let! running_task := MainForceBatchDatabase.get_running_task in
       match running_task with
       | Some row =>
           release ;;;
           Eff.ret {| success := false; task_id := None;
                      message := "存在运行中的任务 (ID: " +:+ id_prefix row
                                 +:+ "...)，请等待完成" |}
       | None =>
           let! id := uuid4 in
           Eff.modify (with_sched (with_current_task_id (λ _, Some id))) ;;;
           Eff.modify (with_sched (with_cancel_flag (λ _, false))) ;;;
           MainForceBatchDatabase.create_task id stock_codes analysis_mode max_workers ;;;
           Eff.modify (with_sched (with_thread
                         (λ _, Some {| thread_task_id := id;
                                       thread_stock_codes := stock_codes;
                                       thread_analysis_mode := analysis_mode;
                                       thread_max_workers := max_workers |}))) ;;;
           Eff.ret {| success := true; task_id := Some id;
                      message := "后台任务已启动，共 " +:+ pretty (length stock_codes)
                                 +:+ " 只股票" |}
       end)
      (λ e, release ;;;
            Eff.ret {| success := false; task_id := None;
                       message := "启动任务失败: " +:+ exn_msg e |}).

(** [if x:] for an optional string: [None] and the empty string are false. *)
Definition given (x : option string) : bool :=
  match x with
  | Some s => negb (String.eqb s "")
  | None => false
  end.

(** [self._current_task_id != task_id] *)
Definition differs (current given_id : option string) : bool :=
  match current, given_id with
  | Some a, Some b => negb (String.eqb a b)
  | None, None => false
  | _, _ => true
  end.

(** main_force_batch_scheduler.py, 272-289. *)
Definition cancel_task (id : option string) : M reply :=
  let! w := Eff.get in
  if given id && differs (_current_task_id (sched w)) id
  then Eff.ret {| success := false; task_id := None; message := "任务ID不匹配" |}
  else if negb (given (_current_task_id (sched w)))
  then Eff.ret {| success := false; task_id := None; message := "没有运行中的任务" |}
  else
    Eff.modify (with_sched (with_cancel_flag (λ _, true))) ;;;
    Eff.ret {| success := true; task_id := None;
               message := "已发送取消请求，任务将在当前股票分析完成后停止" |}.

(** main_force_batch_scheduler.py, 291-306. *)
Definition get_task_status (id : option string) : M (option Sql.row) :=
  let! w := Eff.get in
  match id with
  | Some i =>
      if negb (String.eqb i "") then MainForceBatchDatabase.get_task_by_id i
      else match _current_task_id (sched w) with
           | Some c =>
               if negb (String.eqb c "") then MainForceBatchDatabase.get_task_by_id c
               else MainForceBatchDatabase.get_running_task
           | None => MainForceBatchDatabase.get_running_task
           end
  | None =>
      match _current_task_id (sched w) with
      | Some c =>
          if negb (String.eqb c "") then MainForceBatchDatabase.get_task_by_id c
          else MainForceBatchDatabase.get_running_task
      | None => MainForceBatchDatabase.get_running_task
      end
  end.

(** main_force_batch_scheduler.py, 312-314. *)
Definition is_running : M bool :=
  let! w := Eff.get in
  Eff.ret (match _current_task_id (sched w) with Some _ => true | None => false end).

End MainForceBatchScheduler.

(** ** Reading rows and stating what a computation does *)

Module Spec.
Import World.

(** The value of [column] in the row of [key] (NULL when there is no such
    row). *)
Definition cell (t : Sql.table) (key column : string) : Sql.value :=
  match t !! key with
  | Some r => Sql.col r column
  | None => Sql.Null
  end.

(** The value that a [SET] list assigns to a column, if it assigns one. *)
Definition assigned (assignments : list (string * Sql.value)) (c : string)
  : option Sql.value :=
  foldl (λ acc a, if String.eqb a.1 c then Some a.2 else acc) None assignments.

(** [wp m Q w]: run from [w], the computation [m] ends with an outcome and
    a world that satisfy [Q]. *)
Definition wp {W A} (m : Eff.M W A) (Q : outcome A → W → Prop) (w : W) : Prop :=
  Q (m w).1 (m w).2.

(** What a store call leaves alone whatever sqlite does. *)
Definition same_scheduler {Call Sched} (w w' : world Call Sched) : Prop :=
  sched w' = sched w ∧ is_set_reads w' = is_set_reads w ∧ cancel_at w' = cancel_at w
  ∧ uuids w' = uuids w.

End Spec.

(** ** Columns written by the progress update of the batch store *)

Module ProgressFrame.



Definition of_nat (n : nat) : Sql.value := Sql.Integer (Z.of_nat n).

End ProgressFrame.

(** ** Worlds used as examples *)

Module Examples.
Import World.

(** The batch scheduler after one [start_batch_analysis] of five codes in
    sequential mode. *)
Definition five_codes : list string := ["600519"; "000001"; "300750"; "601318"; "000858"].

Definition batch_started (faults : list bool) (cancel : option nat)
  : MainForceBatchWorld.world :=
  (MainForceBatchScheduler.start_batch_analysis five_codes "sequential" 3
     (initial faults ["task-1"; "task-2"] cancel MainForceBatchWorld.__init__)).2.

(** The selector scheduler after one [start_background_selection]. *)
Definition selection_found : pyval :=
  PDict [(KStr "success", PBool true); (KStr "stocks", PList []); (KStr "count", PInt 0)].

Definition selector_started (faults : list bool) (cancel : option nat)
  : SelectorWorld.world :=
  (SelectorScheduler.start_background_selection "small_cap" (Returned selection_found)
     (PDict [(KStr "top_n", PInt 5)]) None
     (initial faults ["task-1"; "task-2"] cancel SelectorWorld.__init__)).2.

(** The stock scheduler after one [start_batch_background_analysis] of
    the five codes. *)
Definition stock_batch_started (faults : list bool) (cancel : option nat)
  : StockAnalysisWorld.world :=
  (StockAnalysisScheduler.start_batch_background_analysis five_codes "1y" PNone
     "deepseek-chat" 3
     (initial faults ["task-1"; "task-2"] cancel StockAnalysisWorld.__init__)).2.

End Examples.

(** ** What a run of a worker calls on its store *)

Module Log.
Import World.

(** [logs m P]: from every world, [m] ends having appended to the calls a
    list [l] such that [P] holds of the outcome and [l]. *)
Definition logs {Call Sched A} (m : Eff.M (world Call Sched) A)
    (P : outcome A → list Call → Prop) : Prop :=
  ∀ w, ∃ l, calls (m w).2 = calls w ++ l ∧ P (m w).1 l.

(** A computation that leaves a part [part] of the world as it was. *)
Definition keeps {W A X} (part : W → X) (m : Eff.M W A) : Prop :=
  ∀ w, part (m w).2 = part w.

(** A computation that calls nothing on the store. *)
Definition silent {Call Sched A} (m : Eff.M (world Call Sched) A) : Prop :=
  ∀ w, calls (m w).2 = calls w.

End Log.

(** ** The calls of one run of the selection worker *)

Module SelectorRun.
Import SelectorWorld.

Definition writes_status (c : call) : bool :=
  match c with
  | update_task_status_call _ _ _ => true
  | _ => false
  end.


Definition writes_completed (c : call) : bool :=
  match c with
  | update_task_status_call _ status _ => String.eqb status "completed"
  | _ => false
  end.









End SelectorRun.

(** ** What one round of the sequential loop does to the world *)

Module BatchRun.
Import World MainForceBatchWorld.

(** The world after the [i]-th round of the sequential loop has run for
    [code] without cancellation and without faults: one read of the flag,
    two progress updates. *)
Definition after_round (analyze : string → outcome pyval) (task_id : string) (total : nat)
    (i : nat) (code : string) (results : list pyval) (w : world) : world :=
  let results' := results ++ [MainForceBatchScheduler._analyze_single analyze code] in
  let before := ((Z.of_nat i # Pos.of_nat total) * 100)%Q in
  let after := ((Z.of_nat (i + 1) # Pos.of_nat total) * 100)%Q in
  let success_count := MainForceBatchScheduler.successes results' in
  let failed_count := length results' - success_count in
  with_tasks
    (Sql.update_where task_id
       (MainForceBatchDatabase.progress_updates (i + 1) None (Some success_count)
          (Some failed_count) (Some after)))
    (with_calls
       (λ l, l ++ [update_task_progress_call task_id (i + 1) None (Some success_count)
                     (Some failed_count) (Some after)])
       (with_tasks
          (Sql.update_where task_id
             (MainForceBatchDatabase.progress_updates i (Some code) None None
                (Some before)))
          (with_calls
             (λ l, l ++ [update_task_progress_call task_id i (Some code) None None
                           (Some before)])
             (with_is_set_reads S w)))).

(** The world in which the flag has just been found set. *)
Definition after_cancel_seen (w : world) : world :=
  with_sched (with_cancel_flag (λ _, true)) (with_is_set_reads S w).

(** Whether the next read of the flag finds the planned cancellation. *)
Definition cancel_due (w : world) : bool :=
  match cancel_at w with
  | Some c => c <=? is_set_reads w
  | None => false
  end.

Definition is_progress_call (c : call) : bool :=
  match c with
  | update_task_progress_call _ _ _ _ _ _ => true
  | _ => false
  end.

(** The world after one round of the pool loop has run for [future]
    without cancellation and without faults. *)
Definition after_future (task_id : string) (total : nat) (future : string * pyval)
    (results : list pyval) (completed : nat) (w : world) : world :=
  let results' := results ++ [future.2] in
  let success_count := MainForceBatchScheduler.successes results' in
  let failed_count := length results' - success_count in
  let progress := ((Z.of_nat (completed + 1) # Pos.of_nat total) * 100)%Q in
  with_tasks
    (Sql.update_where task_id
       (MainForceBatchDatabase.progress_updates (completed + 1) (Some future.1)
          (Some success_count) (Some failed_count) (Some progress)))
    (with_calls
       (λ l, l ++ [update_task_progress_call task_id (completed + 1) (Some future.1)
                     (Some success_count) (Some failed_count) (Some progress)])
       (with_is_set_reads S w)).

(** The counters of the task row agree with the collected outcomes. *)
Definition counts_are (w : world) (task_id : string) (out : list pyval) : Prop :=
  Spec.cell (tasks w) task_id "completed_count" = ProgressFrame.of_nat (length out)
  ∧ Spec.cell (tasks w) task_id "success_count"
    = ProgressFrame.of_nat (MainForceBatchScheduler.successes out)
  ∧ Spec.cell (tasks w) task_id "failed_count"
    = ProgressFrame.of_nat (length out - MainForceBatchScheduler.successes out).

(** The row that [save_batch_analysis] appends to the history. *)
Definition history_row (record_id analysis_date batch_count : nat) (analysis_mode : string)
    (success_count failed_count total_time : nat) (results : list pyval) : Sql.row :=
  list_to_map
    [("id", Sql.Integer (Z.of_nat record_id));
     ("analysis_date", Sql.Time analysis_date);
     ("batch_count", Sql.Integer (Z.of_nat batch_count));
     ("analysis_mode", Sql.Text analysis_mode);
     ("success_count", Sql.Integer (Z.of_nat success_count));
     ("failed_count", Sql.Integer (Z.of_nat failed_count));
     ("total_time", Sql.Integer (Z.of_nat total_time));
     ("results_json",
      Sql.JsonText (PList (MainForceBatchDatabase._clean_results_for_json results)))].

(** What the loops of the worker leave alone: they write progress to the
    task table and read the flag, nothing else. *)
Definition kept (w w' : world) : Prop :=
  sql_faults w' = sql_faults w ∧ history w' = history w ∧ clock w' = clock w
  ∧ cancel_at w' = cancel_at w ∧ uuids w' = uuids w
  ∧ _task_lock (sched w') = _task_lock (sched w)
  ∧ (∀ key, is_Some (tasks w' !! key) ↔ is_Some (tasks w !! key))
  ∧ (∀ key, Spec.cell (tasks w') key "status" = Spec.cell (tasks w) key "status")
  ∧ ∃ l, calls w' = calls w ++ l ∧ forallb is_progress_call l = true.

End BatchRun.

(** ** The progress that a run writes *)

Module ProgressLog.

(** The values of [completed_count] in the progress updates among the
    calls of the batch store, in the order of the calls. *)
Fixpoint batch_counts (l : list MainForceBatchWorld.call) : list nat :=
  match l with
  | [] => []
  | MainForceBatchWorld.update_task_progress_call _ completed_count _ _ _ _ :: rest =>
      completed_count :: batch_counts rest
  | _ :: rest => batch_counts rest
  end.

(** The same for the calls of the stock task store. *)
Fixpoint stock_counts (l : list StockAnalysisWorld.call) : list nat :=
  match l with
  | [] => []
  | StockAnalysisWorld.update_task_progress_call _ _ completed_count _ :: rest =>
      completed_count :: stock_counts rest
  | _ :: rest => stock_counts rest
  end.

(** A sequence in which no value is smaller than the one before it. *)
Fixpoint nondecreasing (xs : list nat) : bool :=
  match xs with
  | x :: rest =>
      match rest with
      | y :: _ => (x <=? y) && nondecreasing rest
      | [] => true
      end
  | [] => true
  end.

(** A non-decreasing sequence of values between [lo] and [hi]. *)
Definition climbs (lo hi : nat) (xs : list nat) : Prop :=
  nondecreasing xs = true ∧ Forall (λ x, lo ≤ x ≤ hi) xs.

(** The counts that the sequential loop writes for [n] units from the
    [i]-th on: before each unit its index, after it the index plus one. *)
Definition round_counts (i n : nat) : list nat := flat_map (λ j, [j; j + 1]) (seq i n).

(** A call of the batch worker that writes the status [completed]. *)
Definition writes_completed (c : MainForceBatchWorld.call) : bool :=
  match c with
  | MainForceBatchWorld.update_task_status_call _ status _ _ _ _ =>
      String.eqb status "completed"
  | _ => false
  end.

End ProgressLog.

(** ** The units of a stock batch *)

Module StockRun.

(** The entry that the loop collects for a future: what the analysis
    returned, or the failure entry when it raised. *)
Definition entry (future : string * outcome pyval) : pyval :=
  match future.2 with
  | Returned result => result
  | Raised e => StockAnalysisScheduler.failure future.1 (StockAnalysisScheduler.error_text e)
  end.

(** A unit whose outcome can be counted: the analysis raises, or it
    returns a value whose [success] entry has a truth value. *)
Definition countable (o : outcome pyval) : bool :=
  match o with
  | Returned result => is_returned (py_get_truthy result "success")
  | Raised _ => true
  end.

(** A unit that keeps the contract of the analysis functions: it raises,
    or it returns a dict whose [success] entry has a truth value (as every
    dict with a Boolean [success] has). *)
Definition reports (o : outcome pyval) : bool :=
  match o with
  | Returned (PDict items) => is_returned (py_get_truthy (PDict items) "success")
  | Returned _ => false
  | Raised _ => true
  end.

(** The world after one round of the loop has run for the future of
    [symbol] without cancellation and without faults: one read of the
    event, one progress update. *)
Definition after_unit (task_id : string) (total : nat) (symbol : string) (completed : nat)
    (w : StockAnalysisWorld.world) : StockAnalysisWorld.world :=
  let progress := ((Z.of_nat (completed + 1) # Pos.of_nat total) * 100)%Q in
  World.with_tasks
    (Sql.update_where task_id
       [("current_symbol", Sql.Text symbol);
        ("completed_count", Sql.Integer (Z.of_nat (completed + 1)));
        ("progress_percent", Sql.Real progress)])
    (World.with_calls
       (λ l, l ++ [StockAnalysisWorld.update_task_progress_call task_id symbol
                     (completed + 1) progress])
       (World.with_is_set_reads S w)).

(** What the loop leaves alone: it writes progress to the row of the task
    and reads the event, nothing else. *)
Definition undisturbed (task_id : string) (w w' : StockAnalysisWorld.world) : Prop :=
  World.sql_faults w' = World.sql_faults w
  ∧ World.cancel_at w' = World.cancel_at w
  ∧ World.sched w' = World.sched w
  ∧ (∀ key, is_Some (World.tasks w' !! key) ↔ is_Some (World.tasks w !! key))
  ∧ (∀ column, column ∈ ["status"; "error_message"] →
       Spec.cell (World.tasks w') task_id column = Spec.cell (World.tasks w) task_id column).

(** The column [error_message] after a batch of which [failed] units
    failed: the summary, or what the column held when none failed. *)
Definition reported (total failed : nat) (old : Sql.value) : Sql.value :=
  if failed =? 0 then old
  else Sql.Text (StockAnalysisScheduler.summary (total - failed) (Z.of_nat failed)).

End StockRun.

(** ** What [create_task] can store *)

Module Creation.

(** Parameters that [SelectorTaskDB.create_task] can write: parameters that
    test false (an empty dict, None) are stored as NULL, others must be
    accepted by [json.dumps]; a value without a truth value (a DataFrame)
    makes the call fail. *)
Definition storable_params (params : pyval) : bool :=
  match py_truthy params with
  | Returned true => Json.dumpable false params
  | Returned false => true
  | Raised _ => false
  end.

(** The value of the column [params] of the new row. *)
Definition params_column (params : pyval) : Sql.value :=
  match py_truthy params with
  | Returned true => Sql.JsonText params
  | _ => Sql.Null
  end.

(** Whether sqlite raises in the next store call. *)
Definition faulty (faults : list bool) : bool :=
  match faults with
  | true :: _ => true
  | _ => false
  end.

End Creation.

(** ** Units of a batch and their outcomes *)

Module Units.

(** A unit succeeds when its analysis returns a value whose [success] entry
    tests true; it fails when the analysis raises, returns something else or
    reports failure. *)
Definition unit_ok (o : outcome pyval) : bool :=
  match o with
  | Returned result => MainForceBatchScheduler.succeeded result
  | Raised _ => false
  end.

(** The number of units of the batch that fail. *)
Definition failed_units (analyze : string → outcome pyval) (codes : list string) : nat :=
  length (filter (λ code, unit_ok (analyze code) = false) codes).

(** An outcome that [save_batch_analysis] can write: after cleaning,
    [json.dumps(..., default=str)] accepts it. *)
Definition storable (r : pyval) : bool :=
  Json.dumpable true (PList (MainForceBatchDatabase._clean_results_for_json [r])).

(** An analysis that succeeds on every code but [bad]. *)
Definition fails_on (bad : string) (code : string) : outcome pyval :=
  if String.eqb code bad
  then Raised {| exn_cls := RuntimeError; exn_msg := "no data" |}
  else Returned (PDict [(KStr "symbol", PStr code); (KStr "success", PBool true)]).

(** An analysis that succeeds on every code, and whose result for [bad]
    holds a tuple as a key. *)
Definition tuple_key_on (bad : string) (code : string) : outcome pyval :=
  Returned (PDict ((if String.eqb code bad then [(KOther "(1, 2)", PInt 1)] else [])
                   ++ [(KStr "symbol", PStr code); (KStr "success", PBool true)])).

End Units.

(* ===================================================================== *)
(** * Part II: lemmas and theorems                                       *)
(* ===================================================================== *)

(** ** Induction over Python values *)

Section pyval_induction.
Variable P : pyval → Prop.
Hypothesis Hnone : P PNone.
Hypothesis Hstr : ∀ s, P (PStr s).
Hypothesis Hint : ∀ n, P (PInt n).
Hypothesis Hfloat : ∀ b, P (PFloat b).
Hypothesis Hbool : ∀ b, P (PBool b).
Hypothesis Hdf : ∀ rows, Forall (Forall (λ kv, P kv.2)) rows → P (PDataFrame rows).
Hypothesis Hseries : ∀ items, Forall (λ kv, P kv.2) items → P (PSeries items).
Hypothesis Hdict : ∀ items, Forall (λ kv, P kv.2) items → P (PDict items).
Hypothesis Hlist : ∀ l, Forall P l → P (PList l).
Hypothesis Htuple : ∀ l, Forall P l → P (PTuple l).
Hypothesis Hobj : ∀ o, P (PObject o).

Lemma pyval_nested_ind (v : pyval) : P v.
Proof using All.
  revert v. fix IH 1. intros v.
  assert (Hitems : ∀ items : list (pykey * pyval), Forall (λ kv, P kv.2) items).
  { fix IHitems 1. intros [|[k x] items].
    - constructor.
    - constructor; [exact (IH x) | exact (IHitems items)]. }
  assert (Hvals : ∀ l : list pyval, Forall P l).
  { fix IHl 1. intros [|x l].
    - constructor.
    - constructor; [exact (IH x) | exact (IHl l)]. }
  destruct v.
  - exact Hnone.
  - apply Hstr.
  - apply Hint.
  - apply Hfloat.
  - apply Hbool.
  - apply Hdf. induction rows as [|row rows IHrows]; constructor; auto.
  - apply Hseries, Hitems.
  - apply Hdict, Hitems.
  - apply Hlist, Hvals.
  - apply Htuple, Hvals.
  - apply Hobj.
Qed.
End pyval_induction.

(** ** Facts about the normalizers *)

Section mapM_facts.
Context {A B : Type} (f : A → outcome B).

Lemma mapM_cons x xs :
  mapM f (x :: xs) =
    match f x with
    | Raised e => Raised e
    | Returned y =>
        match mapM f xs with
        | Raised e => Raised e
        | Returned ys => Returned (y :: ys)
        end
    end.
Proof. reflexivity. Qed.

Lemma mapM_total xs :
  Forall (λ x, ∃ y, f x = Returned y) xs →
  ∃ ys, mapM f xs = Returned ys ∧ Forall2 (λ x y, f x = Returned y) xs ys.
Proof.
  induction 1 as [|x xs [y Hy] _ (ys & Hys & Hall)].
  - exists []. split; [reflexivity | constructor].
  - exists (y :: ys). rewrite mapM_cons, Hy, Hys.
    split; [reflexivity | by constructor].
Qed.

Lemma mapM_length xs ys : mapM f xs = Returned ys → length ys = length xs.
Proof.
  revert ys. induction xs as [|x xs IH]; intros ys.
  - intros [= <-]. reflexivity.
  - rewrite mapM_cons. destruct (f x); [|discriminate].
    destruct (mapM f xs) as [zs|]; [|discriminate].
    intros [= <-]. simpl. by rewrite (IH zs).
Qed.
End mapM_facts.

Lemma mapM_fixed {A} (f : A → outcome A) xs :
  Forall (λ x, f x = Returned x) xs → mapM f xs = Returned xs.
Proof.
  induction 1 as [|x xs Hx _ IH]; [reflexivity|].
  by rewrite mapM_cons, Hx, IH.
Qed.

Import Normalizer.

Lemma item_with_total f (items : list (pykey * pyval)) (Q : pyval → pyval → Prop) :
  Forall (λ kv, ∃ y, f kv.2 = Returned y ∧ Q kv.2 y) items →
  ∃ items', mapM (item_with f) items = Returned items'
            ∧ Forall2 (λ kv kv', kv'.1 = kv.1 ∧ Q kv.2 kv'.2) items items'.
Proof.
  induction 1 as [|[k v] items (y & Hy & HQ) _ (items' & Hitems & Hall)].
  - exists []. split; [reflexivity | constructor].
  - exists ((k, y) :: items'). rewrite mapM_cons. unfold item_with at 1.
    simpl in *. rewrite Hy, Hitems. split; [reflexivity|].
    constructor; [by split | done].
Qed.

Lemma vals_with_total f (l : list pyval) (Q : pyval → pyval → Prop) :
  Forall (λ v, ∃ y, f v = Returned y ∧ Q v y) l →
  ∃ l', mapM f l = Returned l' ∧ Forall2 Q l l'.
Proof.
  induction 1 as [|v l (y & Hy & HQ) _ (l' & Hl & Hall)].
  - exists []. split; [reflexivity | constructor].
  - exists (y :: l'). rewrite mapM_cons, Hy, Hl. split; [reflexivity | by constructor].
Qed.

Lemma clean_for_json_dict items :
  _clean_for_json (PDict items) =
    match mapM (item_with _clean_for_json) items with
    | Returned items' => Returned (PDict items')
    | Raised e => Raised e
    end.
Proof. reflexivity. Qed.

Lemma clean_value_dict items :
  clean_value (PDict items) =
    match mapM (item_with clean_value) items with
    | Returned items' => Returned (PDict items')
    | Raised e => Raised e
    end.
Proof. reflexivity. Qed.

Lemma clean_for_json_df rows :
  _clean_for_json (PDataFrame rows) =
    if 100 <? df_len rows
    then Returned (to_dict_records (df_head 100 rows))
    else Returned (to_dict_records rows).
Proof. reflexivity. Qed.

Lemma clean_value_df rows :
  clean_value (PDataFrame rows) =
    if 100 <? df_len rows
    then Returned (to_dict_records (df_head 100 rows))
    else Returned (to_dict_records rows).
Proof. reflexivity. Qed.

Lemma forallb_Forall2_l {A B} (p : A → bool) (q : B → bool) (R : A → B → Prop) xs ys :
  (∀ x y, R x y → p x = true → q y = true) →
  Forall2 R xs ys → forallb p xs = true → forallb q ys = true.
Proof.
  intros Hpq. induction 1 as [|x y xs ys HR _ IH]; simpl; [done|].
  rewrite !andb_true_iff. intros [Hx Hxs]. split; [by eapply Hpq | by apply IH].
Qed.

Lemma json_safe_records rows :
  forallb (λ row, forallb (λ kv, json_key kv.1 && json_safe kv.2) row) rows = true →
  json_safe (to_dict_records rows) = true.
Proof.
  unfold to_dict_records. simpl. induction rows as [|row rows IH]; simpl; [done|].
  rewrite !andb_true_iff. intros [Hrow Hrows]. split; [done | by apply IH].
Qed.

Lemma forallb_take {A} (p : A → bool) n xs :
  forallb p xs = true → forallb p (take n xs) = true.
Proof.
  revert n. induction xs as [|x xs IH]; intros [|n]; simpl; try done.
  rewrite !andb_true_iff. intros [Hx Hxs]. split; [done | by apply IH].
Qed.

(** Either normalizer returns on every input, and the value it returns is
    JSON-safe when the input is [plain]. *)
Lemma clean_for_json_returns v :
  ∃ y, _clean_for_json v = Returned y ∧ (plain v = true → json_safe y = true).
Proof.
  induction v as [| | | | |rows IH|items IH|items IH|l IH|l IH|o] using pyval_nested_ind;
    try (eexists; split; [reflexivity | done]).
  - rewrite clean_for_json_df.
    destruct (100 <? df_len rows); eexists; (split; [reflexivity|]); intros Hp.
    + apply json_safe_records. unfold df_head. by apply forallb_take.
    + by apply json_safe_records.
  - rewrite clean_for_json_dict.
    destruct (item_with_total _clean_for_json items
                (λ v y, plain v = true → json_safe y = true)) as (items' & -> & Hall).
    { eapply Forall_impl; [exact IH|]. simpl. intros kv (y & Hy & HQ). eauto. }
    eexists. split; [reflexivity|]. simpl.
    apply forallb_Forall2_l with (R := λ kv kv', kv'.1 = kv.1
                   ∧ (plain kv.2 = true → json_safe kv'.2 = true)); [|done].
    intros kv kv' [Hk Hv]. rewrite !andb_true_iff, Hk. intros [??]. auto.
  - simpl.
    destruct (vals_with_total _clean_for_json l
                (λ v y, plain v = true → json_safe y = true)) as (l' & -> & Hall).
    { eapply Forall_impl; [exact IH|]. simpl. intros kv (y & Hy & HQ). eauto. }
    eexists. split; [reflexivity|]. simpl.
    apply forallb_Forall2_l with (R := λ v y, plain v = true → json_safe y = true); [|done].
    auto.
  - simpl.
    destruct (vals_with_total _clean_for_json l
                (λ v y, plain v = true → json_safe y = true)) as (l' & -> & Hall).
    { eapply Forall_impl; [exact IH|]. simpl. intros kv (y & Hy & HQ). eauto. }
    eexists. split; [reflexivity|]. simpl.
    apply forallb_Forall2_l with (R := λ v y, plain v = true → json_safe y = true); [|done].
    auto.
  - simpl. unfold py_str. destruct (obj_str o); eexists; (split; [reflexivity | done]).
Qed.

Lemma clean_value_returns v :
  ∃ y, clean_value v = Returned y ∧ (plain v = true → json_safe y = true).
Proof.
  induction v as [| | | | |rows IH|items IH|items IH|l IH|l IH|o] using pyval_nested_ind;
    try (eexists; split; [reflexivity | done]).
  - rewrite clean_value_df.
    destruct (100 <? df_len rows); eexists; (split; [reflexivity|]); intros Hp.
    + apply json_safe_records. unfold df_head. by apply forallb_take.
    + by apply json_safe_records.
  - rewrite clean_value_dict.
    destruct (item_with_total clean_value items
                (λ v y, plain v = true → json_safe y = true)) as (items' & -> & Hall).
    { eapply Forall_impl; [exact IH|]. simpl. intros kv (y & Hy & HQ). eauto. }
    eexists. split; [reflexivity|]. simpl.
    apply forallb_Forall2_l with (R := λ kv kv', kv'.1 = kv.1
                   ∧ (plain kv.2 = true → json_safe kv'.2 = true)); [|done].
    intros kv kv' [Hk Hv]. rewrite !andb_true_iff, Hk. intros [??]. auto.
  - simpl.
    destruct (vals_with_total clean_value l
                (λ v y, plain v = true → json_safe y = true)) as (l' & -> & Hall).
    { eapply Forall_impl; [exact IH|]. simpl. intros kv (y & Hy & HQ). eauto. }
    eexists. split; [reflexivity|]. simpl.
    apply forallb_Forall2_l with (R := λ v y, plain v = true → json_safe y = true); [|done].
    auto.
  - simpl.
    destruct (vals_with_total clean_value l
                (λ v y, plain v = true → json_safe y = true)) as (l' & -> & Hall).
    { eapply Forall_impl; [exact IH|]. simpl. intros kv (y & Hy & HQ). eauto. }
    eexists. split; [reflexivity|]. simpl.
    apply forallb_Forall2_l with (R := λ v y, plain v = true → json_safe y = true); [|done].
    auto.
  - simpl. unfold py_str. destruct (obj_str o); eexists; (split; [reflexivity | done]).
Qed.

Lemma normal_fixed v : normal v = true → _clean_for_json v = Returned v.
Proof.
  induction v as [| | | | |rows IH|items IH|items IH|l IH|l IH|o] using pyval_nested_ind;
    try done.
  - intros Hn. rewrite clean_for_json_dict. simpl in Hn.
    rewrite mapM_fixed; [done|].
    apply Forall_forall. intros [k v] Hin. unfold item_with.
    rewrite Forall_forall in IH. specialize (IH (k, v) Hin).
    rewrite forallb_forall in Hn. specialize (Hn (k, v)).
    simpl in *. rewrite IH; [done|]. apply Hn. by apply list_elem_of_In.
  - intros Hn. simpl in *. rewrite mapM_fixed; [done|].
    apply Forall_forall. intros v Hin.
    rewrite Forall_forall in IH. rewrite forallb_forall in Hn.
    apply IH; [done|]. apply Hn. by apply list_elem_of_In.
Qed.

Lemma normal_records rows :
  forallb (λ row, forallb (λ kv, normal kv.2) row) rows = true →
  normal (to_dict_records rows) = true.
Proof.
  unfold to_dict_records. simpl. induction rows as [|row rows IH]; simpl; [done|].
  rewrite !andb_true_iff. intros [Hrow Hrows]. split; [done | by apply IH].
Qed.

Lemma cells_normal_result v :
  cells_normal v = true → ∃ y, _clean_for_json v = Returned y ∧ normal y = true.
Proof.
  induction v as [| | | | |rows IH|items IH|items IH|l IH|l IH|o] using pyval_nested_ind;
    intros Hc; try (by eexists).
  - rewrite clean_for_json_df. simpl in Hc.
    destruct (100 <? df_len rows); eexists; (split; [reflexivity|]).
    + apply normal_records. unfold df_head. by apply forallb_take.
    + by apply normal_records.
  - rewrite clean_for_json_dict. simpl in Hc.
    destruct (item_with_total _clean_for_json items (λ _ y, normal y = true))
      as (items' & -> & Hall).
    { rewrite Forall_forall in IH. rewrite forallb_forall in Hc.
      apply Forall_forall. intros kv Hin.
      destruct (IH kv Hin) as (y & Hy & Hn); [|by eauto].
      apply Hc. by apply list_elem_of_In. }
    eexists. split; [reflexivity|]. simpl.
    clear -Hall. induction Hall as [|kv kv' ?? [_ Hn] _ IH']; simpl; [done|].
    by rewrite Hn, IH'.
  - simpl in *.
    destruct (vals_with_total _clean_for_json l (λ _ y, normal y = true))
      as (l' & -> & Hall).
    { rewrite Forall_forall in IH. rewrite forallb_forall in Hc.
      apply Forall_forall. intros v Hin.
      destruct (IH v Hin) as (y & Hy & Hn); [|by eauto].
      apply Hc. by apply list_elem_of_In. }
    eexists. split; [reflexivity|]. simpl.
    clear -Hall. induction Hall as [|?? ?? Hn _ IH']; simpl; [done|].
    by rewrite Hn, IH'.
  - simpl in *.
    destruct (vals_with_total _clean_for_json l (λ _ y, normal y = true))
      as (l' & -> & Hall).
    { rewrite Forall_forall in IH. rewrite forallb_forall in Hc.
      apply Forall_forall. intros v Hin.
      destruct (IH v Hin) as (y & Hy & Hn); [|by eauto].
      apply Hc. by apply list_elem_of_In. }
    eexists. split; [reflexivity|]. simpl.
    clear -Hall. induction Hall as [|?? ?? Hn _ IH']; simpl; [done|].
    by rewrite Hn, IH'.
  - simpl. unfold py_str. destruct (obj_str o); by eexists.
Qed.

(** ** The normalizers and the bound on nested calls *)

Lemma mapM_ext_in {A B} (f g : A → outcome B) xs :
  Forall (λ x, f x = g x) xs → mapM f xs = mapM g xs.
Proof.
  induction 1 as [|x xs Hx _ IH]; [done|]. by rewrite !mapM_cons, Hx, IH.
Qed.

Lemma mapM_raises {A B} (f : A → outcome B) e xs :
  Forall (λ x, (∃ y, f x = Returned y) ∨ f x = Raised e) xs →
  Exists (λ x, f x = Raised e) xs →
  mapM f xs = Raised e.
Proof.
  induction 1 as [|x xs Hx _ IH]; intros Hex; [by apply Exists_nil in Hex|].
  rewrite mapM_cons. destruct Hx as [[y Hy]| ->]; [|done].
  apply Exists_cons in Hex as [Hx|Hex]; [congruence|]. by rewrite Hy, IH.
Qed.

Lemma foldr_max_le {A} (f : A → nat) (xs : list A) (n : nat) :
  foldr (λ x m, f x `max` m) 0 xs ≤ n ↔ Forall (λ x, f x ≤ n) xs.
Proof.
  induction xs as [|x xs IH]; simpl.
  - split; [constructor | lia].
  - rewrite Forall_cons, <- IH. lia.
Qed.

Lemma foldr_max_lt {A} (f : A → nat) (xs : list A) (n : nat) :
  n < foldr (λ x m, f x `max` m) 0 xs → Exists (λ x, n < f x) xs.
Proof.
  induction xs as [|x xs IH]; simpl; [lia|]. intros Hlt.
  destruct (decide (n < f x)); [by left | right; apply IH; lia].
Qed.

Lemma item_with_eq f g (kv : pykey * pyval) : f kv.2 = g kv.2 → item_with f kv = item_with g kv.
Proof. unfold item_with. by intros ->. Qed.

Lemma clean_for_json_items items :
  mapM (λ kv, match _clean_for_json kv.2 with
              | Returned v' => Returned (kv.1, v')
              | Raised e => Raised e
              end) items
  = mapM (item_with _clean_for_json) items.
Proof. done. Qed.

(** While the nesting of the value fits, the bounded normalizers are the
    normalizers. *)
Lemma clean_for_json_within_fits v depth :
  nesting v ≤ depth → _clean_for_json_within depth v = _clean_for_json v.
Proof.
  revert depth.
  induction v as [| | | | |rows IH|items IH|items IH|l IH|l IH|o] using pyval_nested_ind;
    intros [|depth] Hfit; simpl in Hfit; try lia; try reflexivity.
  - apply Nat.succ_le_mono, (foldr_max_le (λ kv, nesting kv.2)) in Hfit.
    rewrite clean_for_json_dict. cbn [_clean_for_json_within].
    rewrite (mapM_ext_in _ (item_with _clean_for_json)); [done|].
    rewrite Forall_forall in IH, Hfit. apply Forall_forall. intros kv Hin.
    apply item_with_eq. by apply IH, Hfit.
  - apply Nat.succ_le_mono, (foldr_max_le nesting) in Hfit. simpl.
    rewrite (mapM_ext_in _ _clean_for_json); [done|].
    rewrite Forall_forall in IH, Hfit. apply Forall_forall. intros x Hin.
    by apply IH, Hfit.
  - apply Nat.succ_le_mono, (foldr_max_le nesting) in Hfit. simpl.
    rewrite (mapM_ext_in _ _clean_for_json); [done|].
    rewrite Forall_forall in IH, Hfit. apply Forall_forall. intros x Hin.
    by apply IH, Hfit.
Qed.

Lemma clean_value_within_fits v depth :
  nesting v ≤ depth → clean_value_within depth v = clean_value v.
Proof.
  revert depth.
  induction v as [| | | | |rows IH|items IH|items IH|l IH|l IH|o] using pyval_nested_ind;
    intros [|depth] Hfit; simpl in Hfit; try lia; try reflexivity.
  - apply Nat.succ_le_mono, (foldr_max_le (λ kv, nesting kv.2)) in Hfit.
    rewrite clean_value_dict. cbn [clean_value_within].
    rewrite (mapM_ext_in _ (item_with clean_value)); [done|].
    rewrite Forall_forall in IH, Hfit. apply Forall_forall. intros kv Hin.
    apply item_with_eq. by apply IH, Hfit.
  - apply Nat.succ_le_mono, (foldr_max_le nesting) in Hfit. simpl.
    rewrite (mapM_ext_in _ clean_value); [done|].
    rewrite Forall_forall in IH, Hfit. apply Forall_forall. intros x Hin.
    by apply IH, Hfit.
  - apply Nat.succ_le_mono, (foldr_max_le nesting) in Hfit. simpl.
    rewrite (mapM_ext_in _ clean_value); [done|].
    rewrite Forall_forall in IH, Hfit. apply Forall_forall. intros x Hin.
    by apply IH, Hfit.
Qed.

(** Beyond the bound they raise [RecursionError]. *)
Section too_deep.
Variable within : nat → pyval → outcome pyval.
Variable unbounded : pyval → outcome pyval.
Hypothesis within_fits : ∀ v depth, nesting v ≤ depth → within depth v = unbounded v.
Hypothesis unbounded_returns : ∀ v, ∃ y, unbounded v = Returned y.

Lemma within_child_cases depth v :
  (depth < nesting v → within depth v = recursion_error) →
  (∃ y, within depth v = Returned y) ∨ within depth v = recursion_error.
Proof using All.
  intros IH. destruct (decide (nesting v ≤ depth)) as [Hfit|Hdeep].
  - left. rewrite within_fits by done. apply unbounded_returns.
  - right. apply IH. lia.
Qed.

Lemma within_items_deep depth (items : list (pykey * pyval)) :
  (∀ v, depth < nesting v → within depth v = recursion_error) →
  depth < foldr (λ kv n, nesting kv.2 `max` n) 0 items →
  mapM (item_with (within depth)) items = recursion_error.
Proof using All.
  intros IH Hdeep. apply mapM_raises.
  - apply Forall_forall. intros kv _. unfold item_with.
    destruct (within_child_cases depth kv.2 (IH kv.2)) as [[y ->]| ->]; eauto.
  - apply (foldr_max_lt (λ kv, nesting kv.2)) in Hdeep.
    eapply Exists_impl; [exact Hdeep|]. simpl. intros kv Hkv.
    unfold item_with. by rewrite IH.
Qed.

Lemma within_list_deep depth (l : list pyval) :
  (∀ v, depth < nesting v → within depth v = recursion_error) →
  depth < foldr (λ x n, nesting x `max` n) 0 l →
  mapM (within depth) l = recursion_error.
Proof using All.
  intros IH Hdeep. apply mapM_raises.
  - apply Forall_forall. intros x _. apply within_child_cases, IH.
  - apply (foldr_max_lt nesting) in Hdeep.
    eapply Exists_impl; [exact Hdeep|]. simpl. intros x Hx. by apply IH.
Qed.
End too_deep.

Lemma clean_for_json_total v : ∃ y, _clean_for_json v = Returned y.
Proof. destruct (clean_for_json_returns v) as (y & Hy & _). eauto. Qed.

Lemma clean_value_total v : ∃ y, clean_value v = Returned y.
Proof. destruct (clean_value_returns v) as (y & Hy & _). eauto. Qed.

Lemma clean_for_json_within_deep depth v :
  depth < nesting v → _clean_for_json_within depth v = recursion_error.
Proof.
  revert v. induction depth as [|depth IH]; intros v Hdeep; [done|].
  destruct v; simpl in Hdeep; try lia; cbn [_clean_for_json_within].
  - rewrite (within_items_deep _ _ clean_for_json_within_fits clean_for_json_total);
      [done | done | lia].
  - rewrite (within_list_deep _ _ clean_for_json_within_fits clean_for_json_total);
      [done | done | lia].
  - rewrite (within_list_deep _ _ clean_for_json_within_fits clean_for_json_total);
      [done | done | lia].
Qed.

Lemma clean_value_within_deep depth v :
  depth < nesting v → clean_value_within depth v = recursion_error.
Proof.
  revert v. induction depth as [|depth IH]; intros v Hdeep; [done|].
  destruct v; simpl in Hdeep; try lia; cbn [clean_value_within].
  - rewrite (within_items_deep _ _ clean_value_within_fits clean_value_total);
      [done | done | lia].
  - rewrite (within_list_deep _ _ clean_value_within_fits clean_value_total);
      [done | done | lia].
  - rewrite (within_list_deep _ _ clean_value_within_fits clean_value_total);
      [done | done | lia].
Qed.

Lemma nesting_nested_list n : nesting (nested_list n) = S n.
Proof.
  induction n as [|n IH]; [done|]. unfold nested_list in *. cbn [Nat.iter].
  simpl. rewrite IH. lia.
Qed.

(** ** The claims on the normalizers *)

(** C4, as stated, fails in three ways.  On an object whose [str()] raises,
    [SelectorTaskDB._clean_for_json] returns [None], which is no sentinel
    string at all.  On a list nested deeper than the interpreter allows
    calls to nest, the normalizer raises [RecursionError].  And a dict key
    that JSON does not accept is kept, so the value returned is not
    JSON-safe. *)
Lemma C4_normalizer_counterexample :
  (other_type unprintable = true
   ∧ ∀ depth, ¬ ∃ sentinel : string,
       _clean_for_json_within depth unprintable = Returned (PStr sentinel))
  ∧ (∀ depth, _clean_for_json_within depth (nested_list depth) = recursion_error
              ∧ clean_value_within depth (nested_list depth) = recursion_error)
  ∧ (∃ y, _clean_for_json_within 2 tuple_keyed = Returned y ∧ json_safe y = false).
Proof.
  split; [split|split].
  - reflexivity.
  - intros [|depth] [sentinel H]; discriminate H.
  - intros depth. split.
    + apply clean_for_json_within_deep. rewrite nesting_nested_list. lia.
    + apply clean_value_within_deep. rewrite nesting_nested_list. lia.
  - by eexists.
Qed.

(** C4, amended: on every input whose dicts, lists and tuples are nested
    no deeper than the interpreter allows calls to nest, both normalizers
    return a value; on every deeper input they raise [RecursionError].  On
    an object that is neither scalar, tabular, associative nor sequential
    they return its string form; when [str()] raises, [_clean_for_json]
    returns [None] and [clean_value] returns the fixed string
    [unserializable].  The value returned is JSON-safe when the input is
    [plain]: dict keys, DataFrame column labels and Series index labels are
    keys JSON accepts, and DataFrame and Series cells, which are handed on
    unnormalized, are JSON-safe already. *)
Theorem C4_normalizer_total (depth : nat) (x : pyval) :
  (nesting x ≤ depth →
   (∃ y, _clean_for_json_within depth x = Returned y
         ∧ (plain x = true → json_safe y = true)
         ∧ (∀ o, x = PObject o →
                 y = match py_str o with Returned s => PStr s | Raised _ => PNone end))
   ∧ (∃ y, clean_value_within depth x = Returned y
           ∧ (plain x = true → json_safe y = true)
           ∧ (∀ o, x = PObject o →
                   y = match py_str o with
                       | Returned s => PStr s
                       | Raised _ => PStr unserializable
                       end)))
  ∧ (depth < nesting x →
     _clean_for_json_within depth x = recursion_error
     ∧ clean_value_within depth x = recursion_error).
Proof.
  split.
  - intros Hfit. rewrite clean_for_json_within_fits, clean_value_within_fits by done.
    split.
    + destruct (clean_for_json_returns x) as (y & Hy & Hsafe).
      exists y. repeat split; [done..|]. intros o ->. simpl in Hy.
      destruct (py_str o); by injection Hy.
    + destruct (clean_value_returns x) as (y & Hy & Hsafe).
      exists y. repeat split; [done..|]. intros o ->. simpl in Hy.
      destruct (py_str o); by injection Hy.
  - intros Hdeep. split.
    + by apply clean_for_json_within_deep.
    + by apply clean_value_within_deep.
Qed.

Lemma C4_normalizer_total_witness :
  (∃ y, _clean_for_json_within 3 (PDict [(KStr "stocks", PTuple [unprintable; PInt 3])])
        = Returned y
        ∧ json_safe y = true)
  ∧ (∃ y, clean_value_within 1 unprintable = Returned y ∧ y = PStr unserializable)
  ∧ _clean_for_json_within 2 (PDict [(KStr "stocks", PTuple [unprintable; PInt 3])])
    = recursion_error.
Proof.
  destruct (C4_normalizer_total 3 (PDict [(KStr "stocks", PTuple [unprintable; PInt 3])]))
    as [Hfits _].
  destruct Hfits as [(y & Hy & Hsafe & _) _]; [vm_compute; lia|].
  destruct (C4_normalizer_total 1 unprintable) as [Hobject _].
  destruct Hobject as [_ (z & Hz & _ & Hobj)]; [vm_compute; lia|].
  destruct (C4_normalizer_total 2 (PDict [(KStr "stocks", PTuple [unprintable; PInt 3])]))
    as [_ Hdeep].
  split; [|split].
  - exists y. split; [exact Hy | apply Hsafe; reflexivity].
  - exists z. split; [exact Hz | exact (Hobj _ eq_refl)].
  - apply Hdeep. vm_compute. lia.
Defined.

(** C6: a table of more than 100 rows is normalized to its first 100 rows,
    in order; a table of at most 100 rows keeps all of them; a table of 500
    rows yields exactly 100.  ([StockAnalysisTaskDB._clean_for_json] is the
    same function.) *)
Theorem C6_result_bound (rows : list (list (pykey * pyval))) :
  let out := payload_rows (_clean_for_json (PDataFrame rows)) in
  _clean_for_json (PDataFrame rows) = Returned (PList out)
  ∧ (100 < length rows → out = take 100 (map PDict rows) ∧ length out = 100)
  ∧ (length rows ≤ 100 → out = map PDict rows)
  ∧ (length rows = 500 → length out = 100).
Proof.
  assert (Htake : ∀ n, 100 < n → n = length rows →
            length (take 100 (map PDict rows)) = 100).
  { intros n Hn ->. rewrite length_take, length_map. lia. }
  cbv zeta. rewrite clean_for_json_df. unfold df_len, df_head, to_dict_records.
  destruct (Nat.ltb_spec 100 (length rows)) as [Hlt|Hle]; cbn [payload_rows].
  - rewrite <- (firstn_map PDict). repeat split; try done.
    + eauto.
    + lia.
    + intros H500. apply (Htake 500); [lia | done].
  - repeat split; try done; lia.
Qed.

Lemma C6_result_bound_witness :
  length (payload_rows (_clean_for_json (table_of 500))) = 100.
Proof.
  apply (C6_result_bound (map (λ i, [(KStr "code", PInt (Z.of_nat i))]) (seq 0 500))).
  vm_compute. reflexivity.
Defined.

(** C10, as stated, fails: the rows of a DataFrame are handed on with their
    cells as they are, so a second pass still rewrites a Timestamp cell. *)
Lemma C10_idempotent_counterexample :
  twice _clean_for_json dated_table ≠ _clean_for_json dated_table.
Proof. vm_compute. discriminate. Qed.

(** C10, amended: the normalizer is idempotent on every value whose
    DataFrame and Series cells are normalized already (in particular on
    every value that holds no DataFrame and no Series). *)
Theorem C10_idempotent (x : pyval) :
  cells_normal x = true → twice _clean_for_json x = _clean_for_json x.
Proof.
  intros Hc. unfold twice.
  destruct (cells_normal_result x Hc) as (y & -> & Hn).
  by apply normal_fixed.
Qed.

Lemma C10_idempotent_witness :
  twice _clean_for_json
    (PDict [(KStr "stocks", PTuple [unprintable; table_of 2]); (KOther "(1, 2)", PNone)])
  = _clean_for_json
    (PDict [(KStr "stocks", PTuple [unprintable; table_of 2]); (KOther "(1, 2)", PNone)]).
Proof. apply C10_idempotent. reflexivity. Defined.


(** ** Rows and assignments *)

Import World Spec.

(** A lookup that computes to a row finds one. *)
Lemma is_Some_computed {A} (mx : option A) :
  match mx with Some _ => true | None => false end = true → is_Some mx.
Proof. destruct mx; [eauto | discriminate]. Qed.

Lemma set_columns_snoc assignments a (r : Sql.row) :
  Sql.set_columns (assignments ++ [a]) r = <[a.1 := a.2]> (Sql.set_columns assignments r).
Proof. unfold Sql.set_columns. by rewrite foldl_app. Qed.

Lemma assigned_snoc assignments a c :
  assigned (assignments ++ [a]) c
  = if String.eqb a.1 c then Some a.2 else assigned assignments c.
Proof. unfold assigned. by rewrite foldl_app. Qed.

Lemma set_columns_lookup assignments (r : Sql.row) c :
  Sql.set_columns assignments r !! c
  = match assigned assignments c with Some v => Some v | None => r !! c end.
Proof.
  induction assignments as [|a assignments IH] using rev_ind; [done|].
  rewrite set_columns_snoc, assigned_snoc.
  destruct (String.eqb_spec a.1 c) as [->|Hne].
  - by rewrite lookup_insert_eq.
  - by rewrite lookup_insert_ne.
Qed.

Lemma col_set_columns assignments (r : Sql.row) c :
  Sql.col (Sql.set_columns assignments r) c
  = match assigned assignments c with Some v => v | None => Sql.col r c end.
Proof. unfold Sql.col. rewrite set_columns_lookup. by destruct (assigned _ _). Qed.

Lemma update_where_lookup key assignments (t : Sql.table) key' :
  Sql.update_where key assignments t !! key'
  = if decide (key = key') then Sql.set_columns assignments <$> t !! key' else t !! key'.
Proof.
  unfold Sql.update_where. rewrite lookup_alter. by repeat case_decide; subst.
Qed.

Lemma cell_update_where key assignments (t : Sql.table) key' c :
  cell (Sql.update_where key assignments t) key' c
  = if decide (key = key')
    then match t !! key with
         | Some r => default (Sql.col r c) (assigned assignments c)
         | None => Sql.Null
         end
    else cell t key' c.
Proof.
  unfold cell. rewrite update_where_lookup. case_decide as Hk; [|done].
  subst key'. destruct (t !! key) as [r|]; simpl; [|done].
  rewrite col_set_columns. by destruct (assigned _ _).
Qed.

Lemma cell_update_where_same key assignments (t : Sql.table) c :
  is_Some (t !! key) →
  cell (Sql.update_where key assignments t) key c
  = default (cell t key c) (assigned assignments c).
Proof.
  intros [r Hr]. rewrite cell_update_where, decide_True by done.
  unfold cell. by rewrite Hr.
Qed.


Lemma cell_update_where_unassigned key assignments (t : Sql.table) key' c :
  assigned assignments c = None →
  cell (Sql.update_where key assignments t) key' c = cell t key' c.
Proof.
  intros Hc. rewrite cell_update_where, Hc. case_decide; [|done].
  subst. unfold cell. by destruct (t !! key').
Qed.

Lemma update_where_is_Some key assignments (t : Sql.table) key' :
  is_Some (Sql.update_where key assignments t !! key') ↔ is_Some (t !! key').
Proof.
  rewrite update_where_lookup. case_decide; [|done]. by rewrite fmap_is_Some.
Qed.

(** ** Rules for [wp] *)

Section wp_rules.
Context {W : Type}.
Implicit Type w : W.

Lemma wp_ret {A} (a : A) (Q : outcome A → W → Prop) w :
  Q (Returned a) w → wp (Eff.ret a) Q w.
Proof. done. Qed.

Lemma wp_lift {A} (o : outcome A) (Q : outcome A → W → Prop) w :
  Q o w → wp (Eff.lift o) Q w.
Proof. done. Qed.

Lemma wp_get (Q : outcome W → W → Prop) w : Q (Returned w) w → wp Eff.get Q w.
Proof. done. Qed.

Lemma wp_modify (f : W → W) (Q : outcome unit → W → Prop) w :
  Q (Returned tt) (f w) → wp (Eff.modify f) Q w.
Proof. done. Qed.

Lemma wp_bind {A B} (m : Eff.M W A) (k : A → Eff.M W B) (Q : outcome B → W → Prop) w :
  wp m (λ r w', match r with
                | Returned a => wp (k a) Q w'
                | Raised e => Q (Raised e) w'
                end) w →
  wp (Eff.bind m k) Q w.
Proof. unfold wp, Eff.bind. by destruct (m w) as [[a|e] w']. Qed.

Lemma wp_try_except {A} (body : Eff.M W A) handler (Q : outcome A → W → Prop) w :
  wp body (λ r w', match r with
                   | Returned a => Q (Returned a) w'
                   | Raised e => wp (handler e) Q w'
                   end) w →
  wp (Eff.try_except body handler) Q w.
Proof. unfold wp, Eff.try_except. by destruct (body w) as [[a|e] w']. Qed.

Lemma wp_try_finally {A} (body : Eff.M W A) cleanup (Q : outcome A → W → Prop) w :
  wp body (λ r w', wp cleanup (λ c w'', match c with
                                        | Returned _ => Q r w''
                                        | Raised e => Q (Raised e) w''
                                        end) w') w →
  wp (Eff.try_finally body cleanup) Q w.
Proof.
  unfold wp, Eff.try_finally. destruct (body w) as [r w']. simpl.
  by destruct (cleanup w') as [[[]|e] w''].
Qed.

Lemma wp_mono {A} (m : Eff.M W A) (P Q : outcome A → W → Prop) w :
  wp m P w → (∀ r w', P r w' → Q r w') → wp m Q w.
Proof. unfold wp. auto. Qed.

Lemma wp_run {A} (m : Eff.M W A) (Q : outcome A → W → Prop) w :
  wp m Q w → Q (m w).1 (m w).2.
Proof. done. Qed.

End wp_rules.


(** ** The batch store: [update_task_progress] *)

Import ProgressFrame.








(** ** The stores: [create_task] *)

(** Unfold the monad and the primitives of the world, then compute. *)
Ltac run_eff :=
  unfold Eff.try_except, Eff.try_finally, Eff.bind, Eff.ret, Eff.lift, Eff.modify,
    Eff.get, Eff.raise, connect, datetime_now, record, execute, query, uuid4,
    planned_cancel, with_tasks, with_history, with_clock, with_sql_faults, with_uuids,
    with_calls, with_is_set_reads, with_sched;
  cbn.

Import Creation.

Lemma selector_create_task_run (w : SelectorWorld.world) task_id selector_type params :
  let w1 := with_calls (λ l, l ++ [SelectorWorld.create_task_call task_id selector_type]) w in
  let w2 := with_sql_faults tail w1 in
  let row now :=
    Sql.set_columns [("task_id", Sql.Text task_id);
                     ("selector_type", Sql.Text selector_type);
                     ("status", Sql.Text "pending");
                     ("params", params_column params);
                     ("created_at", Sql.Time now)] SelectorTaskDB.defaults in
  SelectorTaskDB.create_task task_id selector_type params w
  = if faulty (sql_faults w) || negb (storable_params params) then (Returned false, w2)
    else match tasks w !! task_id with
         | Some _ => (Returned false, with_clock S w2)
         | None => (Returned true, with_tasks <[task_id := row (clock w)]> (with_clock S w2))
         end.
Proof.
  destruct w as [t h c faults u cs r ca s]. cbv zeta.
  unfold SelectorTaskDB.create_task, Json.dumps, Sql.insert_into, storable_params,
    params_column.
  destruct faults as [|[] faults]; run_eff; try done;
    destruct (py_truthy params) as [[]|]; run_eff;
    try (destruct (Json.dumpable false params); run_eff);
    try done; by destruct (t !! task_id).
Qed.

Lemma dumpable_strings d (l : list string) : Json.dumpable d (PList (map PStr l)) = true.
Proof. simpl. induction l as [|s l IH]; simpl; auto. Qed.

Lemma batch_create_task_run (w : MainForceBatchWorld.world) task_id stock_codes
    analysis_mode max_workers :
  let w1 := with_calls (λ l, l ++ [MainForceBatchWorld.create_task_call task_id]) w in
  let w2 := with_sql_faults tail w1 in
  let record_id := size (tasks w) + 1 in
  let row :=
    Sql.set_columns [("id", Sql.Integer (Z.of_nat record_id));
                     ("task_id", Sql.Text task_id);
                     ("stock_codes", Sql.JsonText (PList (map PStr stock_codes)));
                     ("analysis_mode", Sql.Text analysis_mode);
                     ("max_workers", Sql.Integer (Z.of_nat max_workers));
                     ("total_count", Sql.Integer (Z.of_nat (length stock_codes)));
                     ("status", Sql.Text "pending");
                     ("created_at", Sql.Time (clock w))]
      MainForceBatchDatabase.defaults in
  MainForceBatchDatabase.create_task task_id stock_codes analysis_mode max_workers w
  = if faulty (sql_faults w)
    then (Raised {| exn_cls := OperationalError; exn_msg := "database is locked" |}, w2)
    else match tasks w !! task_id with
         | Some _ =>
             (Raised {| exn_cls := IntegrityError;
                        exn_msg := "UNIQUE constraint failed: task_id" |},
              with_clock S w2)
         | None => (Returned record_id, with_tasks <[task_id := row]> (with_clock S w2))
         end.
Proof.
  destruct w as [t h c faults u cs r ca s]. cbv zeta.
  unfold MainForceBatchDatabase.create_task, Json.dumps, Sql.insert_into.
  rewrite dumpable_strings.
  destruct faults as [|[] faults]; run_eff; try done; by destruct (t !! task_id).
Qed.

(** A batch store in which sqlite raises at the next call. *)
Lemma C7_create_raises_counterexample :
  (MainForceBatchDatabase.create_task "task-1" Examples.five_codes "sequential" 3
     (initial [true] [] None MainForceBatchWorld.__init__)).1
  = Raised {| exn_cls := OperationalError; exn_msg := "database is locked" |}.
Proof. reflexivity. Qed.

(** C7, amended: [SelectorTaskDB.create_task] returns true exactly when
    sqlite does not raise, the task id is not taken and the parameters can
    be written (they are empty, or [json.dumps] accepts them); it has then
    inserted a pending row holding the task id, the selector type and the
    parameters (NULL for empty parameters), and changed no other row.  In
    every other case it returns false, without raising, and leaves the table
    as it was.  [MainForceBatchDatabase.create_task] has no handler: it
    returns the id of the new record exactly when sqlite does not raise and
    the task id is not taken, having inserted a pending row with the task id
    and the number of codes; in every other case it raises and leaves the
    table as it was. *)
Theorem C7_create_task (ws : SelectorWorld.world) (wb : MainForceBatchWorld.world)
    (task_id selector_type : string) (params : pyval) (stock_codes : list string)
    (analysis_mode : string) (max_workers : nat) :
  let s := SelectorTaskDB.create_task task_id selector_type params ws in
  let b := MainForceBatchDatabase.create_task task_id stock_codes analysis_mode
             max_workers wb in
  (s.1 = Returned true
   ↔ faulty (sql_faults ws) = false ∧ tasks ws !! task_id = None
     ∧ storable_params params = true)
  ∧ (s.1 = Returned true →
     ∃ row, tasks s.2 = <[task_id := row]> (tasks ws)
            ∧ Sql.col row "task_id" = Sql.Text task_id
            ∧ Sql.col row "status" = Sql.Text "pending"
            ∧ Sql.col row "selector_type" = Sql.Text selector_type
            ∧ Sql.col row "params" = params_column params)
  ∧ (s.1 ≠ Returned true → s.1 = Returned false ∧ tasks s.2 = tasks ws)
  ∧ ((∃ record_id, b.1 = Returned record_id)
     ↔ faulty (sql_faults wb) = false ∧ tasks wb !! task_id = None)
  ∧ (∀ record_id, b.1 = Returned record_id →
     ∃ row, tasks b.2 = <[task_id := row]> (tasks wb)
            ∧ Sql.col row "id" = Sql.Integer (Z.of_nat record_id)
            ∧ Sql.col row "task_id" = Sql.Text task_id
            ∧ Sql.col row "status" = Sql.Text "pending"
            ∧ Sql.col row "total_count" = Sql.Integer (Z.of_nat (length stock_codes)))
  ∧ ((∀ record_id, b.1 ≠ Returned record_id) →
     (∃ e, b.1 = Raised e) ∧ tasks b.2 = tasks wb).
Proof.
  cbv zeta. rewrite selector_create_task_run, batch_create_task_run. cbv zeta.
  split; [|split; [|split]]; [| | |split; [|split]].
  - destruct (faulty (sql_faults ws)), (storable_params params),
      (tasks ws !! task_id); simpl; split; try done; by intros (? & ? & ?).
  - destruct (faulty (sql_faults ws) || negb (storable_params params));
      [discriminate|].
    destruct (tasks ws !! task_id); [discriminate|]. intros _.
    eexists. split; [reflexivity|]. by rewrite !col_set_columns.
  - destruct (faulty (sql_faults ws) || negb (storable_params params)); [done|].
    by destruct (tasks ws !! task_id).
  - destruct (faulty (sql_faults wb)), (tasks wb !! task_id); simpl; split;
      try done; try (by intros [? ?]); by eexists.
  - intros record_id. destruct (faulty (sql_faults wb)); [discriminate|].
    destruct (tasks wb !! task_id); [discriminate|]. intros [= <-].
    eexists. split; [reflexivity|]. by rewrite !col_set_columns.
  - intros Hnone. destruct (faulty (sql_faults wb)); [split; [by eexists | done]|].
    destruct (tasks wb !! task_id); [split; [by eexists | done]|].
    by destruct (Hnone (size (tasks wb) + 1)).
Qed.

Lemma C7_create_task_witness :
  (SelectorTaskDB.create_task "task-9" "small_cap" (PDict [(KStr "top_n", PInt 5)])
     (initial [] [] None SelectorWorld.__init__)).1 = Returned true
  ∧ (SelectorTaskDB.create_task "task-1" "small_cap" PNone
       (Examples.selector_started [] None)).1 = Returned false
  ∧ ∃ e, (MainForceBatchDatabase.create_task "task-9" [] "parallel" 3
            (initial [true] [] None MainForceBatchWorld.__init__)).1 = Raised e.
Proof.
  destruct (C7_create_task (initial [] [] None SelectorWorld.__init__)
              (initial [true] [] None MainForceBatchWorld.__init__)
              "task-9" "small_cap" (PDict [(KStr "top_n", PInt 5)]) [] "parallel" 3)
    as (Hs & _ & _ & Hb & _ & Hraises).
  destruct (C7_create_task (Examples.selector_started [] None)
              (initial [true] [] None MainForceBatchWorld.__init__)
              "task-1" "small_cap" PNone [] "parallel" 3) as (Htaken & _ & Hfalse & _).
  split; [|split].
  - apply Hs. repeat split; vm_compute; reflexivity.
  - apply Hfalse. intros Htrue. apply Htaken in Htrue as (_ & Hfresh & _).
    revert Hfresh. vm_compute. discriminate.
  - apply Hraises. intros record_id Hid.
    assert (Hex : ∃ record_id, (MainForceBatchDatabase.create_task "task-9" [] "parallel" 3
                     (initial [true] [] None MainForceBatchWorld.__init__)).1
                  = Returned record_id) by eauto.
    apply Hb in Hex as [Hfault _]. discriminate Hfault.
Defined.


(** ** Rules for [logs] *)

Import Log.

Section logs_rules.
Context {Call Sched : Type}.
Local Abbreviation M := (Eff.M (world Call Sched)).







(** A computation that leaves the calls alone. *)
Lemma logs_silent {A} (m : M A) (P : outcome A → list Call → Prop) :
  (∀ w, calls (m w).2 = calls w) → (∀ r, P r []) → logs m P.
Proof. intros Hm HP w. exists []. rewrite app_nil_r. split; [apply Hm | apply HP]. Qed.

Lemma logs_modify (f : world Call Sched → world Call Sched)
    (P : outcome unit → list Call → Prop) :
  (∀ w, calls (f w) = calls w) → P (Returned tt) [] → logs (Eff.modify f) P.
Proof. intros Hf HP w. exists []. rewrite app_nil_r. split; [apply Hf | apply HP]. Qed.

Lemma logs_record (c : Call) (P : outcome unit → list Call → Prop) :
  P (Returned tt) [c] → logs (record c : M unit) P.
Proof. intros HP w. by exists [c]. Qed.



Lemma planned_cancel_calls (w : world Call Sched) : calls (planned_cancel w).2 = calls w.
Proof. done. Qed.

End logs_rules.


(** ** Computations that call nothing on the store *)

Section silent_rules.
Context {Call Sched : Type}.
Local Abbreviation M := (Eff.M (world Call Sched)).














(** A store method of the form [record c; body] with a silent body logs
    exactly [c], whether it returns or raises. *)
Lemma logs_bare_method {A} (c : Call) (body : M A) :
  silent body →
  logs (Eff.bind (record c) (λ _, body)) (λ r l, l = [c]).
Proof.
  intros Hbody w. exists [c]. unfold Eff.bind, record, Eff.modify.
  simpl. by rewrite Hbody.
Qed.


End silent_rules.


(** ** The selector store and worker: what they call *)







Import SelectorRun.











(** ** The batch worker: unit outcomes and counts *)

Import MainForceBatchWorld.

Lemma analyze_single_counted analyze code :
  MainForceBatchScheduler.counted (MainForceBatchScheduler._analyze_single analyze code)
  = true.
Proof.
  unfold MainForceBatchScheduler._analyze_single, MainForceBatchScheduler.counted.
  destruct (analyze code) as [result|e]; [|done].
  by destruct (py_get_truthy result "success") eqn:Hflag; [rewrite Hflag|].
Qed.

Lemma mapM_get_counted results :
  Forall (λ r, MainForceBatchScheduler.counted r = true) results →
  mapM (λ r, py_get_truthy r "success") results
  = Returned (map MainForceBatchScheduler.succeeded results).
Proof.
  induction 1 as [|r results Hr _ IH]; [done|].
  rewrite mapM_cons, IH. unfold MainForceBatchScheduler.counted in Hr.
  cbn [map]. unfold MainForceBatchScheduler.succeeded.
  by destruct (py_get_truthy r "success").
Qed.

Lemma count_where_counted wanted results :
  Forall (λ r, MainForceBatchScheduler.counted r = true) results →
  MainForceBatchScheduler.count_where wanted results
  = Returned (length (filter (λ r, MainForceBatchScheduler.succeeded r = wanted) results)).
Proof.
  intros Hd. unfold MainForceBatchScheduler.count_where. rewrite mapM_get_counted by done.
  f_equal. clear Hd. induction results as [|r results IH]; [done|].
  cbn [map]. rewrite !filter_cons.
  repeat case_decide; simpl; try done; by rewrite IH.
Qed.

Lemma filter_complement_length {A} (p : A → bool) (l : list A) :
  length (filter (λ x, p x = false) l) = length l - length (filter (λ x, p x = true) l).
Proof.
  induction l as [|x l IH]; [done|]. rewrite !filter_cons.
  pose proof (length_filter (λ x, p x = true) l) as Hle.
  destruct (p x); repeat case_decide; try done; simpl; lia.
Qed.

Lemma count_success_counted results :
  Forall (λ r, MainForceBatchScheduler.counted r = true) results →
  MainForceBatchScheduler.count_where true results
  = Returned (MainForceBatchScheduler.successes results).
Proof. apply count_where_counted. Qed.

Lemma count_failed_counted results :
  Forall (λ r, MainForceBatchScheduler.counted r = true) results →
  MainForceBatchScheduler.count_where false results
  = Returned (length results - MainForceBatchScheduler.successes results).
Proof.
  intros Hd. rewrite count_where_counted by done. f_equal.
  apply (filter_complement_length MainForceBatchScheduler.succeeded).
Qed.

Lemma successes_le results : MainForceBatchScheduler.successes results ≤ length results.
Proof. apply length_filter. Qed.

Lemma successes_app l1 l2 :
  MainForceBatchScheduler.successes (l1 ++ l2)
  = MainForceBatchScheduler.successes l1 + MainForceBatchScheduler.successes l2.
Proof. unfold MainForceBatchScheduler.successes. by rewrite filter_app, length_app. Qed.

Lemma successes_perm l1 l2 :
  l1 ≡ₚ l2 → MainForceBatchScheduler.successes l1 = MainForceBatchScheduler.successes l2.
Proof. intros Hp. unfold MainForceBatchScheduler.successes. by rewrite Hp. Qed.

(** ** The batch store without faults *)

Lemma batch_update_task_status_run (w : world) task_id status error_message
    history_record_id started_at completed_at :
  sql_faults w = [] →
  MainForceBatchDatabase.update_task_status task_id status error_message
    history_record_id started_at completed_at w
  = (Returned tt,
     with_tasks (Sql.update_where task_id
                   (MainForceBatchDatabase.status_updates status error_message
                      history_record_id started_at completed_at))
       (with_calls (λ l, l ++ [update_task_status_call task_id status error_message
                                 history_record_id started_at completed_at]) w)).
Proof. destruct w as [? ? ? faults ? ? ? ? ?]. simpl. by intros ->. Qed.

Lemma batch_update_task_progress_ok (w : world) task_id cc cs sc fc pp :
  sql_faults w = [] →
  MainForceBatchDatabase.update_task_progress task_id cc cs sc fc pp w
  = (Returned tt,
     with_tasks (Sql.update_where task_id
                   (MainForceBatchDatabase.progress_updates cc cs sc fc pp))
       (with_calls (λ l, l ++ [update_task_progress_call task_id cc cs sc fc pp]) w)).
Proof. destruct w as [? ? ? faults ? ? ? ? ?]. simpl. by intros ->. Qed.

Lemma batch_is_set_run (w : world) :
  let planned := match cancel_at w with
                 | Some c => c <=? is_set_reads w
                 | None => false
                 end in
  MainForceBatchScheduler.is_set w
  = if planned
    then (Returned true,
          with_sched (with_cancel_flag (λ _, true)) (with_is_set_reads S w))
    else (Returned (_cancel_flag (sched w)), with_is_set_reads S w).
Proof.
  cbv zeta. unfold MainForceBatchScheduler.is_set, Eff.bind, planned_cancel. simpl.
  by destruct (match cancel_at w with Some c => c <=? is_set_reads w | None => false end).
Qed.

Lemma percent_positive i total :
  0 < total →
  MainForceBatchScheduler.percent i total
  = Returned ((Z.of_nat i # Pos.of_nat total) * 100)%Q.
Proof.
  intros Ht. unfold MainForceBatchScheduler.percent.
  destruct (Nat.eqb_spec total 0); [lia | done].
Qed.


(** ** The sequential loop of the batch worker *)

Import BatchRun.

Lemma sequential_body_cancelled analyze task_id total item results (w : world) :
  cancel_due w = true →
  MainForceBatchScheduler.sequential_body analyze task_id total item results w
  = (Returned (Eff.Break results), after_cancel_seen w).
Proof.
  intros Hdue. unfold MainForceBatchScheduler.sequential_body, Eff.bind.
  rewrite batch_is_set_run. cbv zeta. fold (cancel_due w). by rewrite Hdue.
Qed.

Lemma sequential_body_round analyze task_id total i code results (w : world) :
  cancel_due w = false → _cancel_flag (sched w) = false → sql_faults w = [] →
  0 < total → Forall (λ r, MainForceBatchScheduler.counted r = true) results →
  MainForceBatchScheduler.sequential_body analyze task_id total (i, code) results w
  = (Returned (Eff.Next (results
                           ++ [MainForceBatchScheduler._analyze_single analyze code])),
     after_round analyze task_id total i code results w).
Proof.
  intros Hdue Hflag Hfaults Htotal Hdicts.
  assert (Hdicts' : Forall (λ r, MainForceBatchScheduler.counted r = true)
            (results ++ [MainForceBatchScheduler._analyze_single analyze code])).
  { apply Forall_app. split; [done|]. constructor; [|done].
    apply analyze_single_counted. }
  unfold MainForceBatchScheduler.sequential_body, Eff.bind.
  rewrite batch_is_set_run. cbv zeta. fold (cancel_due w). rewrite Hdue, Hflag.
  cbn [fst snd]. unfold Eff.lift at 1. rewrite percent_positive by done.
  rewrite batch_update_task_progress_ok by done.
  unfold Eff.lift. rewrite count_success_counted, count_failed_counted by done.
  rewrite percent_positive by done.
  rewrite batch_update_task_progress_ok by done.
  done.
Qed.


Lemma kept_refl (w : world) : kept w w.
Proof. repeat split; try done. exists []. by rewrite app_nil_r. Qed.

Lemma kept_trans (w1 w2 w3 : world) : kept w1 w2 → kept w2 w3 → kept w1 w3.
Proof.
  intros (Hf & Hh & Hc & Ha & Hu & Hl & Hr & Hs & l & Hcalls & Hprog)
         (Hf' & Hh' & Hc' & Ha' & Hu' & Hl' & Hr' & Hs' & l' & Hcalls' & Hprog').
  repeat split; try congruence.
  - intros ?. by apply Hr, Hr'.
  - intros ?. by apply Hr', Hr.
  - exists (l ++ l'). rewrite Hcalls', Hcalls, app_assoc. split; [done|].
    by rewrite forallb_app, Hprog, Hprog'.
Qed.

Lemma progress_updates_status cc cs sc fc pp :
  assigned (MainForceBatchDatabase.progress_updates cc cs sc fc pp) "status" = None.
Proof. by destruct cs, sc, fc, pp. Qed.

Lemma kept_after_cancel_seen (w : world) : kept w (after_cancel_seen w).
Proof. repeat split; try done. exists []. by rewrite app_nil_r. Qed.

Lemma kept_after_round analyze task_id total i code results (w : world) :
  kept w (after_round analyze task_id total i code results w).
Proof.
  repeat split; try done.
  - unfold after_round. cbn [tasks with_tasks with_calls with_is_set_reads].
    by rewrite !update_where_is_Some.
  - unfold after_round. cbn [tasks with_tasks with_calls with_is_set_reads].
    by rewrite !update_where_is_Some.
  - intros key. unfold after_round. cbn [tasks with_tasks with_calls with_is_set_reads].
    rewrite !cell_update_where_unassigned; [done|apply progress_updates_status..].
  - eexists. unfold after_round. cbn [calls with_tasks with_calls with_is_set_reads].
    rewrite <- app_assoc. split; [reflexivity | done].
Qed.

Lemma after_round_cells analyze task_id total i code results (w : world) :
  is_Some (tasks w !! task_id) →
  let results' := results ++ [MainForceBatchScheduler._analyze_single analyze code] in
  let after := cell (tasks (after_round analyze task_id total i code results w)) task_id in
  after "completed_count" = of_nat (i + 1)
  ∧ after "success_count" = of_nat (MainForceBatchScheduler.successes results')
  ∧ after "failed_count"
    = of_nat (length results' - MainForceBatchScheduler.successes results').
Proof.
  intros Hrow. cbv zeta. unfold after_round.
  cbn [tasks with_tasks with_calls with_is_set_reads].
  rewrite !cell_update_where_same by by rewrite ?update_where_is_Some.
  done.
Qed.

Lemma units_run_cancel_due (w : world) n :
  cancel_due w = true → MainForceBatchScheduler.units_run w n = 0.
Proof.
  unfold cancel_due, MainForceBatchScheduler.units_run.
  destruct (cancel_at w) as [c|]; [|done]. intros Hc%Nat.leb_le. lia.
Qed.

Lemma units_run_round (w w1 : world) n :
  cancel_due w = false → cancel_at w1 = cancel_at w →
  is_set_reads w1 = S (is_set_reads w) →
  MainForceBatchScheduler.units_run w (S n) = S (MainForceBatchScheduler.units_run w1 n).
Proof.
  unfold cancel_due, MainForceBatchScheduler.units_run. intros Hdue -> ->.
  destruct (cancel_at w) as [c|]; [|done]. apply Nat.leb_gt in Hdue. lia.
Qed.

Lemma sequential_loop_run analyze task_id total rest :
  ∀ i results (w : world),
    sql_faults w = [] → _cancel_flag (sched w) = false → is_Some (tasks w !! task_id) →
    total = i + length rest →
    Forall (λ r, MainForceBatchScheduler.counted r = true) results →
    let j := MainForceBatchScheduler.units_run w (length rest) in
    let out := results
               ++ map (MainForceBatchScheduler._analyze_single analyze) (take j rest) in
    ∃ w',
      Eff.for_loop (zip (seq i (length rest)) rest) results
        (MainForceBatchScheduler.sequential_body analyze task_id total) w
      = (Returned (if j <? length rest then Eff.Break out else Eff.Next out), w')
      ∧ kept w w'
      ∧ _cancel_flag (sched w') = (j <? length rest)
      ∧ is_set_reads w' = is_set_reads w + j + (if j <? length rest then 1 else 0)
      ∧ (j = 0 → tasks w' = tasks w)
      ∧ (0 < j →
         cell (tasks w') task_id "completed_count" = of_nat (i + j)
         ∧ cell (tasks w') task_id "success_count"
           = of_nat (MainForceBatchScheduler.successes out)
         ∧ cell (tasks w') task_id "failed_count"
           = of_nat (length out - MainForceBatchScheduler.successes out)).
Proof.
  induction rest as [|code rest IH]; intros i results w Hfaults Hflag Hrow Htotal Hdicts.
  - cbv zeta. cbn [length]. assert (MainForceBatchScheduler.units_run w 0 = 0) as ->.
    { unfold MainForceBatchScheduler.units_run. destruct (cancel_at w); simpl; lia. }
    exists w. simpl. rewrite app_nil_r, Nat.add_0_r.
    repeat split; try done; try apply kept_refl; try lia.
  - cbv zeta. cbn [length seq zip zip_with Eff.for_loop]. unfold Eff.bind at 1.
    destruct (cancel_due w) eqn:Hdue.
    + rewrite sequential_body_cancelled by done.
      rewrite units_run_cancel_due by done. cbn [take map].
      rewrite app_nil_r. exists (after_cancel_seen w).
      repeat split; try done; try apply kept_after_cancel_seen; simpl; lia.
    + rewrite sequential_body_round by (done || simpl in *; lia).
      set (w1 := after_round analyze task_id total i code results w).
      set (results1 := results ++ [MainForceBatchScheduler._analyze_single analyze code]).
      assert (Hkept1 : kept w w1) by apply kept_after_round.
      destruct (IH (S i) results1 w1) as (w' & Hrun & Hkept & Hflag' & Hreads & Hzero & Hpos).
      { done. }
      { done. }
      { by apply Hkept1. }
      { simpl in Htotal. lia. }
      { apply Forall_app. split; [done|]. constructor; [|done].
        apply analyze_single_counted. }
      cbv zeta in Hrun, Hzero, Hpos.
      rewrite (units_run_round w w1) by done.
      set (j' := MainForceBatchScheduler.units_run w1 (length rest)) in *.
      exists w'. cbn [take map].
      replace (results ++ MainForceBatchScheduler._analyze_single analyze code
                 :: map (MainForceBatchScheduler._analyze_single analyze) (take j' rest))
        with (results1
                ++ map (MainForceBatchScheduler._analyze_single analyze) (take j' rest))
        by (unfold results1; by rewrite <- app_assoc).
      change (S j' <? S (length rest)) with (j' <? length rest).
      split; [exact Hrun|]. split; [by eapply kept_trans|]. split; [done|].
      split; [rewrite Hreads; simpl; lia|]. split; [lia|]. intros _.
      destruct (decide (j' = 0)) as [Hj|Hj].
      * rewrite Hzero by done. rewrite Hj. cbn [take map]. rewrite app_nil_r.
        replace (i + 1) with (i + 1) by done.
        destruct (after_round_cells analyze task_id total i code results w Hrow)
          as (Hc & Hs & Hf).
        fold w1 results1 in Hc, Hs, Hf. by rewrite Hc, Hs, Hf.
      * destruct Hpos as (Hc & Hs & Hf); [lia|].
        rewrite Hc, Hs, Hf. repeat split. f_equal. lia.
Qed.


(** ** The batch worker in sequential mode *)

Lemma wp_eq {W A} (m : Eff.M W A) (Q : outcome A → W → Prop) w r w' :
  m w = (r, w') → Q r w' → wp m Q w.
Proof. unfold wp. by intros ->. Qed.


Lemma status_updates_status status e h s c :
  assigned (MainForceBatchDatabase.status_updates status e h s c) "status"
  = Some (Sql.Text status).
Proof. by destruct e, h, s, c. Qed.

Lemma status_updates_counts status e h s c column :
  column ∈ ["completed_count"; "success_count"; "failed_count"] →
  assigned (MainForceBatchDatabase.status_updates status e h s c) column = None.
Proof.
  rewrite list_elem_of_In. simpl.
  intros [<-|[<-|[<-|[]]]]; by destruct e, h, s, c.
Qed.

Lemma wp_release (w : world) (Q : outcome unit → world → Prop) :
  _task_lock (sched w) = true →
  Q (Returned tt) (with_sched (with_task_lock (λ _, false)) w) →
  wp MainForceBatchScheduler.release Q w.
Proof. intros Hlock HQ. unfold wp, MainForceBatchScheduler.release. by rewrite Hlock. Qed.







(** ** The pool loop of the batch worker *)

Lemma parallel_body_round task_id total future results completed (w : world) :
  cancel_due w = false → _cancel_flag (sched w) = false → sql_faults w = [] →
  0 < total →
  Forall (λ r, MainForceBatchScheduler.counted r = true) (results ++ [future.2]) →
  MainForceBatchScheduler.parallel_body task_id total future (results, completed) w
  = (Returned (Eff.Next (results ++ [future.2], completed + 1)),
     after_future task_id total future results completed w).
Proof.
  intros Hdue Hflag Hfaults Htotal Hdicts.
  unfold MainForceBatchScheduler.parallel_body, Eff.bind.
  rewrite batch_is_set_run. cbv zeta. fold (cancel_due w). rewrite Hdue, Hflag.
  cbn [fst snd]. unfold Eff.lift.
  rewrite count_success_counted, count_failed_counted by done.
  rewrite percent_positive by done.
  rewrite batch_update_task_progress_ok by done.
  done.
Qed.

Lemma kept_after_future task_id total future results completed (w : world) :
  kept w (after_future task_id total future results completed w).
Proof.
  repeat split; try done.
  - unfold after_future. cbn [tasks with_tasks with_calls with_is_set_reads].
    by rewrite !update_where_is_Some.
  - unfold after_future. cbn [tasks with_tasks with_calls with_is_set_reads].
    by rewrite !update_where_is_Some.
  - intros key. unfold after_future. cbn [tasks with_tasks with_calls with_is_set_reads].
    rewrite !cell_update_where_unassigned; [done|apply progress_updates_status..].
  - eexists. unfold after_future. cbn [calls with_tasks with_calls with_is_set_reads].
    split; [reflexivity | done].
Qed.

Lemma after_future_counts task_id total future results completed (w : world) :
  is_Some (tasks w !! task_id) → completed = length results →
  counts_are (after_future task_id total future results completed w) task_id
    (results ++ [future.2]).
Proof.
  intros Hrow ->. unfold counts_are, after_future.
  cbn [tasks with_tasks with_calls with_is_set_reads].
  rewrite !cell_update_where_same by done. rewrite length_app. done.
Qed.

Lemma cancel_due_never (w : world) : cancel_at w = None → cancel_due w = false.
Proof. unfold cancel_due. by intros ->. Qed.

Lemma parallel_loop_run task_id total futures :
  ∀ results (w : world),
    sql_faults w = [] → _cancel_flag (sched w) = false → cancel_at w = None →
    is_Some (tasks w !! task_id) → length futures ≤ total →
    Forall (λ r, MainForceBatchScheduler.counted r = true) results →
    Forall (λ r, MainForceBatchScheduler.counted r = true) futures.*2 →
    counts_are w task_id results →
    ∃ w',
      Eff.for_loop futures (results, length results)
        (MainForceBatchScheduler.parallel_body task_id total) w
      = (Returned (Eff.Next (results ++ futures.*2, length (results ++ futures.*2))), w')
      ∧ kept w w'
      ∧ _cancel_flag (sched w') = false
      ∧ counts_are w' task_id (results ++ futures.*2).
Proof.
  induction futures as [|future futures IH];
    intros results w Hfaults Hflag Hnever Hrow Htotal Hdicts Hfdicts Hcounts.
  - exists w. simpl. rewrite app_nil_r. repeat split; try done; apply kept_refl || apply Hcounts.
  - cbn [Eff.for_loop]. unfold Eff.bind at 1.
    apply Forall_cons in Hfdicts as [Hfd Hfdicts].
    assert (Hdicts1 : Forall (λ r, MainForceBatchScheduler.counted r = true)
              (results ++ [future.2])).
    { apply Forall_app. split; [done|]. by constructor. }
    rewrite parallel_body_round; try done.
    2: by apply cancel_due_never.
    2: simpl in Htotal; lia.
    set (w1 := after_future task_id total future results (length results) w).
    assert (Hkept1 : kept w w1) by apply kept_after_future.
    replace (length results + 1) with (length (results ++ [future.2]))
      by (rewrite length_app; simpl; lia).
    destruct (IH (results ++ [future.2]) w1) as (w' & Hrun & Hkept & Hflag' & Hcounts');
      try done.
    { by apply Hkept1. }
    { simpl in Htotal. lia. }
    { by apply after_future_counts. }
    exists w'. cbn [fmap list_fmap snd].
    replace (results ++ future.2 :: futures.*2) with ((results ++ [future.2]) ++ futures.*2)
      by by rewrite <- app_assoc.
    split; [exact Hrun|]. split; [by eapply kept_trans|]. done.
Qed.

(** ** The batch worker when it is not cancelled *)

Lemma batch_save_batch_analysis_run (w : world) batch_count analysis_mode success_count
    failed_count total_time results :
  sql_faults w = [] →
  Json.dumpable true (PList (MainForceBatchDatabase._clean_results_for_json results))
  = true →
  MainForceBatchDatabase.save_batch_analysis batch_count analysis_mode success_count
    failed_count total_time results w
  = (Returned (length (history w) + 1),
     with_history
       (λ h, h ++ [history_row (length (history w) + 1) (clock w) batch_count
                     analysis_mode success_count failed_count total_time results])
       (with_clock S
          (with_calls (λ l, l ++ [save_batch_analysis_call batch_count analysis_mode
                                    success_count failed_count results]) w))).
Proof.
  destruct w as [? ? ? faults ? ? ? ? ?]. simpl. intros -> Hdump.
  unfold MainForceBatchDatabase.save_batch_analysis, Json.dumps.
  run_eff. rewrite Hdump. done.
Qed.

Lemma storable_results results :
  Forall (λ r, Units.storable r = true) results →
  Json.dumpable true (PList (MainForceBatchDatabase._clean_results_for_json results))
  = true.
Proof.
  induction 1 as [|r results Hr _ IH]; [done|].
  unfold Units.storable in Hr. simpl in *.
  apply andb_true_iff in Hr as [Hr _]. by rewrite Hr, IH.
Qed.


Lemma batch_is_set_quiet (w : world) :
  cancel_at w = None → _cancel_flag (sched w) = false →
  MainForceBatchScheduler.is_set w = (Returned false, with_is_set_reads S w).
Proof. intros Hnever Hflag. rewrite batch_is_set_run. cbv zeta. by rewrite Hnever, Hflag. Qed.

Lemma take_length_all {A} (l : list A) : take (length l) l = l.
Proof. by apply take_ge. Qed.

(** The block that runs the units, in either mode, when no cancellation
    is planned. *)
Lemma run_units_block analyze as_completed task_id stock_codes analysis_mode max_workers
    (w : world) :
  sql_faults w = [] → _cancel_flag (sched w) = false → cancel_at w = None →
  is_Some (tasks w !! task_id) → counts_are w task_id [] →
  (analysis_mode = "sequential" ∨ 0 < max_workers) →
  (∀ l, as_completed l ≡ₚ l) →
  wp (if String.eqb analysis_mode "sequential"
      then let! f := MainForceBatchScheduler.sequential_loop analyze task_id stock_codes
                       (length stock_codes) in
           Eff.ret (MainForceBatchScheduler.loop_results (λ r, r) f)
      else let! f := MainForceBatchScheduler.parallel_loop analyze as_completed task_id
                       stock_codes (length stock_codes) max_workers in
           Eff.ret (MainForceBatchScheduler.loop_results fst f))
    (λ r w',
       ∃ out, r = Returned out
              ∧ out ≡ₚ map (MainForceBatchScheduler._analyze_single analyze) stock_codes
              ∧ kept w w' ∧ _cancel_flag (sched w') = false
              ∧ counts_are w' task_id out) w.
Proof.
  intros Hfaults Hflag Hnever Hrow Hfresh Hmode Hperm.
  destruct (String.eqb_spec analysis_mode "sequential") as [->|Hpar].
  - destruct (sequential_loop_run analyze task_id (length stock_codes) stock_codes 0 [] w)
      as (w' & Hrun & Hkept & Hflag' & _ & Hzero & Hpos); try done.
    cbv zeta in Hrun, Hflag', Hzero, Hpos.
    assert (Hj : MainForceBatchScheduler.units_run w (length stock_codes)
                 = length stock_codes).
    { unfold MainForceBatchScheduler.units_run. by rewrite Hnever. }
    rewrite Hj, Nat.ltb_irrefl, take_length_all in *. cbn [app] in *.
    apply wp_bind. eapply wp_eq; [exact Hrun|]. apply wp_ret.
    cbn [MainForceBatchScheduler.loop_results].
    eexists. split; [reflexivity|]. split; [done|]. split; [done|]. split; [done|].
    destruct stock_codes as [|code codes].
    + unfold counts_are. rewrite Hzero by done. apply Hfresh.
    + destruct Hpos as (Hc & Hs & Hf); [simpl; lia|].
      unfold counts_are. rewrite Hc, Hs, Hf, !length_map. done.
  - destruct Hmode as [?|Hworkers]; [done|].
    unfold MainForceBatchScheduler.parallel_loop.
    set (futures := map (λ code, (code, MainForceBatchScheduler._analyze_single analyze
                                          code)) stock_codes).
    assert (Hout : (as_completed futures).*2
                   ≡ₚ map (MainForceBatchScheduler._analyze_single analyze) stock_codes).
    { rewrite (Hperm futures). subst futures. clear.
      induction stock_codes as [|code codes IH]; [done|]. simpl. by rewrite IH. }
    destruct (parallel_loop_run task_id (length stock_codes) (as_completed futures) [] w)
      as (w' & Hrun & Hkept & Hflag' & Hcounts); try done.
    { rewrite (Hperm futures). subst futures. by rewrite length_map. }
    { rewrite Hout. apply Forall_forall. intros r (code & -> & _)%list_elem_of_fmap.
      apply analyze_single_counted. }
    cbn [app length] in Hrun, Hcounts.
    apply wp_bind, wp_bind, wp_lift.
    unfold thread_pool. destruct (Nat.eqb_spec max_workers 0); [lia|].
    eapply wp_eq; [exact Hrun|]. apply wp_ret.
    cbn [MainForceBatchScheduler.loop_results fst].
    eexists. split; [reflexivity|]. done.
Qed.

Lemma run_analysis_completed analyze as_completed task_id stock_codes analysis_mode
    max_workers (w : world) :
  sql_faults w = [] → _cancel_flag (sched w) = false → _task_lock (sched w) = true →
  cancel_at w = None → is_Some (tasks w !! task_id) → counts_are w task_id [] →
  (analysis_mode = "sequential" ∨ 0 < max_workers) →
  (∀ l, as_completed l ≡ₚ l) →
  Forall (λ code, Units.storable (MainForceBatchScheduler._analyze_single analyze code)
                  = true) stock_codes →
  wp (MainForceBatchScheduler._run_analysis analyze as_completed task_id stock_codes
        analysis_mode max_workers)
    (λ r w',
       ∃ out total_time,
         r = Returned out
         ∧ out ≡ₚ map (MainForceBatchScheduler._analyze_single analyze) stock_codes
         ∧ cell (tasks w') task_id "status" = Sql.Text "completed"
         ∧ counts_are w' task_id out
         ∧ history w'
           = history w
             ++ [history_row (length (history w) + 1) (clock w + 3) (length stock_codes)
                   analysis_mode (MainForceBatchScheduler.successes out)
                   (length out - MainForceBatchScheduler.successes out) total_time out]
         ∧ _task_lock (sched w') = false) w.
Proof.
  intros Hfaults Hflag Hlock Hnever Hrow Hfresh Hmode Hperm Hstorable.
  unfold MainForceBatchScheduler._run_analysis.
  apply wp_bind. eapply wp_eq; [reflexivity|].
  apply wp_try_finally, wp_try_except.
  apply wp_bind. eapply wp_eq; [reflexivity|].
  apply wp_bind. eapply wp_eq; [by apply batch_update_task_status_run|].
  cbv beta iota.
  match goal with |- wp _ _ ?x => set (w3 := x) end.
  assert (Hrow3 : is_Some (tasks w3 !! task_id)).
  { subst w3. cbn [tasks with_tasks with_calls with_clock]. by apply update_where_is_Some. }
  assert (Hfresh3 : counts_are w3 task_id []).
  { subst w3. unfold counts_are in *. cbn [tasks with_tasks with_calls with_clock].
    rewrite !cell_update_where_unassigned; [done|..];
      apply status_updates_counts, list_elem_of_In; simpl; auto. }
  apply wp_bind. eapply wp_mono.
  { apply run_units_block; try done. }
  intros r w4 (out & -> & Hout & Hkept & Hflag4 & Hcounts).
  destruct Hkept as (Hf4 & Hh4 & Hc4 & Ha4 & Hu4 & Hl4 & Hr4 & Hs4 & _).
  assert (Hdicts : Forall (λ r, MainForceBatchScheduler.counted r = true) out).
  { rewrite Hout. apply Forall_forall. intros r (code & -> & _)%list_elem_of_fmap.
    apply analyze_single_counted. }
  assert (Hdump : Json.dumpable true
                    (PList (MainForceBatchDatabase._clean_results_for_json out)) = true).
  { apply storable_results. rewrite Hout. by apply Forall_fmap. }
  apply wp_bind. eapply wp_eq; [reflexivity|].
  apply wp_bind, wp_lift. rewrite count_success_counted by done.
  apply wp_bind. eapply wp_eq.
  { apply batch_is_set_quiet; cbn [cancel_at sched with_clock]; [by rewrite Ha4 | done]. }
  cbn [negb].
  apply wp_bind. eapply wp_eq.
  { apply batch_save_batch_analysis_run; [|done].
    cbn [sql_faults with_clock with_is_set_reads]. by rewrite Hf4. }
  apply wp_bind. eapply wp_eq; [reflexivity|].
  apply wp_bind. eapply wp_eq.
  { apply batch_update_task_status_run.
    cbn [sql_faults with_clock with_is_set_reads with_history with_calls].
    by rewrite Hf4. }
  apply wp_ret, wp_bind, wp_modify, wp_release.
  { cbn [sched with_sched with_tasks with_calls with_clock with_history
         with_is_set_reads _task_lock with_current_task_id]. by rewrite Hl4. }
  cbn [tasks history clock sched with_sched with_tasks with_calls with_clock with_history
       with_is_set_reads _task_lock with_task_lock].
  eexists out, _. split; [done|]. split; [done|]. split; [|split; [|split; [|done]]].
  - rewrite cell_update_where_same by by apply Hr4.
    by rewrite status_updates_status.
  - unfold counts_are in *.
    cbn [tasks with_sched with_tasks with_calls with_clock with_history
         with_is_set_reads].
    rewrite !cell_update_where_unassigned; [done|..];
      apply status_updates_counts, list_elem_of_In; simpl; auto.
  - rewrite Hh4, Hc4. subst w3.
    cbn [history clock with_tasks with_calls with_clock].
    replace (S (S (S (clock w)))) with (clock w + 3) by lia. reflexivity.
Qed.

(** ** Computations that leave a part of the world alone *)

Section keeps_rules.
Context {W X : Type} (part : W → X).

Lemma keeps_ret {A} (a : A) : keeps part (Eff.ret a : Eff.M W A).
Proof. done. Qed.

Lemma keeps_lift {A} (o : outcome A) : keeps part (Eff.lift o : Eff.M W A).
Proof. done. Qed.

Lemma keeps_get : keeps part (Eff.get : Eff.M W W).
Proof. done. Qed.

Lemma keeps_bind {A B} (m : Eff.M W A) (k : A → Eff.M W B) :
  keeps part m → (∀ a, keeps part (k a)) → keeps part (Eff.bind m k).
Proof.
  intros Hm Hk w. unfold Eff.bind. specialize (Hm w).
  destruct (m w) as [[a|e] w1]; simpl in *; [|done]. by rewrite Hk.
Qed.

Lemma keeps_try_except {A} (body : Eff.M W A) handler :
  keeps part body → (∀ e, keeps part (handler e)) →
  keeps part (Eff.try_except body handler).
Proof.
  intros Hm Hk w. unfold Eff.try_except. specialize (Hm w).
  destruct (body w) as [[a|e] w1]; simpl in *; [done|]. by rewrite Hk.
Qed.

Lemma keeps_try_finally {A} (body : Eff.M W A) cleanup :
  keeps part body → keeps part cleanup → keeps part (Eff.try_finally body cleanup).
Proof.
  intros Hm Hc w. unfold Eff.try_finally. specialize (Hm w).
  destruct (body w) as [r w1]; simpl in *. specialize (Hc w1).
  destruct (cleanup w1) as [[[]|e] w2]; simpl in *; congruence.
Qed.

Lemma keeps_for_loop {A St} (xs : list A) (body : A → St → Eff.M W (Eff.flow St)) :
  (∀ x st, keeps part (body x st)) → ∀ st, keeps part (Eff.for_loop xs st body).
Proof.
  intros Hbody. induction xs as [|x xs IH]; intros st; [done|].
  cbn [Eff.for_loop]. apply keeps_bind; [apply Hbody|].
  intros [st'|st'|]; [apply IH | done | done].
Qed.

Lemma keeps_modify (f : W → W) :
  (∀ w, part (f w) = part w) → keeps part (Eff.modify f).
Proof. intros Hf w. apply Hf. Qed.

End keeps_rules.

(** The primitives of the world keep every part that does not look at what
    they write. *)
Section keeps_primitives.
Context {Call Sched X : Type} (part : World.world Call Sched → X).
Local Abbreviation M := (Eff.M (World.world Call Sched)).

Lemma keeps_connect :
  (∀ f w, part (with_sql_faults f w) = part w) → keeps part (connect : M unit).
Proof. intros Hp w. unfold connect. destruct (sql_faults w) as [|[] ?]; simpl; auto. Qed.

Lemma keeps_datetime_now :
  (∀ f w, part (with_clock f w) = part w) → keeps part (datetime_now : M nat).
Proof. intros Hp w. apply Hp. Qed.

Lemma keeps_record c :
  (∀ f w, part (with_calls f w) = part w) → keeps part (record c : M unit).
Proof. intros Hp w. apply Hp. Qed.

Lemma keeps_execute stmt :
  (∀ f w, part (with_tasks f w) = part w) → keeps part (execute stmt : M unit).
Proof. intros Hp w. unfold execute. destruct (stmt (tasks w)); simpl; auto. Qed.

Lemma keeps_query {A} (q : Sql.table → A) : keeps part (query q : M A).
Proof. done. Qed.

Lemma keeps_planned_cancel :
  (∀ f w, part (with_is_set_reads f w) = part w) → keeps part (planned_cancel : M bool).
Proof. intros Hp w. apply Hp. Qed.

Lemma keeps_uuid4 :
  (∀ f w, part (with_uuids f w) = part w) → keeps part (uuid4 : M string).
Proof. intros Hp w. unfold uuid4. destruct (uuids w); simpl; auto. Qed.

End keeps_primitives.

(** Prove that a computation keeps a part of the world by following its
    structure; the side conditions on the primitives hold by computation. *)
Ltac solve_keeps :=
  repeat first
    [ apply keeps_ret | apply keeps_lift | apply keeps_get | apply keeps_query
    | apply keeps_connect; done
    | apply keeps_datetime_now; done
    | apply keeps_record; done
    | apply keeps_execute; done
    | apply keeps_planned_cancel; done
    | apply keeps_uuid4; done
    | apply keeps_modify; done
    | apply keeps_bind; [|intros ?]
    | apply keeps_try_except; [|intros ?]
    | apply keeps_for_loop; intros ? ?
    | match goal with
      | |- keeps _ (if ?b then _ else _) => destruct b
      | |- keeps _ (match ?x with _ => _ end) => destruct x
      | |- keeps _ (let _ := _ in _) => cbv zeta
      end ].

(** ** The workers always clean up *)

Lemma try_finally_world {W A} (body : Eff.M W A) (cleanup : Eff.M W unit) (w : W) :
  (Eff.try_finally body cleanup w).2 = (cleanup (body w).2).2.
Proof.
  unfold Eff.try_finally. destruct (body w) as [r w1]. simpl.
  by destruct (cleanup w1) as [[[]|e] w2].
Qed.



Ltac unfold_batch_worker :=
  unfold MainForceBatchScheduler.sequential_loop, MainForceBatchScheduler.parallel_loop,
    MainForceBatchScheduler.sequential_body,
    MainForceBatchScheduler.parallel_body, MainForceBatchScheduler.is_set,
    MainForceBatchScheduler.time, MainForceBatchDatabase.update_task_status,
    MainForceBatchDatabase.update_task_progress, MainForceBatchDatabase.save_batch_analysis.

(** X6: the batch worker always gives the scheduler back.  However the
    worker ends (every analysis function, completion order, mode,
    cancellation moment and sqlite fault, also one that makes the worker end
    with an exception), a worker that was started with the lock held leaves
    the lock released and the scheduler without a current task. *)
Theorem X6_batch_worker_releases (w : MainForceBatchWorld.world)
    (analyze : string → outcome pyval)
    (as_completed : list (string * pyval) → list (string * pyval))
    (task_id : string) (stock_codes : list string) (analysis_mode : string)
    (max_workers : nat) :
  MainForceBatchWorld._task_lock (sched w) = true →
  let run := MainForceBatchScheduler._run_analysis analyze as_completed task_id stock_codes
               analysis_mode max_workers w in
  MainForceBatchWorld._task_lock (sched run.2) = false
  ∧ MainForceBatchWorld._current_task_id (sched run.2) = None.
Proof.
  intros Hlock. cbv zeta.
  assert (Hfinal : ∃ w1,
            (MainForceBatchScheduler._run_analysis analyze as_completed task_id stock_codes
               analysis_mode max_workers w).2
            = with_sched (MainForceBatchWorld.with_task_lock (λ _, false))
                (with_sched (MainForceBatchWorld.with_current_task_id (λ _, None)) w1));
    [|by destruct Hfinal as [w1 ->]].
  unfold MainForceBatchScheduler._run_analysis.
  unfold Eff.bind at 1. unfold MainForceBatchScheduler.time at 1, datetime_now at 1.
  set (w0 := with_clock S w).
  assert (Htime : MainForceBatchWorld._task_lock (sched w0) = true) by exact Hlock.
  clearbody w0.
  rewrite try_finally_world.
  match goal with |- context [(?b w0).2] =>
    assert (Hbody : keeps (λ w : MainForceBatchWorld.world,
                             MainForceBatchWorld._task_lock (sched w)) b)
  end.
  { unfold_batch_worker. solve_keeps. }
  specialize (Hbody w0). simpl in Hbody.
  match goal with |- context [(?b w0).2] => destruct (b w0) as [r w1] end.
  simpl in Hbody |- *.
  unfold MainForceBatchScheduler.release, Eff.bind, Eff.modify.
  cbn [fst snd sched with_sched MainForceBatchWorld._task_lock
       MainForceBatchWorld.with_current_task_id].
  rewrite Hbody, Htime. by eexists.
Qed.

Lemma X6_batch_worker_releases_witness :
  let run := MainForceBatchScheduler._run_analysis (Units.fails_on "300750") (λ l, l)
               "task-1" Examples.five_codes "sequential" 3
               (Examples.batch_started [false; false; false; true; true] (Some 2)) in
  MainForceBatchWorld._task_lock (sched run.2) = false
  ∧ MainForceBatchWorld._current_task_id (sched run.2) = None.
Proof.
  cbv zeta.
  apply (X6_batch_worker_releases
           (Examples.batch_started [false; false; false; true; true] (Some 2))
           (Units.fails_on "300750") (λ l, l) "task-1" Examples.five_codes "sequential" 3).
  vm_compute. reflexivity.
Defined.
(** ** Units that fail *)

Lemma succeeded_analyze_single analyze code :
  MainForceBatchScheduler.succeeded (MainForceBatchScheduler._analyze_single analyze code)
  = Units.unit_ok (analyze code).
Proof.
  unfold MainForceBatchScheduler._analyze_single, Units.unit_ok,
    MainForceBatchScheduler.succeeded.
  destruct (analyze code) as [result|e]; [|done].
  by destruct (py_get_truthy result "success") eqn:Hflag; [rewrite Hflag|].
Qed.

Lemma successes_units {A} (f : A → pyval) (ok : A → bool) (xs : list A) :
  (∀ x, MainForceBatchScheduler.succeeded (f x) = ok x) →
  MainForceBatchScheduler.successes (map f xs)
  = length xs - length (filter (λ x, ok x = false) xs).
Proof.
  intros Hok. unfold MainForceBatchScheduler.successes.
  induction xs as [|x xs IH]; [done|].
  cbn [map]. rewrite !filter_cons, Hok.
  pose proof (length_filter (λ x, ok x = false) xs).
  destruct (ok x); repeat case_decide; try done; simpl in *; lia.
Qed.

Lemma successes_analyze analyze codes :
  MainForceBatchScheduler.successes
    (map (MainForceBatchScheduler._analyze_single analyze) codes)
  = length codes - Units.failed_units analyze codes.
Proof.
  apply (successes_units _ (λ code, Units.unit_ok (analyze code))).
  intros code. apply succeeded_analyze_single.
Qed.

Lemma failed_units_le analyze codes : Units.failed_units analyze codes ≤ length codes.
Proof. apply length_filter. Qed.

(** ** The stock batch worker when it is not cancelled *)

Lemma stock_update_task_progress_ok (w : StockAnalysisWorld.world) task_id symbol completed
    progress :
  sql_faults w = [] →
  StockAnalysisTaskDB.update_task_progress task_id symbol completed progress w
  = (Returned true,
     with_tasks (Sql.update_where task_id
                   [("current_symbol", Sql.Text symbol);
                    ("completed_count", Sql.Integer (Z.of_nat completed));
                    ("progress_percent", Sql.Real progress)])
       (with_calls (λ l, l ++ [StockAnalysisWorld.update_task_progress_call task_id symbol
                                 completed progress]) w)).
Proof. destruct w as [? ? ? faults ? ? ? ? ?]. simpl. by intros ->. Qed.

Lemma stock_is_set_quiet (w : StockAnalysisWorld.world) task_id :
  cancel_at w = None →
  StockAnalysisScheduler.is_set task_id w
  = (Returned (default false (StockAnalysisWorld._cancel_events (sched w) !! task_id)),
     with_is_set_reads S w).
Proof.
  intros Hnever. unfold StockAnalysisScheduler.is_set, Eff.bind, planned_cancel.
  by rewrite Hnever.
Qed.

Lemma stock_percent_positive completed total :
  0 < total →
  StockAnalysisScheduler.percent completed total
  = Returned ((Z.of_nat completed # Pos.of_nat total) * 100)%Q.
Proof.
  intros Ht. unfold StockAnalysisScheduler.percent.
  destruct (Nat.eqb_spec total 0); [lia | done].
Qed.

Lemma stock_body_round task_id total future results completed
    (w : StockAnalysisWorld.world) :
  sql_faults w = [] → cancel_at w = None →
  default false (StockAnalysisWorld._cancel_events (sched w) !! task_id) = false →
  0 < total → StockRun.countable future.2 = true →
  StockAnalysisScheduler.batch_body task_id total future (results, completed) w
  = (Returned (Eff.Next (results ++ [StockRun.entry future], completed + 1)),
     StockRun.after_unit task_id total future.1 completed w).
Proof.
  intros Hfaults Hnever Hevent Htotal Hcountable.
  unfold StockAnalysisScheduler.batch_body, Eff.bind at 1.
  rewrite stock_is_set_quiet, Hevent by done. cbv zeta. cbn [fst snd].
  unfold StockRun.entry. destruct future as [symbol [result|e]]; cbn [fst snd] in *.
  - unfold Eff.try_except, Eff.bind, Eff.lift.
    rewrite stock_percent_positive by done.
    rewrite stock_update_task_progress_ok by done.
    unfold StockRun.countable in Hcountable.
    by destruct (py_get_truthy result "success").
  - unfold StockAnalysisScheduler.on_unit_exception, Eff.bind, Eff.lift.
    rewrite stock_percent_positive by done.
    by rewrite stock_update_task_progress_ok by done.
Qed.

Lemma undisturbed_refl task_id (w : StockAnalysisWorld.world) : StockRun.undisturbed task_id w w.
Proof. by repeat split. Qed.

Lemma undisturbed_trans task_id (w1 w2 w3 : StockAnalysisWorld.world) :
  StockRun.undisturbed task_id w1 w2 → StockRun.undisturbed task_id w2 w3 →
  StockRun.undisturbed task_id w1 w3.
Proof.
  intros (Hf & Ha & Hs & Hr & Hc) (Hf' & Ha' & Hs' & Hr' & Hc').
  repeat split; try congruence.
  - intros ?. by apply Hr, Hr'.
  - intros ?. by apply Hr', Hr.
  - intros column Hcolumn. by rewrite Hc', Hc.
Qed.

Lemma undisturbed_after_unit task_id total symbol completed (w : StockAnalysisWorld.world) :
  StockRun.undisturbed task_id w (StockRun.after_unit task_id total symbol completed w).
Proof.
  unfold StockRun.after_unit. repeat split; try done;
    cbn [tasks with_tasks with_calls with_is_set_reads].
  - by rewrite update_where_is_Some.
  - by rewrite update_where_is_Some.
  - intros column Hcolumn. apply cell_update_where_unassigned.
    apply list_elem_of_In in Hcolumn. simpl in Hcolumn.
    by destruct Hcolumn as [<-|[<-|[]]].
Qed.

Lemma after_unit_completed task_id total symbol completed (w : StockAnalysisWorld.world) :
  is_Some (tasks w !! task_id) →
  cell (tasks (StockRun.after_unit task_id total symbol completed w)) task_id
    "completed_count" = of_nat (completed + 1).
Proof.
  intros Hrow. unfold StockRun.after_unit.
  cbn [tasks with_tasks with_calls with_is_set_reads].
  by rewrite cell_update_where_same.
Qed.

Lemma stock_loop_run task_id total futures :
  ∀ results (w : StockAnalysisWorld.world),
    sql_faults w = [] → cancel_at w = None →
    default false (StockAnalysisWorld._cancel_events (sched w) !! task_id) = false →
    is_Some (tasks w !! task_id) → length futures ≤ total →
    Forall (λ future, StockRun.countable future.2 = true) futures →
    let out := results ++ map StockRun.entry futures in
    ∃ w',
      Eff.for_loop futures (results, length results)
        (StockAnalysisScheduler.batch_body task_id total) w
      = (Returned (Eff.Next (out, length out)), w')
      ∧ StockRun.undisturbed task_id w w'
      ∧ (futures = [] → tasks w' = tasks w)
      ∧ (futures ≠ [] → cell (tasks w') task_id "completed_count" = of_nat (length out)).
Proof.
  induction futures as [|future futures IH];
    intros results w Hfaults Hnever Hevent Hrow Htotal Hcountable.
  - exists w. simpl. rewrite app_nil_r.
    split; [done|]. split; [apply undisturbed_refl|]. done.
  - cbv zeta. cbn [Eff.for_loop]. unfold Eff.bind at 1.
    apply Forall_cons in Hcountable as [Hfuture Hcountable].
    simpl in Htotal.
    rewrite stock_body_round by (done || lia).
    set (w1 := StockRun.after_unit task_id total future.1 (length results) w).
    pose proof (undisturbed_after_unit task_id total future.1 (length results) w) as Hkept1.
    fold w1 in Hkept1.
    destruct Hkept1 as (Hf1 & Ha1 & Hs1 & Hr1 & Hc1).
    replace (length results + 1) with (length (results ++ [StockRun.entry future]))
      by (rewrite length_app; simpl; lia).
    destruct (IH (results ++ [StockRun.entry future]) w1)
      as (w' & Hrun & Hkept & Hnil & Hcons); try done; try congruence.
    { by apply Hr1. }
    { lia. }
    cbv zeta in Hrun, Hnil, Hcons.
    exists w'. cbn [map].
    replace (results ++ StockRun.entry future :: map StockRun.entry futures)
      with ((results ++ [StockRun.entry future]) ++ map StockRun.entry futures)
      by by rewrite <- app_assoc.
    split; [exact Hrun|]. split; [|split; [done|]].
    + eapply undisturbed_trans; [|exact Hkept].
      exact (conj Hf1 (conj Ha1 (conj Hs1 (conj Hr1 Hc1)))).
    + intros _. destruct futures as [|future' futures].
      * rewrite Hnil by done. subst w1.
        rewrite after_unit_completed by done. simpl.
        by rewrite app_nil_r, length_app.
      * by apply Hcons.
Qed.

Lemma stock_update_task_status_ok (w : StockAnalysisWorld.world) task_id status
    (text : option string) :
  sql_faults w = [] → is_Some (tasks w !! task_id) →
  ∃ w',
    StockAnalysisTaskDB.update_task_status task_id status
      (match text with Some s => PStr s | None => PNone end) w
    = (Returned true, w')
    ∧ StockRun.undisturbed task_id
        (with_tasks (Sql.update_where task_id
                       [("status", Sql.Text status);
                        ("error_message",
                         match text with
                         | Some s =>
                             if String.eqb s "" then cell (tasks w) task_id "error_message"
                             else Sql.Text s
                         | None => cell (tasks w) task_id "error_message"
                         end)]) w) w'
    ∧ cell (tasks w') task_id "completed_count" = cell (tasks w) task_id "completed_count".
Proof.
  destruct w as [t h c faults u cs r ca s]. simpl. intros -> Hrow.
  unfold StockAnalysisTaskDB.update_task_status, StockRun.undisturbed.
  destruct text as [text|]; [destruct (String.eqb text "") eqn:Htext|];
    destruct (String.eqb status "running"), (Sql.terminal_status status);
    run_eff; rewrite ?Htext; run_eff;
    (eexists; split; [reflexivity|]; cbn [tasks sql_faults cancel_at sched];
     split; [|by rewrite cell_update_where_same by done];
     split; [done|]; split; [done|]; split; [done|]; split;
     [intros key; by rewrite !update_where_is_Some|];
     intros column Hcolumn; apply list_elem_of_In in Hcolumn; simpl in Hcolumn;
     destruct Hcolumn as [<-|[<-|[]]]; by rewrite !cell_update_where_same by done).
Qed.

Lemma stock_save_task_result_ok (w : StockAnalysisWorld.world) task_id results :
  sql_faults w = [] →
  ∃ b w',
    StockAnalysisTaskDB.save_task_result task_id results w = (Returned b, w')
    ∧ StockRun.undisturbed task_id w w'
    ∧ cell (tasks w') task_id "completed_count" = cell (tasks w) task_id "completed_count".
Proof.
  destruct w as [t h c faults u cs r ca s]. simpl. intros ->.
  unfold StockAnalysisTaskDB.save_task_result, StockRun.undisturbed, Json.dumps.
  run_eff. destruct (_clean_for_json results) as [cleaned|e]; run_eff;
    [destruct (Json.dumpable true cleaned); run_eff|];
    eexists _, _; (split; [reflexivity|]); cbn [tasks sql_faults cancel_at sched];
    (split; [|first [done | by apply cell_update_where_unassigned]]);
    (split; [done|]; split; [done|]; split; [done|]; split);
    first [ done
          | intros key; by rewrite update_where_is_Some
          | intros column Hcolumn; apply list_elem_of_In in Hcolumn; simpl in Hcolumn;
            destruct Hcolumn as [<-|[<-|[]]];
            first [done | by apply cell_update_where_unassigned] ].
Qed.

Lemma stock_count_success_counted results :
  Forall (λ r, MainForceBatchScheduler.counted r = true) results →
  StockAnalysisScheduler.count_success results
  = Returned (MainForceBatchScheduler.successes results).
Proof. apply (count_where_counted true). Qed.

Lemma entry_counted future :
  StockRun.countable future.2 = true →
  MainForceBatchScheduler.counted (StockRun.entry future) = true.
Proof. unfold StockRun.entry. by destruct future as [symbol [result|e]]. Qed.

Lemma succeeded_entry symbol o :
  MainForceBatchScheduler.succeeded (StockRun.entry (symbol, o)) = Units.unit_ok o.
Proof. by destruct o. Qed.

Lemma summary_given success_count failed_count :
  String.eqb (StockAnalysisScheduler.summary success_count failed_count) "" = false.
Proof. reflexivity. Qed.

Lemma run_batch_analysis_completed analyze as_completed task_id symbols max_workers
    (w : StockAnalysisWorld.world) :
  sql_faults w = [] → cancel_at w = None →
  default false (StockAnalysisWorld._cancel_events (sched w) !! task_id) = false →
  is_Some (tasks w !! task_id) → 0 < max_workers →
  (∀ l, as_completed l ≡ₚ l) →
  Forall (λ symbol, StockRun.countable (analyze symbol) = true) symbols →
  let run := StockAnalysisScheduler._run_batch_analysis analyze as_completed task_id symbols
               max_workers w in
  let n := length symbols in
  let k := Units.failed_units analyze symbols in
  run.1 = Returned tt
  ∧ cell (tasks run.2) task_id "status" = Sql.Text "completed"
  ∧ cell (tasks run.2) task_id "error_message"
    = StockRun.reported n k (cell (tasks w) task_id "error_message")
  ∧ (0 < n → cell (tasks run.2) task_id "completed_count" = of_nat n).
Proof.
  intros Hfaults Hnever Hevent Hrow Hworkers Hperm Hcountable. cbv zeta.
  apply (wp_run (StockAnalysisScheduler._run_batch_analysis analyze as_completed task_id
                   symbols max_workers)
           (λ r w', r = Returned tt
                    ∧ cell (tasks w') task_id "status" = Sql.Text "completed"
                    ∧ cell (tasks w') task_id "error_message"
                      = StockRun.reported (length symbols)
                          (Units.failed_units analyze symbols)
                          (cell (tasks w) task_id "error_message")
                    ∧ (0 < length symbols →
                       cell (tasks w') task_id "completed_count"
                       = of_nat (length symbols)))).
  unfold StockAnalysisScheduler._run_batch_analysis.
  apply wp_try_finally, wp_try_except.
  (* the status running *)
  destruct (stock_update_task_status_ok w task_id "running" None Hfaults Hrow)
    as (w1 & Hrun1 & (Hf1 & Ha1 & Hs1 & Hr1 & Hc1) & _).
  cbn [tasks sql_faults cancel_at sched with_tasks] in Hf1, Ha1, Hs1, Hr1, Hc1.
  apply wp_bind. eapply wp_eq; [exact Hrun1|].
  apply wp_bind, wp_lift. unfold thread_pool.
  destruct (Nat.eqb_spec max_workers 0); [lia|].
  (* the loop *)
  set (futures := map (λ symbol, (symbol, analyze symbol)) symbols).
  assert (Hlen : length (as_completed futures) = length symbols).
  { rewrite (Hperm futures). subst futures. by rewrite length_map. }
  destruct (stock_loop_run task_id (length symbols) (as_completed futures) [] w1)
    as (w2 & Hrun2 & (Hf2 & Ha2 & Hs2 & Hr2 & Hc2) & Hnil & Hcons); try congruence.
  { apply Hr1. by rewrite update_where_is_Some. }
  { lia. }
  { rewrite (Hperm futures). subst futures. by rewrite Forall_fmap. }
  cbn [app length] in Hrun2, Hcons.
  set (out := map StockRun.entry (as_completed futures)) in *.
  apply wp_bind. eapply wp_eq; [exact Hrun2|]. cbv beta iota.
  assert (Hout : length out = length symbols) by (subst out; by rewrite length_map).
  assert (Hcounted : Forall (λ r, MainForceBatchScheduler.counted r = true) out).
  { subst out. apply Forall_fmap. rewrite (Hperm futures). subst futures.
    apply Forall_fmap. eapply Forall_impl; [exact Hcountable|].
    intros symbol Hsymbol. by apply entry_counted. }
  assert (Hsucc : MainForceBatchScheduler.successes out
                  = length symbols - Units.failed_units analyze symbols).
  { subst out. rewrite (successes_perm _ (map StockRun.entry futures))
      by by rewrite (Hperm futures).
    subst futures. rewrite map_map.
    apply (successes_units _ (λ symbol, Units.unit_ok (analyze symbol))).
    intros symbol. apply succeeded_entry. }
  pose proof (failed_units_le analyze symbols) as Hle.
  (* the results *)
  destruct (stock_save_task_result_ok w2 task_id (PList out)) as
    (b & w3 & Hrun3 & (Hf3 & Ha3 & Hs3 & Hr3 & Hc3) & Hcount3); [congruence|].
  apply wp_bind. eapply wp_eq; [exact Hrun3|].
  apply wp_bind, wp_lift. rewrite stock_count_success_counted by done.
  rewrite Hsucc.
  assert (Hrow3 : is_Some (tasks w3 !! task_id)).
  { apply Hr3, Hr2, Hr1. by rewrite update_where_is_Some. }
  assert (Hfaults3 : sql_faults w3 = []) by congruence.
  assert (Hmessage : cell (tasks w3) task_id "error_message"
                     = cell (tasks w) task_id "error_message").
  { rewrite Hc3, Hc2, Hc1 by (apply list_elem_of_In; simpl; auto).
    by rewrite cell_update_where_same by done. }
  assert (Hcompleted : 0 < length symbols →
            cell (tasks w3) task_id "completed_count" = of_nat (length symbols)).
  { intros Hpos. rewrite Hcount3, Hcons, Hout; [done|].
    intros Hnone. rewrite Hnone in Hlen. simpl in Hlen. lia. }
  unfold StockRun.reported.
  destruct (Nat.eqb_spec (Units.failed_units analyze symbols) 0) as [Hzero|Hsome].
  - replace (Z.of_nat (length symbols)
             - Z.of_nat (length symbols - Units.failed_units analyze symbols))%Z
      with 0%Z by lia.
    cbn [Z.eqb].
    destruct (stock_update_task_status_ok w3 task_id "completed" None Hfaults3 Hrow3)
      as (w4 & Hrun4 & (Hf4 & Ha4 & Hs4 & Hr4 & Hc4) & Hcount4).
    apply wp_bind. eapply wp_eq; [exact Hrun4|]. apply wp_ret.
    unfold StockAnalysisScheduler._cleanup_task.
    apply wp_bind, wp_modify, wp_modify.
    cbn [tasks with_sched with_tasks] in *.
    split; [done|]. split; [|split].
    + rewrite Hc4 by (apply list_elem_of_In; simpl; auto).
      by rewrite cell_update_where_same by done.
    + rewrite Hc4 by (apply list_elem_of_In; simpl; auto).
      by rewrite cell_update_where_same by done.
    + intros Hpos. rewrite Hcount4. by apply Hcompleted.
  - replace (Z.of_nat (length symbols)
             - Z.of_nat (length symbols - Units.failed_units analyze symbols))%Z
      with (Z.of_nat (Units.failed_units analyze symbols)) by lia.
    destruct (Z.eqb_spec (Z.of_nat (Units.failed_units analyze symbols)) 0); [lia|].
    destruct (stock_update_task_status_ok w3 task_id "completed"
                (Some (StockAnalysisScheduler.summary
                         (length symbols - Units.failed_units analyze symbols)
                         (Z.of_nat (Units.failed_units analyze symbols))))
                Hfaults3 Hrow3)
      as (w4 & Hrun4 & (Hf4 & Ha4 & Hs4 & Hr4 & Hc4) & Hcount4).
    rewrite summary_given in Hc4.
    apply wp_bind. eapply wp_eq; [exact Hrun4|]. apply wp_ret.
    unfold StockAnalysisScheduler._cleanup_task.
    apply wp_bind, wp_modify, wp_modify.
    cbn [tasks with_sched with_tasks] in *.
    split; [done|]. split; [|split].
    + rewrite Hc4 by (apply list_elem_of_In; simpl; auto).
      by rewrite cell_update_where_same by done.
    + rewrite Hc4 by (apply list_elem_of_In; simpl; auto).
      by rewrite cell_update_where_same by done.
    + intros Hpos. rewrite Hcount4. by apply Hcompleted.
Qed.

(** ** Batches with failing units *)

Lemma reports_countable o : StockRun.reports o = true → StockRun.countable o = true.
Proof. by destruct o as [[]|]. Qed.

(** C5, as stated, fails: a batch that runs through all its units without
    being cancelled can still end as failed, or stay running.  In the batch
    scheduler, when sqlite raises at the last status update (all five units
    analysed, the history record saved) the handler writes the status
    failed; so it does when the outcome of a unit holds a key that JSON does
    not accept, and then nothing is saved.  In the stock scheduler a storage
    error at the last status update is swallowed by the store, and the row
    stays running. *)
Lemma C5_exhausted_not_completed_counterexample :
  let late_fault := replicate 14 false ++ [true] in
  let run := MainForceBatchScheduler._run_analysis (Units.fails_on "300750") (λ l, l)
               "task-1" Examples.five_codes "sequential" 3
               (Examples.batch_started late_fault None) in
  let unstorable := MainForceBatchScheduler._run_analysis (Units.tuple_key_on "300750")
                      (λ l, l) "task-1" Examples.five_codes "sequential" 3
                      (Examples.batch_started [] None) in
  let stock := StockAnalysisScheduler._run_batch_analysis (Units.fails_on "300750")
                 (λ l, l) "task-1" Examples.five_codes 3
                 (Examples.stock_batch_started (replicate 8 false ++ [true]) None) in
  (cell (tasks run.2) "task-1" "status" = Sql.Text "failed"
   ∧ cell (tasks run.2) "task-1" "completed_count" = of_nat 5
   ∧ length (history run.2) = 1)
  ∧ (cell (tasks unstorable.2) "task-1" "status" = Sql.Text "failed"
     ∧ cell (tasks unstorable.2) "task-1" "completed_count" = of_nat 5
     ∧ history unstorable.2 = [])
  ∧ (stock.1 = Returned tt
     ∧ cell (tasks stock.2) "task-1" "status" = Sql.Text "running"
     ∧ cell (tasks stock.2) "task-1" "completed_count" = of_nat 5).
Proof. vm_compute. repeat split; reflexivity. Qed.

(** C5, amended: a batch of [n] units, [k] of which fail (the analysis
    raises, or its result reports no success), that is not cancelled and
    meets no storage error ends as completed, not failed, when every unit
    raises or returns a dict whose [success] entry has a truth value and,
    for the batch scheduler, the outcomes can be written as JSON.  The batch
    scheduler (sequential mode, or a pool of at least one worker handing the
    units back in any order) leaves [completed_count = n],
    [success_count = n - k] and [failed_count = k] in the task row and in
    the history record it appends.  The stock scheduler has no such columns:
    it leaves [completed_count = n] (for [n > 0]) and writes the two counts
    into [error_message] when [k > 0]. *)
Theorem C5_partial_failure
    (analyze : string → outcome pyval) (codes : list string)
    (batch_order : list (string * pyval) → list (string * pyval))
    (batch_task analysis_mode : string) (batch_workers : nat)
    (wb : MainForceBatchWorld.world)
    (stock_order : list (string * outcome pyval) → list (string * outcome pyval))
    (stock_task : string) (stock_workers : nat) (ws : StockAnalysisWorld.world) :
  let n := length codes in
  let k := Units.failed_units analyze codes in
  let batch := MainForceBatchScheduler._run_analysis analyze batch_order batch_task codes
                 analysis_mode batch_workers wb in
  let stock := StockAnalysisScheduler._run_batch_analysis analyze stock_order stock_task
                 codes stock_workers ws in
  Forall (λ code, StockRun.reports (analyze code) = true) codes →
  (sql_faults wb = [] → cancel_at wb = None → _cancel_flag (sched wb) = false →
   _task_lock (sched wb) = true →
   is_Some (tasks wb !! batch_task) → counts_are wb batch_task [] →
   (analysis_mode = "sequential" ∨ 0 < batch_workers) →
   (∀ l, batch_order l ≡ₚ l) →
   Forall (λ code, Units.storable (MainForceBatchScheduler._analyze_single analyze code)
                   = true) codes →
   cell (tasks batch.2) batch_task "status" = Sql.Text "completed"
   ∧ cell (tasks batch.2) batch_task "completed_count" = of_nat n
   ∧ cell (tasks batch.2) batch_task "success_count" = of_nat (n - k)
   ∧ cell (tasks batch.2) batch_task "failed_count" = of_nat k
   ∧ ∃ record, history batch.2 = history wb ++ [record]
               ∧ Sql.col record "batch_count" = of_nat n
               ∧ Sql.col record "success_count" = of_nat (n - k)
               ∧ Sql.col record "failed_count" = of_nat k)
  ∧ (sql_faults ws = [] → cancel_at ws = None →
     default false (StockAnalysisWorld._cancel_events (sched ws) !! stock_task) = false →
     is_Some (tasks ws !! stock_task) → 0 < stock_workers →
     (∀ l, stock_order l ≡ₚ l) →
     stock.1 = Returned tt
     ∧ cell (tasks stock.2) stock_task "status" = Sql.Text "completed"
     ∧ (0 < n → cell (tasks stock.2) stock_task "completed_count" = of_nat n)
     ∧ cell (tasks stock.2) stock_task "error_message"
       = StockRun.reported n k (cell (tasks ws) stock_task "error_message")).
Proof.
  cbv zeta. intros Hreports. split.
  - intros Hfaults Hnever Hflag Hlock Hrow Hfresh Hmode Hperm Hstorable.
    pose proof (run_analysis_completed analyze batch_order batch_task codes
                  analysis_mode batch_workers wb Hfaults Hflag Hlock Hnever Hrow Hfresh
                  Hmode Hperm Hstorable) as Hrun.
    unfold wp in Hrun.
    destruct Hrun as (out & total_time & _ & Hout & Hstatus & Hcounts & Hhistory & _).
    pose proof (failed_units_le analyze codes) as Hle.
    assert (Hlen : length out = length codes) by by rewrite Hout, length_map.
    assert (Hsucc : MainForceBatchScheduler.successes out
                    = length codes - Units.failed_units analyze codes)
      by by rewrite (successes_perm _ _ Hout), successes_analyze.
    destruct Hcounts as (Hc & Hs & Hf). rewrite Hlen, Hsucc in *.
    replace (length codes - (length codes - Units.failed_units analyze codes))
      with (Units.failed_units analyze codes) in * by lia.
    repeat split; try done.
    eexists. split; [exact Hhistory|]. done.
  - intros Hfaults Hnever Hevent Hrow Hworkers Hperm.
    destruct (run_batch_analysis_completed analyze stock_order stock_task codes
                stock_workers ws) as (Hreturn & Hstatus & Hmessage & Hcount); try done.
    eapply Forall_impl; [exact Hreports|]. intros code. apply reports_countable.
Qed.

Lemma C5_partial_failure_witness :
  let batch := MainForceBatchScheduler._run_analysis (Units.fails_on "300750") (λ l, l)
                 "task-1" Examples.five_codes "sequential" 3
                 (Examples.batch_started [] None) in
  let stock := StockAnalysisScheduler._run_batch_analysis (Units.fails_on "300750")
                 (λ l, l) "task-1" Examples.five_codes 3
                 (Examples.stock_batch_started [] None) in
  (cell (tasks batch.2) "task-1" "status" = Sql.Text "completed"
   ∧ cell (tasks batch.2) "task-1" "failed_count" = of_nat 1)
  ∧ (cell (tasks stock.2) "task-1" "status" = Sql.Text "completed"
     ∧ cell (tasks stock.2) "task-1" "error_message"
       = Sql.Text (StockAnalysisScheduler.summary 4 1)).
Proof.
  cbv zeta.
  destruct (C5_partial_failure (Units.fails_on "300750") Examples.five_codes
              (λ l, l) "task-1" "sequential" 3 (Examples.batch_started [] None)
              (λ l, l) "task-1" 3 (Examples.stock_batch_started [] None))
    as [Hbatch Hstock].
  { unfold Examples.five_codes. repeat (constructor; [vm_compute; reflexivity|]).
    constructor. }
  destruct Hbatch as (Hstatus & _ & _ & Hfailed & _).
  { reflexivity. }
  { reflexivity. }
  { reflexivity. }
  { reflexivity. }
  { apply is_Some_computed. vm_compute. reflexivity. }
  { vm_compute. repeat split; reflexivity. }
  { left. reflexivity. }
  { intros l. reflexivity. }
  { unfold Examples.five_codes. repeat (constructor; [vm_compute; reflexivity|]).
    constructor. }
  destruct Hstock as (_ & Hstatus' & _ & Hmessage).
  { reflexivity. }
  { reflexivity. }
  { vm_compute. reflexivity. }
  { apply is_Some_computed. vm_compute. reflexivity. }
  { lia. }
  { intros l. reflexivity. }
  split; [split; [exact Hstatus | exact Hfailed]|].
  split; [exact Hstatus'|]. rewrite Hmessage. vm_compute. reflexivity.
Defined.
